(** * x-radar: the request pipeline of [skill/scripts/x_search.py]

    A shallow embedding of the cache store, the HTTP fetcher, the result
    ranker, the cost estimator, the three query operations and the argument
    validators, followed by the properties the specification states about
    them and by further properties of the code. *)

From Stdlib Require Import ZArith List String Ascii Bool Lia Permutation Sorted.
From Stdlib Require Import DecimalString OrderedTypeEx.
From Stdlib Require Import Floats.SpecFloat.
From stdpp Require Import base option gmap strings.
Import ListNotations.

Local Open Scope string_scope.
Local Open Scope Z_scope.

(** * SHA-256 (FIPS 180-4), the digest behind [hashlib.sha256]

    Words are 32-bit integers carried in [Z]; every addition wraps. *)

Module Sha256.

Definition mask32 : Z := 4294967295.
Definition add32 (x y : Z) : Z := Z.land (x + y) mask32.
Definition rotr (n x : Z) : Z :=
  Z.land (Z.lor (Z.shiftr x n) (Z.shiftl x (32 - n))) mask32.
Definition shr (n x : Z) : Z := Z.shiftr x n.
Definition not32 (x : Z) : Z := Z.lxor x mask32.

Definition Ch (x y z : Z) : Z := Z.lxor (Z.land x y) (Z.land (not32 x) z).
Definition Maj (x y z : Z) : Z :=
  Z.lxor (Z.lxor (Z.land x y) (Z.land x z)) (Z.land y z).
Definition bsig0 (x : Z) : Z := Z.lxor (Z.lxor (rotr 2 x) (rotr 13 x)) (rotr 22 x).
Definition bsig1 (x : Z) : Z := Z.lxor (Z.lxor (rotr 6 x) (rotr 11 x)) (rotr 25 x).
Definition ssig0 (x : Z) : Z := Z.lxor (Z.lxor (rotr 7 x) (rotr 18 x)) (shr 3 x).
Definition ssig1 (x : Z) : Z := Z.lxor (Z.lxor (rotr 17 x) (rotr 19 x)) (shr 10 x).

(** The constants are fractional parts of roots of the first primes: the
    first 32 bits of the cube roots of the first 64 primes for [K], of the
    square roots of the first 8 primes for the initial hash value. *)
Definition is_prime (n : nat) : bool :=
  forallb (fun d => negb (n mod d =? 0)%nat) (seq 2 (n - 2)).

Definition primes : list Z := map Z.of_nat (List.filter is_prime (seq 2 310)).

(** The integer cube root, one bit at a time from bit 39 down. *)
Definition cbrt_step (n : Z) (r : Z) (b : nat) : Z :=
  let r' := r + Z.shiftl 1 (Z.of_nat b) in
  if r' * r' * r' <=? n then r' else r.

Definition cbrt (n : Z) : Z := fold_left (cbrt_step n) (rev (seq 0 40)) 0.

Definition frac32_cbrt (p : Z) : Z := Z.land (cbrt (Z.shiftl p 96)) mask32.
Definition frac32_sqrt (p : Z) : Z := Z.land (Z.sqrt (Z.shiftl p 64)) mask32.

Definition K : list Z := Eval vm_compute in map frac32_cbrt primes.

(** The eight working variables / the running hash value. *)
Record state := St { sa : Z; sb : Z; sc : Z; sd : Z; se : Z; sf : Z; sg : Z; sh : Z }.

Definition H0 : state :=
  Eval vm_compute in
  match map frac32_sqrt (firstn 8 primes) with
  | [a; b; c; d; e; f; g; h] => St a b c d e f g h
  | _ => St 0 0 0 0 0 0 0 0
  end.

(** Padding: a 1 bit, zero bits up to 56 mod 64 bytes, then the bit length
    as a 64-bit big-endian integer. *)
Definition be_bytes (n : nat) (x : Z) : list Z :=
  map (fun i => Z.land (Z.shiftr x (8 * Z.of_nat i)) 255) (rev (seq 0 n)).

Definition pad (msg : list Z) : list Z :=
  let len := Z.of_nat (length msg) in
  let k := (55 - len) mod 64 in
  msg ++ [128] ++ repeat 0 (Z.to_nat k) ++ be_bytes 8 (8 * len).

Fixpoint be_words (bs : list Z) : list Z :=
  match bs with
  | b0 :: b1 :: b2 :: b3 :: rest =>
      (Z.shiftl b0 24 + Z.shiftl b1 16 + Z.shiftl b2 8 + b3) :: be_words rest
  | _ => []
  end.

(** The message schedule, kept newest word first: the head is W(t-1). *)
Fixpoint extend (n : nat) (rw : list Z) : list Z :=
  match n with
  | O => rw
  | S n' =>
      let w := add32 (add32 (ssig1 (nth 1 rw 0)) (nth 6 rw 0))
                     (add32 (ssig0 (nth 14 rw 0)) (nth 15 rw 0)) in
      extend n' (w :: rw)
  end.

Definition schedule (block : list Z) : list Z := rev (extend 48 (rev block)).

Definition round (s : state) (kw : Z * Z) : state :=
  let '(St a b c d e f g h) := s in
  let t1 := add32 (add32 (add32 h (bsig1 e)) (add32 (Ch e f g) (fst kw))) (snd kw) in
  let t2 := add32 (bsig0 a) (Maj a b c) in
  St (add32 t1 t2) a b c (add32 d t1) e f g.

Definition compress (s : state) (block : list Z) : state :=
  let '(St a b c d e f g h) := fold_left round (combine K (schedule block)) s in
  St (add32 (sa s) a) (add32 (sb s) b) (add32 (sc s) c) (add32 (sd s) d)
     (add32 (se s) e) (add32 (sf s) f) (add32 (sg s) g) (add32 (sh s) h).

Fixpoint blocks (n : nat) (ws : list Z) : list (list Z) :=
  match n with
  | O => []
  | S n' => firstn 16 ws :: blocks n' (skipn 16 ws)
  end.

Definition digest (msg : list Z) : state :=
  let ws := be_words (pad msg) in
  fold_left compress (blocks (length ws / 16) ws) H0.

Definition hex_digit (x : Z) : ascii :=
  match String.get (Z.to_nat (Z.land x 15)) "0123456789abcdef" with
  | Some c => c
  | None => "0"%char
  end.

Definition hex_word (w : Z) : string :=
  string_of_list_ascii
    (map (fun i => hex_digit (Z.shiftr w (4 * Z.of_nat i))) (rev (seq 0 8))).

Definition hexdigest (s : state) : string :=
  hex_word (sa s) ++ hex_word (sb s) ++ hex_word (sc s) ++ hex_word (sd s) ++
  hex_word (se s) ++ hex_word (sf s) ++ hex_word (sg s) ++ hex_word (sh s).

End Sha256.

(** A Python [str] is carried as its UTF-8 byte sequence, so
    [url.encode("utf-8")] is the byte list of the string itself. *)
Definition utf8 (s : string) : list Z :=
  map (fun c => Z.of_N (N_of_ascii c)) (list_ascii_of_string s).

Definition sha256_hex (s : string) : string := Sha256.hexdigest (Sha256.digest (utf8 s)).

(** * Values

    What [json.loads] yields: [None], [bool], [int], [float] (IEEE binary64,
    as a [spec_float]), [str], [list] and [dict].  A [dict] is an association
    list with distinct keys, looked up by key. *)

#[local] Set Warnings "-register-all".
Inductive json : Type :=
| JNull
| JBool (b : bool)
| JInt (n : Z)
| JFloat (f : spec_float)
| JStr (s : string)
| JArr (items : list json)
| JObj (fields : list (string * json)).

Fixpoint assoc {A : Type} (k : string) (kvs : list (string * A)) : option A :=
  match kvs with
  | [] => None
  | (k', v) :: rest => if String.eqb k k' then Some v else assoc k rest
  end.

(** Python truthiness of a JSON value. *)
Definition truthy (v : json) : bool :=
  match v with
  | JNull => false
  | JBool b => b
  | JInt n => negb (Z.eqb n 0)
  | JFloat (S754_zero _) => false
  | JFloat _ => true
  | JStr s => negb (String.eqb s "")
  | JArr items => match items with [] => false | _ => true end
  | JObj fields => match fields with [] => false | _ => true end
  end.

(** [a or b]. *)
Definition py_or (a b : json) : json := if truthy a then a else b.

(** The text of a file or of a response body, seen through [json.loads]:
    either the serialisation [json.dumps] gives a value, which [json.loads]
    reads back as that value, or a text [json.loads] rejects. *)
Inductive text : Type :=
| JsonText (j : json)
| OtherText (s : string).

Definition json_dumps (j : json) : text := JsonText j.
Definition json_loads (t : text) : option json :=
  match t with JsonText j => Some j | OtherText _ => None end.

(** * Exceptions *)

Inductive exn_class : Type :=
| ValueError
| UnicodeDecodeError          (* a subclass of ValueError *)
| UnicodeEncodeError          (* a subclass of ValueError *)
| XRadarError
| AttributeError
| TypeError
| OverflowError
| OSError
| OtherException (name : string).

Record exn : Type := Exn { exn_cls : exn_class; exn_msg : string }.

Definition is_ValueError (c : exn_class) : bool :=
  match c with ValueError | UnicodeDecodeError | UnicodeEncodeError => true | _ => false end.

Definition is_XRadarError (c : exn_class) : bool :=
  match c with XRadarError => true | _ => false end.

Definition class_name (c : exn_class) : string :=
  match c with
  | ValueError => "ValueError"
  | UnicodeDecodeError => "UnicodeDecodeError"
  | UnicodeEncodeError => "UnicodeEncodeError"
  | XRadarError => "XRadarError"
  | AttributeError => "AttributeError"
  | TypeError => "TypeError"
  | OverflowError => "OverflowError"
  | OSError => "OSError"
  | OtherException name => name
  end.

(** The outcome of a call: it returns or it raises. *)
Inductive res (A : Type) : Type :=
| Ok (a : A)
| Raise (e : exn).
Arguments Ok {A} a.
Arguments Raise {A} e.

Definition res_bind {A B : Type} (r : res A) (k : A -> res B) : res B :=
  match r with Ok a => k a | Raise e => Raise e end.

Notation "'let?' x ':=' r 'in' k" := (res_bind r (fun x => k))
  (at level 10, x pattern, r at level 100, k at level 200).

Definition raise {A : Type} (c : exn_class) (msg : string) : res A := Raise (Exn c msg).

(** * Strings

    A [str] is carried as UTF-8: a character is a byte that is no
    continuation byte, with the continuation bytes that follow it.  The
    strings of a command line are text that UTF-8 encodes.  A string of a
    payload may hold a lone surrogate (the JSON escape [\ud800], say), which
    UTF-8 does not encode: the bytes that carry one are the runtime's, and
    [py_encodable] below tells the texts that hold none. *)

Definition is_continuation (c : ascii) : bool :=
  let n := nat_of_ascii c in (128 <=? n)%nat && (n <=? 191)%nat.

Fixpoint characters (s : string) : list string :=
  match s with
  | EmptyString => []
  | String c rest =>
      match characters rest with
      | (String d _ as ch) :: chs =>
          if is_continuation d then String c ch :: chs
          else String c EmptyString :: ch :: chs
      | chs => String c EmptyString :: chs
      end
  end.

(** The string of a list of characters. *)
Fixpoint text_of (chs : list string) : string :=
  match chs with
  | [] => EmptyString
  | ch :: rest => ch ++ text_of rest
  end.

Definition bytes (l : list Z) : string :=
  fold_right (fun n s => String (ascii_of_N (Z.to_N n)) s) EmptyString l.

Definition is_upper (c : ascii) : bool :=
  let n := nat_of_ascii c in (65 <=? n)%nat && (n <=? 90)%nat.

Definition lower_ascii (c : ascii) : ascii :=
  if is_upper c then ascii_of_nat (nat_of_ascii c + 32) else c.

(** [s.lower()] of a string of ASCII characters. *)
Fixpoint ascii_lower (s : string) : string :=
  match s with
  | EmptyString => EmptyString
  | String c rest => String (lower_ascii c) (ascii_lower rest)
  end.

(** [s.isascii()]. *)
Fixpoint is_ascii (s : string) : bool :=
  match s with
  | EmptyString => true
  | String c rest => (nat_of_ascii c <? 128)%nat && is_ascii rest
  end.

(** The ASCII whitespace characters. *)
Definition is_space (c : ascii) : bool :=
  let n := nat_of_ascii c in
  ((9 <=? n)%nat && (n <=? 13)%nat) || ((28 <=? n)%nat && (n <=? 32)%nat).

(** The characters [str.strip()] removes and [str.split()] splits at: the
    ASCII ones of [is_space], U+0085, U+00A0, U+1680, U+2000 to U+200A,
    U+2028, U+2029, U+202F, U+205F and U+3000. *)
Definition is_whitespace (ch : string) : bool :=
  match ch with
  | String c EmptyString => is_space c
  | _ =>
      existsb (String.eqb ch)
        (bytes [194; 133] :: bytes [194; 160] :: bytes [225; 154; 128] ::
         bytes [226; 128; 168] :: bytes [226; 128; 169] :: bytes [226; 128; 175] ::
         bytes [226; 129; 159] :: bytes [227; 128; 128] ::
         map (fun n => bytes [226; 128; n])
           [128; 129; 130; 131; 132; 133; 134; 135; 136; 137; 138])
  end.

(** [s.strip()]: the whitespace characters at both ends are removed. *)
Fixpoint lstrip (chs : list string) : list string :=
  match chs with
  | ch :: rest => if is_whitespace ch then lstrip rest else chs
  | [] => []
  end.

Definition rstrip (chs : list string) : list string := rev (lstrip (rev chs)).

Definition strip (s : string) : string := text_of (rstrip (lstrip (characters s))).

(** [sub in s]. *)
Fixpoint contains (sub s : string) : bool :=
  String.prefix sub s ||
  match s with
  | EmptyString => false
  | String _ rest => contains sub rest
  end.

(** [s.endswith(c)] for a one-character suffix, and [s[:-1]]. *)
Fixpoint last_char (s : string) : option ascii :=
  match s with
  | EmptyString => None
  | String c EmptyString => Some c
  | String _ rest => last_char rest
  end.

Fixpoint drop_last (s : string) : string :=
  match s with
  | EmptyString => EmptyString
  | String _ EmptyString => EmptyString
  | String c rest => String c (drop_last rest)
  end.

(** [s.lstrip("@")]. *)
Fixpoint lstrip_at (s : string) : string :=
  match s with
  | String "@" rest => lstrip_at rest
  | _ => s
  end.

(** ** [urllib.parse.quote], [quote_plus] and [urlencode] *)

Definition is_unreserved (c : ascii) : bool :=
  let n := nat_of_ascii c in
  ((48 <=? n)%nat && (n <=? 57)%nat) || ((65 <=? n)%nat && (n <=? 90)%nat) ||
  ((97 <=? n)%nat && (n <=? 122)%nat) ||
  Ascii.eqb c "_" || Ascii.eqb c "." || Ascii.eqb c "-" || Ascii.eqb c "~".

Definition hex_upper (x : nat) : ascii :=
  match String.get x "0123456789ABCDEF" with Some c => c | None => "0"%char end.

Definition percent (c : ascii) : string :=
  let n := nat_of_ascii c in
  String "%" (String (hex_upper (n / 16)) (String (hex_upper (n mod 16)) EmptyString)).

(** [quote(s)] with its default [safe="/"]. *)
Fixpoint quote (s : string) : string :=
  match s with
  | EmptyString => EmptyString
  | String c rest =>
      (if is_unreserved c || Ascii.eqb c "/" then String c EmptyString else percent c)
      ++ quote rest
  end.

(** [quote_plus(s)]: as [quote] with nothing safe, and a space as [+]. *)
Definition plus_char (c : ascii) : string :=
  if is_unreserved c then String c EmptyString
  else if Ascii.eqb c " " then "+" else percent c.

Fixpoint quote_plus (s : string) : string :=
  match s with
  | EmptyString => EmptyString
  | String c rest => plus_char c ++ quote_plus rest
  end.

Definition encode_pair (kv : string * string) : string :=
  quote_plus (fst kv) ++ "=" ++ quote_plus (snd kv).

(** [urlencode(qp)] of a dict of strings, in the dict's insertion order. *)
Fixpoint urlencode (qp : list (string * string)) : string :=
  match qp with
  | [] => EmptyString
  | [kv] => encode_pair kv
  | kv :: rest => encode_pair kv ++ "&" ++ urlencode rest
  end.

(** [urllib.request.Request(url)] raises [ValueError] when the URL has no
    scheme, that is no prefix matching [[^/:]+:]. *)
Fixpoint scheme_after (seen : bool) (s : string) : bool :=
  match s with
  | EmptyString => false
  | String c rest =>
      if Ascii.eqb c ":" then seen
      else if Ascii.eqb c "/" then false
      else scheme_after true rest
  end.

Definition has_scheme (url : string) : bool := scheme_after false url.

Definition API : string := "https://api.x.com/2".

(** * The Python runtime

    Built-ins whose results are not computed here: [repr] of a value (which is
    also [str] of any value but a string), the string parsers of [int()] and
    [float()], the float arithmetic inside [timedelta(...)], [str.lower()]
    beyond ASCII, and whether a text can be encoded as UTF-8. *)

Inductive since_unit : Type := Hours | Days.

Class PyRuntime : Type := {
  py_repr : json -> string;
  (** [int(s)]: [None] when it raises [ValueError] *)
  py_int_of_str : string -> option Z;
  pyfloat : Type;
  (** [float(s)]: [None] when it raises [ValueError] *)
  py_float_of_str : string -> option pyfloat;
  (** [timedelta(hours=x)] and [timedelta(days=x)], in microseconds *)
  py_timedelta : since_unit -> pyfloat -> res Z;
  (** [s.lower()] of a string that holds characters outside ASCII *)
  py_lower : string -> string;
  (** whether [t.encode("utf-8")] returns: it raises [UnicodeEncodeError]
      when a string of the text holds a lone surrogate *)
  py_encodable : text -> bool
}.

(** * The world outside the process *)

(** A cache file: what [read_text] gives (a text, or the exception it
    raises) and the modification time, in microseconds since the epoch. *)
Record file : Type := File { f_content : res text; f_mtime : Z }.

(** What [urlopen] does for a URL.  [detail] of an HTTP error is the text the
    handler extracts from the error body.  [RespRaises] is any other
    exception of the request or of reading its answer; a body that is JSON
    but that [json.loads] fails on otherwise than with [JSONDecodeError] (an
    integer of more digits than [int] converts) counts among these. *)
Inductive response : Type :=
| RespBody (t : text)
| RespUndecodable
| RespHTTPError (code : string) (reason : string) (detail : string)
| RespURLError (reason : string)
| RespTimeout
| RespRaises (e : exn).

Record world : Type := World {
  environ : gmap string string;      (* os.environ *)
  clock : Z;                         (* datetime.now(timezone.utc), in microseconds *)
  cache_writable : bool;             (* whether CACHE_DIR can be created and written *)
  cache_files : gmap string file;    (* the files of CACHE_DIR, by name *)
  provider : string -> response;     (* the remote API *)
  requested : list string            (* the URLs requested over the network so far *)
}.

Definition set_cache_files (fs : gmap string file) (w : world) : world :=
  World (environ w) (clock w) (cache_writable w) fs (provider w) (requested w).

Definition set_requested (l : list string) (w : world) : world :=
  World (environ w) (clock w) (cache_writable w) (cache_files w) (provider w) l.

Definition set_clock (t : Z) (w : world) : world :=
  World (environ w) t (cache_writable w) (cache_files w) (provider w) (requested w).

(** ** Computations that read and change the world and may raise *)

Definition M (A : Type) : Type := world -> res A * world.

Definition ret {A : Type} (a : A) : M A := fun w => (Ok a, w).
Definition throw {A : Type} (e : exn) : M A := fun w => (Raise e, w).
Definition lift {A : Type} (r : res A) : M A := fun w => (r, w).

Definition bind {A B : Type} (m : M A) (k : A -> M B) : M B :=
  fun w =>
    match m w with
    | (Ok a, w') => k a w'
    | (Raise e, w') => (Raise e, w')
    end.

(** [try: m except Exception: h] *)
Definition try_except {A : Type} (m : M A) (h : exn -> M A) : M A :=
  fun w =>
    match m w with
    | (Ok a, w') => (Ok a, w')
    | (Raise e, w') => h e w'
    end.

Notation "'let*' x ':=' m 'in' k" := (bind m (fun x => k))
  (at level 10, x pattern, m at level 100, k at level 200).

Definition getenv (name : string) : M (option string) :=
  fun w => (Ok (environ w !! name), w).

Definition utcnow : M Z := fun w => (Ok (clock w), w).

Definition path_exists (name : string) : M bool :=
  fun w => (Ok (bool_decide (is_Some (cache_files w !! name))), w).

Definition stat_mtime (name : string) : M Z :=
  fun w =>
    match cache_files w !! name with
    | Some f => (Ok (f_mtime f), w)
    | None => (Raise (Exn OSError "No such file or directory"), w)
    end.

Definition read_text (name : string) : M text :=
  fun w =>
    match cache_files w !! name with
    | Some f => (f_content f, w)
    | None => (Raise (Exn OSError "No such file or directory"), w)
    end.

Section Program.

Context {R : PyRuntime}.

(** [CACHE_DIR.mkdir(parents=True, exist_ok=True)] followed by
    [write_text]: the file is opened, which empties it and stamps it with
    the current time, and the text is encoded and written.  A text that
    cannot be encoded leaves the file empty. *)
Definition write_text (name : string) (t : text) : M unit :=
  fun w =>
    if cache_writable w then
      if py_encodable t
      then (Ok tt, set_cache_files (<[name := File (Ok t) (clock w)]> (cache_files w)) w)
      else (Raise (Exn UnicodeEncodeError "'utf-8' codec can't encode character"),
            set_cache_files (<[name := File (Ok (OtherText "")) (clock w)]> (cache_files w)) w)
    else (Raise (Exn OSError "Permission denied"), w).

(** * Cache store *)

Definition _cache_key (url : string) : string := sha256_hex url.

Definition _cache_path (url : string) : string := _cache_key url ++ ".json".

(** Python's [None] is [JNull]: a miss and a cached [null] are the same
    return value. *)
Definition _read_cache (url : string) (ttl_seconds : Z) : M json :=
  try_except
    (let p := _cache_path url in
     let* present := path_exists p in
     if negb present then ret JNull
     else
       let* now := utcnow in
       let* mtime := stat_mtime p in
       let age := now - mtime in
       if ttl_seconds * 1000000 <? age then ret JNull
       else
         let* t := read_text p in
         match json_loads t with
         | Some j => ret j
         | None => throw (Exn ValueError "Expecting value")
         end)
    (fun _ => ret JNull).

Definition _write_cache (url : string) (obj : json) : M unit :=
  try_except
    (write_text (_cache_path url) (json_dumps obj))
    (fun _ => ret tt).

(** * HTTP fetcher *)

Definition opt_or (a b : option string) : option string :=
  match a with
  | Some s => if String.eqb s "" then b else a
  | None => b
  end.

Definition _bearer : M string :=
  let* t1 := getenv "X_BEARER_TOKEN" in
  let* t2 := getenv "TWITTER_BEARER_TOKEN" in
  match opt_or t1 t2 with
  | Some token =>
      if String.eqb token "" then throw (Exn XRadarError "Missing X_BEARER_TOKEN env var")
      else ret token
  | None => throw (Exn XRadarError "Missing X_BEARER_TOKEN env var")
  end.

(** [urllib.request.Request(url)]. *)
Definition Request (url : string) : M unit :=
  if has_scheme url then ret tt
  else throw (Exn ValueError ("unknown url type: '" ++ url ++ "'")).

(** [urlopen(req, timeout=20)] and [resp.read().decode("utf-8")], with the
    three [except] clauses of [_get] around them.  The request is recorded. *)
Definition urlopen (url : string) : M text :=
  fun w =>
    let w' := set_requested (requested w ++ [url]) w in
    match provider w url with
    | RespBody t => (Ok t, w')
    | RespUndecodable =>
        (Raise (Exn UnicodeDecodeError "'utf-8' codec can't decode byte"), w')
    | RespHTTPError code reason detail =>
        (Raise (Exn XRadarError
                  ("X API request failed (" ++ code ++ " " ++ reason ++ "): " ++ detail)), w')
    | RespURLError reason =>
        (Raise (Exn XRadarError ("Network error while calling X API: " ++ reason)), w')
    | RespTimeout => (Raise (Exn XRadarError "Request to X API timed out"), w')
    | RespRaises e => (Raise e, w')
    end.

Definition _get (url : string) (cache_ttl_seconds : Z) (no_cache : bool) : M (json * bool) :=
  let* cached :=
    (if negb no_cache && (0 <? cache_ttl_seconds)
     then _read_cache url cache_ttl_seconds
     else ret JNull) in
  match cached with
  | JNull =>
      let* _ := Request url in
      let* token := _bearer in
      let* data := urlopen url in
      match json_loads data with
      | None => throw (Exn XRadarError "X API returned invalid JSON response")
      | Some obj =>
          let* _ :=
            (if negb no_cache && (0 <? cache_ttl_seconds)
             then _write_cache url obj
             else ret tt) in
          ret (obj, false)
      end
  | _ => ret (cached, true)
  end.

(** * Time windows *)

Definition digit (n : Z) : ascii := ascii_of_nat (48 + Z.to_nat (n mod 10)).

Definition dec2 (n : Z) : string :=
  String (digit (n / 10)) (String (digit n) EmptyString).

Definition dec4 (n : Z) : string := dec2 (n / 100) ++ dec2 (n mod 100).

(** Year, month and day of a day count since 1970-01-01 (proleptic
    Gregorian calendar). *)
Definition civil_from_days (days : Z) : Z * Z * Z :=
  let z := days + 719468 in
  let era := z / 146097 in
  let doe := z - era * 146097 in
  let yoe := (doe - doe / 1460 + doe / 36524 - doe / 146096) / 365 in
  let doy := doe - (365 * yoe + yoe / 4 - yoe / 100) in
  let mp := (5 * doy + 2) / 153 in
  let d := doy - (153 * mp + 2) / 5 + 1 in
  let m := if mp <? 10 then mp + 3 else mp - 9 in
  let y := yoe + era * 400 + (if m <=? 2 then 1 else 0) in
  (y, m, d).

(** [dt.astimezone(timezone.utc).replace(microsecond=0).isoformat()
       .replace("+00:00", "Z")] for an instant in microseconds. *)
Definition _to_iso_utc (us : Z) : string :=
  let secs := us / 1000000 in
  let '(y, m, d) := civil_from_days (secs / 86400) in
  let r := secs mod 86400 in
  dec4 y ++ "-" ++ dec2 m ++ "-" ++ dec2 d ++ "T" ++
  dec2 (r / 3600) ++ ":" ++ dec2 (r mod 3600 / 60) ++ ":" ++ dec2 (r mod 60) ++ "Z".

(** [datetime.min] and [datetime.max], in microseconds. *)
Definition datetime_min : Z := -62135596800000000.
Definition datetime_max : Z := 253402300799999999.

(** [dt - delta]. *)
Definition datetime_sub (dt delta : Z) : res Z :=
  let r := dt - delta in
  if (r <? datetime_min) || (datetime_max <? r)
  then raise OverflowError "date value out of range"
  else Ok r.

(** [s.lower()]: computed for a string of ASCII characters, the runtime's
    for any other. *)
Definition lower (s : string) : string :=
  if is_ascii s then ascii_lower s else py_lower s.

Definition float (s : string) : res pyfloat :=
  match py_float_of_str s with
  | Some x => Ok x
  | None => raise ValueError ("could not convert string to float: " ++ py_repr (JStr s))
  end.

Definition since_format_message : string := "--since must be like 1h, 3h, 12h, 1d, 7d".

Definition _parse_since (value : string) : res Z :=
  let raw := lower (strip value) in
  match last_char raw with
  | Some "h"%char => let? x := float (drop_last raw) in py_timedelta Hours x
  | Some "d"%char => let? x := float (drop_last raw) in py_timedelta Days x
  | _ => raise ValueError since_format_message
  end.

(** * Result ranker *)

Definition type_name (v : json) : string :=
  match v with
  | JNull => "NoneType"
  | JBool _ => "bool"
  | JInt _ => "int"
  | JFloat _ => "float"
  | JStr _ => "str"
  | JArr _ => "list"
  | JObj _ => "dict"
  end.

(** [d.get(key)]: only a dict has [get]. *)
Definition dict_get (d : json) (key : string) : res json :=
  match d with
  | JObj fields => Ok (match assoc key fields with Some v => v | None => JNull end)
  | _ => raise AttributeError ("'" ++ type_name d ++ "' object has no attribute 'get'")
  end.

(** [d.get(key, default)]. *)
Definition dict_get_default (d : json) (key : string) (default : json) : res json :=
  match d with
  | JObj fields => Ok (match assoc key fields with Some v => v | None => default end)
  | _ => raise AttributeError ("'" ++ type_name d ++ "' object has no attribute 'get'")
  end.

(** [str(v)]. *)
Definition py_str (v : json) : string :=
  match v with
  | JStr s => s
  | _ => py_repr v
  end.

(** [int(x)] of a float: the value truncated toward zero. *)
Definition int_of_float (f : spec_float) : res Z :=
  match f with
  | S754_zero _ => Ok 0
  | S754_finite s m e =>
      let mag := if 0 <=? e then Z.shiftl (Z.pos m) e else Z.shiftr (Z.pos m) (- e) in
      Ok (if s then - mag else mag)
  | S754_infinity _ => raise OverflowError "cannot convert float infinity to integer"
  | S754_nan => raise ValueError "cannot convert float NaN to integer"
  end.

(** [int(v)]. *)
Definition py_int (v : json) : res Z :=
  match v with
  | JBool b => Ok (if b then 1 else 0)
  | JInt n => Ok n
  | JFloat f => int_of_float f
  | JStr s =>
      match py_int_of_str s with
      | Some n => Ok n
      | None => raise ValueError ("invalid literal for int() with base 10: " ++ py_repr v)
      end
  | _ => raise TypeError
           ("int() argument must be a string, a bytes-like object or a real number, not '"
            ++ type_name v ++ "'")
  end.

Definition _metric (tweet : json) (key : string) : res Z :=
  let? pm := dict_get tweet "public_metrics" in
  let metrics := py_or pm (JObj []) in
  let? val := dict_get metrics key in
  match py_int (py_or val (JInt 0)) with
  | Ok n => Ok n
  | Raise e =>
      match exn_cls e with
      | TypeError | ValueError | UnicodeDecodeError => Ok 0
      | _ => Raise e
      end
  end.

Definition _created_at (tweet : json) : res string :=
  let? v := dict_get tweet "created_at" in
  Ok (py_str (py_or v (JStr ""))).

(** The tuples [_sort_key] returns. *)
Inductive sort_key : Type :=
| Key3 (primary secondary : Z) (created : string)
| Key1 (created : string).

Definition _sort_key (tweet : json) (sort : string) : res sort_key :=
  let s := lower sort in
  if String.eqb s "likes" then
    let? a := _metric tweet "like_count" in
    let? b := _metric tweet "reply_count" in
    let? c := _created_at tweet in
    Ok (Key3 a b c)
  else if String.eqb s "replies" then
    let? a := _metric tweet "reply_count" in
    let? b := _metric tweet "like_count" in
    let? c := _created_at tweet in
    Ok (Key3 a b c)
  else if String.eqb s "retweets" then
    let? a := _metric tweet "retweet_count" in
    let? b := _metric tweet "like_count" in
    let? c := _created_at tweet in
    Ok (Key3 a b c)
  else
    let? c := _created_at tweet in
    Ok (Key1 c).

Fixpoint _filter_tweets (tweets : list json) (min_likes min_replies min_retweets : Z)
  : res (list json) :=
  match tweets with
  | [] => Ok []
  | t :: rest =>
      let? keep :=
        (let? likes := _metric t "like_count" in
         if likes <? min_likes then Ok false else
         let? replies := _metric t "reply_count" in
         if replies <? min_replies then Ok false else
         let? retweets := _metric t "retweet_count" in
         if retweets <? min_retweets then Ok false else Ok true) in
      let? out := _filter_tweets rest min_likes min_replies min_retweets in
      Ok (if keep then t :: out else out)
  end.

(** Tuple comparison [k1 < k2]: integers by value, strings by code point.
    One call of [sort] computes every key with the same [sort] mode, so two
    keys of different shapes never meet (Python would raise [TypeError]);
    the order between them is immaterial and put here as 1-tuples first. *)
Definition key_ltb (k1 k2 : sort_key) : bool :=
  match k1, k2 with
  | Key3 a b c, Key3 a' b' c' =>
      if a =? a' then (if b =? b' then String.ltb c c' else b <? b') else a <? a'
  | Key1 c, Key1 c' => String.ltb c c'
  | Key1 _, Key3 _ _ _ => true
  | Key3 _ _ _, Key1 _ => false
  end.

(** [tweets.sort(key=lambda t: _sort_key(t, sort), reverse=True)]: every key
    is computed first, then the list is rearranged into the one stable
    descending order.  An item goes in front of the first item whose key is
    not greater than its own, so items with equal keys keep their order. *)
Fixpoint decorate (tweets : list json) (sort : string) : res (list (sort_key * json)) :=
  match tweets with
  | [] => Ok []
  | t :: rest =>
      let? k := _sort_key t sort in
      let? ks := decorate rest sort in
      Ok ((k, t) :: ks)
  end.

Fixpoint insert_desc (x : sort_key * json) (l : list (sort_key * json))
  : list (sort_key * json) :=
  match l with
  | [] => [x]
  | y :: l' => if key_ltb (fst x) (fst y) then y :: insert_desc x l' else x :: l
  end.

Definition sort_desc (l : list (sort_key * json)) : list (sort_key * json) :=
  fold_right insert_desc [] l.

Definition sort_tweets (tweets : list json) (sort : string) : res (list json) :=
  let? kts := decorate tweets sort in
  Ok (map snd (sort_desc kts)).

(** [list(v)] and [len(v)]. *)
Fixpoint chars (s : string) : list json :=
  match s with
  | EmptyString => []
  | String c rest => JStr (String c EmptyString) :: chars rest
  end.

Definition py_list (v : json) : res (list json) :=
  match v with
  | JArr items => Ok items
  | JObj fields => Ok (map (fun kv => JStr (fst kv)) fields)
  | JStr s => Ok (chars s)
  | _ => raise TypeError ("'" ++ type_name v ++ "' object is not iterable")
  end.

Definition py_len (v : json) : res Z :=
  match v with
  | JArr items => Ok (Z.of_nat (length items))
  | JObj fields => Ok (Z.of_nat (length fields))
  | JStr s => Ok (Z.of_nat (String.length s))
  | _ => raise TypeError ("object of type '" ++ type_name v ++ "' has no len()")
  end.

(** [rank]: filter, sort, then [tweets[: max(1, int(limit))]]. *)
Definition rank (tweets : list json) (min_likes min_replies min_retweets : Z)
    (sort : string) (limit : Z) : res (list json) :=
  let? kept := _filter_tweets tweets min_likes min_replies min_retweets in
  let? sorted := sort_tweets kept sort in
  Ok (firstn (Z.to_nat (Z.max 1 limit)) sorted).

(** * Cost estimator

    [COST_POST_READ_USD = 0.005] and [COST_USER_LOOKUP_USD = 0.010]; the
    estimate is carried in thousandths of a dollar, the unit
    [round(usd, 3)] displays. *)

Record CostEstimate : Type := Cost { requests : Z; post_reads : Z; user_lookups : Z }.


(** * Query operations *)

Definition tweet_fields : string := "created_at,public_metrics,author_id,conversation_id".

Record search_envelope : Type := SearchEnvelope {
  se_query : string;
  se_since : option string;
  se_sort : string;
  se_quick : bool;
  se_filters : Z * Z * Z;
  se_returned : Z;
  se_cost : CostEstimate;
  se_data : list json;
  se_includes : json;
  se_meta : json
}.

Definition opt_truthy (s : option string) : bool :=
  match s with Some x => negb (String.eqb x "") | None => false end.

(** The query and the time window after the quick-mode defaults. *)
Definition quick_query (query : string) (quick : bool) : string :=
  if quick then
    let ql := lower query in
    let q1 := if negb (contains "is:retweet" ql) && negb (contains "-is:retweet" ql)
              then query ++ " -is:retweet" else query in
    if negb (contains "is:reply" ql) && negb (contains "-is:reply" ql)
    then q1 ++ " -is:reply" else q1
  else query.

Definition quick_since (since : option string) (quick : bool) : option string :=
  if quick && negb (opt_truthy since) then Some "24h" else since.

Definition start_time_of (since : option string) : M (option string) :=
  match since with
  | Some s =>
      if String.eqb s "" then ret None
      else
        let* delta := lift (_parse_since s) in
        let* now := utcnow in
        let* t := lift (datetime_sub now delta) in
        ret (Some (_to_iso_utc t))
  | None => ret None
  end.

Definition search_url (q : string) (quick : bool) (start_time : option string) : string :=
  let qp := [ ("query", q);
              ("max_results", if quick then "10" else "100");
              ("tweet.fields", tweet_fields);
              ("expansions", "author_id");
              ("user.fields", "username,name,verified") ] in
  let qp := match start_time with
            | Some t => if String.eqb t "" then qp else (qp ++ [("start_time", t)])%list
            | None => qp
            end in
  API ++ "/tweets/search/recent?" ++ urlencode qp.

Definition search_recent (query : string) (limit : Z) (sort : string) (since : option string)
    (min_likes min_replies min_retweets : Z) (quick : bool) : M search_envelope :=
  let q := quick_query query quick in
  let since := quick_since since quick in
  let* start_time := start_time_of since in
  let url := search_url q quick start_time in
  let ttl := if quick then 3600 else 900 in
  let* (raw, cache_hit) := _get url ttl false in
  let* data := lift (dict_get raw "data") in
  let* tweets := lift (py_list (py_or data (JArr []))) in
  let* tweets := lift (rank tweets min_likes min_replies min_retweets sort limit) in
  let* n := (if cache_hit then ret 0 else lift (py_len (py_or data (JArr [])))) in
  let cost := Cost (if cache_hit then 0 else 1) n 0 in
  let* includes := lift (dict_get raw "includes") in
  let* meta := lift (dict_get raw "meta") in
  ret (SearchEnvelope q since sort quick (min_likes, min_replies, min_retweets)
         (Z.of_nat (length tweets)) cost tweets includes meta).

Definition user_by_username (username : string) (cache_ttl_seconds : Z) (no_cache : bool)
  : M (json * bool) :=
  let u := lstrip_at username in
  let url := API ++ "/users/by/username/" ++ quote u ++
             "?user.fields=public_metrics,verified,created_at" in
  _get url cache_ttl_seconds no_cache.

Definition tweet_url (tweet_id : string) : string :=
  let tid := quote tweet_id in
  let qp := [ ("ids", tid);
              ("tweet.fields", tweet_fields);
              ("expansions", "author_id");
              ("user.fields", "username,name,verified") ] in
  API ++ "/tweets?" ++ urlencode qp.

Definition tweet_by_id (tweet_id : string) (cache_ttl_seconds : Z) (no_cache : bool)
  : M (json * bool) :=
  _get (tweet_url tweet_id) cache_ttl_seconds no_cache.

Record user_tweets_envelope : Type := UserTweetsEnvelope {
  ue_username : string;
  ue_sort : string;
  ue_filters : Z * Z * Z;
  ue_user_lookup_hit : bool;
  ue_tweets_hit : bool;
  ue_returned : Z;
  ue_cost : CostEstimate;
  ue_user : json;
  ue_data : list json;
  ue_meta : json
}.

(** What [user_tweets] returns: the envelope, or
    [{"error": "user not found", "user": user_raw}]. *)
Inductive user_tweets_result : Type :=
| UserTweets (e : user_tweets_envelope)
| UserNotFound (user_raw : json).

Definition user_tweets_url (user_id : json) : string :=
  API ++ "/users/" ++ py_str user_id ++ "/tweets?max_results=100" ++
  "&tweet.fields=created_at,public_metrics,conversation_id" ++
  "&exclude=replies,retweets".

Definition user_tweets (username : string) (limit : Z) (sort : string)
    (min_likes min_replies min_retweets : Z) : M user_tweets_result :=
  let* (user_raw, cache_hit_user) := user_by_username username 900 false in
  let* user_data := lift (dict_get_default user_raw "data" (JObj [])) in
  let* user_id := lift (dict_get user_data "id") in
  if negb (truthy user_id) then ret (UserNotFound user_raw)
  else
    let* (raw, cache_hit_tweets) := _get (user_tweets_url user_id) 900 false in
    let* data := lift (dict_get raw "data") in
    let* tweets := lift (py_list (py_or data (JArr []))) in
    let* tweets := lift (rank tweets min_likes min_replies min_retweets sort limit) in
    let reqs := (if cache_hit_user then 0 else 1) + (if cache_hit_tweets then 0 else 1) in
    let* n := (if cache_hit_tweets then ret 0 else lift (py_len (py_or data (JArr [])))) in
    let cost := Cost reqs n (if cache_hit_user then 0 else 1) in
    let* user := lift (dict_get user_raw "data") in
    let* meta := lift (dict_get raw "meta") in
    ret (UserTweets
           (UserTweetsEnvelope username sort (min_likes, min_replies, min_retweets)
              cache_hit_user cache_hit_tweets (Z.of_nat (length tweets)) cost
              user tweets meta)).

(** * The command line *)

Record tweet_envelope : Type := TweetEnvelope {
  te_id : string;
  te_cache_hit : bool;
  te_cost : CostEstimate;
  te_data : json;
  te_includes : json;
  te_errors : json
}.

(** The arguments [argparse] hands to [main]; their strings are text that
    UTF-8 encodes. *)
Inductive command : Type :=
| CmdSearch (query : string) (limit : Z) (sort : string) (since : option string)
    (min_likes min_replies min_retweets : Z) (quick : bool)
| CmdTweet (id : string) (no_cache : bool)
| CmdUserTweets (username : string) (limit : Z) (sort : string)
    (min_likes min_replies min_retweets : Z).

(** The one JSON document [main] writes to standard output. *)
Inductive document : Type :=
| DocSearch (e : search_envelope)
| DocTweet (e : tweet_envelope)
| DocUserTweets (r : user_tweets_result)
| DocError (code message : string).

Definition _error_payload (code message : string) : document := DocError code message.

Definition run (args : command) : M document :=
  match args with
  | CmdSearch query limit sort since min_likes min_replies min_retweets quick =>
      let* out := search_recent query limit sort since min_likes min_replies min_retweets quick in
      ret (DocSearch out)
  | CmdTweet id no_cache =>
      let* (raw, cache_hit) := tweet_by_id id 900 no_cache in
      let cost := Cost (if cache_hit then 0 else 1) (if cache_hit then 0 else 1) 0 in
      let* data := lift (dict_get raw "data") in
      let* includes := lift (dict_get raw "includes") in
      let* errors := lift (dict_get raw "errors") in
      ret (DocTweet (TweetEnvelope id cache_hit cost (py_or data (JArr [])) includes errors))
  | CmdUserTweets username limit sort min_likes min_replies min_retweets =>
      let* out := user_tweets username limit sort min_likes min_replies min_retweets in
      ret (DocUserTweets out)
  end.

(** [main]: the document written and the exit code. *)
Definition main (args : command) : world -> (document * Z) * world :=
  fun w =>
    match run args w with
    | (Ok out, w') => ((out, 0), w')
    | (Raise e, w') =>
        if is_ValueError (exn_cls e)
        then ((_error_payload "invalid_arguments" (exn_msg e), 2), w')
        else if is_XRadarError (exn_cls e)
        then ((_error_payload "runtime_error" (exn_msg e), 1), w')
        else ((_error_payload "internal_error"
                 (class_name (exn_cls e) ++ ": " ++ exn_msg e), 1), w')
    end.

End Program.

(** * The detail of an HTTP error

    The [except urllib.error.HTTPError] clause of [_get] reads the body of
    the error response and extracts a one-line detail from it. *)

(** [s.split()]: the maximal runs of characters that are no whitespace;
    [cur] is the run being read. *)
Fixpoint split_words (chs : list string) (cur : string) : list string :=
  match chs with
  | [] => if String.eqb cur "" then [] else [cur]
  | ch :: rest =>
      if is_whitespace ch
      then (if String.eqb cur "" then split_words rest "" else cur :: split_words rest "")
      else split_words rest (cur ++ ch)
  end.

Definition str_split (s : string) : list string := split_words (characters s) "".

(** [" ".join(words)]. *)
Fixpoint space_join (words : list string) : string :=
  match words with
  | [] => EmptyString
  | [w] => w
  | w :: rest => w ++ " " ++ space_join rest
  end.

(** [s[:n]]: the first [n] characters. *)
Fixpoint take_chars (n : nat) (s : string) : string :=
  match s with
  | EmptyString => EmptyString
  | String c rest =>
      if is_continuation c then String c (take_chars n rest)
      else match n with
           | O => EmptyString
           | S k => String c (take_chars k rest)
           end
  end.

Definition no_details : string := "no additional details".

Section Details.

Context {R : PyRuntime}.

(** [body] is what [exc.read().decode("utf-8", errors="replace")] gives,
    or the exception it raises. *)
Definition http_error_detail (body : res text) : string :=
  match body with
  | Raise _ => no_details
  | Ok (JsonText err_obj) =>
      match err_obj with
      | JObj fields =>
          let get (d : list (string * json)) (key : string) :=
            match assoc key d with Some v => v | None => JNull end in
          match get fields "errors" with
          | JArr (JObj first :: _) =>
              py_str (py_or (get first "message")
                        (py_or (get first "detail")
                           (py_or (get first "title") (JStr no_details))))
          | _ =>
              py_str (py_or (get fields "detail")
                        (py_or (get fields "title")
                           (py_or (get fields "error") (JStr no_details))))
          end
      | _ => no_details
      end
  | Ok (OtherText s) =>
      if String.eqb s "" then no_details
      else
        let compact := space_join (str_split s) in
        if String.eqb compact "" then no_details else take_chars 160 compact
  end.

(** The message of the [XRadarError] raised for an HTTP error. *)
Definition http_error_message (code reason : string) (body : res text) : string :=
  "X API request failed (" ++ code ++ " " ++ reason ++ "): " ++ http_error_detail body.

End Details.

(** * Argument validators

    The [type] functions [argparse] applies to [--limit] and to the three
    [--min-...] options. *)

Definition ArgumentTypeError : exn_class := OtherException "ArgumentTypeError".

Section Validators.

Context {R : PyRuntime}.

Definition _positive_int (value : string) : res Z :=
  match py_int (JStr value) with
  | Ok n => if n <? 1 then raise ArgumentTypeError "must be >= 1" else Ok n
  | Raise e =>
      if is_ValueError (exn_cls e) then raise ArgumentTypeError "must be an integer"
      else Raise e
  end.

Definition _non_negative_int (value : string) : res Z :=
  match py_int (JStr value) with
  | Ok n => if n <? 0 then raise ArgumentTypeError "must be >= 0" else Ok n
  | Raise e =>
      if is_ValueError (exn_cls e) then raise ArgumentTypeError "must be an integer"
      else Raise e
  end.

End Validators.


(** * A reference runtime

    An instance of [PyRuntime] to run the program on concrete inputs.
    Numbers are read from literals of ASCII digits; a float is held as the
    decimal its literal writes and rounded to binary64 where [timedelta]
    computes with it.  [repr] is computed for [None], booleans, integers and
    strings without quotes or escapes, and [lower] beyond ASCII lowers the
    ASCII letters only. *)

Module Reference.

Definition is_digit (c : ascii) : bool :=
  let n := nat_of_ascii c in (48 <=? n)%nat && (n <=? 57)%nat.

Definition digit_val (c : ascii) : Z := Z.of_nat (nat_of_ascii c - 48).

(** A run of digits, single underscores allowed between two digits: the
    value (continuing [acc]), the number of digits and the rest. *)
Fixpoint digit_run (s : string) (acc : Z) (n : nat) (after_us : bool)
  : option (Z * nat * string) :=
  match s with
  | EmptyString => if after_us then None else Some (acc, n, EmptyString)
  | String c rest =>
      if is_digit c then digit_run rest (acc * 10 + digit_val c) (S n) false
      else if Ascii.eqb c "_" then
        (if after_us || (n =? 0)%nat then None else digit_run rest acc n true)
      else if after_us then None else Some (acc, n, s)
  end.

Definition split_sign (s : string) : bool * string :=
  match s with
  | String "-" rest => (true, rest)
  | String "+" rest => (false, rest)
  | _ => (false, s)
  end.

(** The whitespace [int()] and [float()] skip around a literal: that of
    [str.strip()] but for the separators U+001C to U+001F. *)
Definition is_blank (ch : string) : bool :=
  match ch with
  | String c EmptyString =>
      let n := nat_of_ascii c in ((9 <=? n)%nat && (n <=? 13)%nat) || (n =? 32)%nat
  | _ => is_whitespace ch
  end.

Fixpoint skip_blank (chs : list string) : list string :=
  match chs with
  | ch :: rest => if is_blank ch then skip_blank rest else chs
  | [] => []
  end.

Definition trim (s : string) : string :=
  text_of (rev (skip_blank (rev (skip_blank (characters s))))).

Definition int_of_str (s : string) : option Z :=
  let '(neg, body) := split_sign (trim s) in
  match digit_run body 0 0 false with
  | Some (v, S _, EmptyString) => Some (if neg then - v else v)
  | _ => None
  end.

Inductive dec : Type :=
| DNan
| DInf (neg : bool)
| DFin (neg : bool) (mant : Z) (exp10 : Z).

Definition exponent (s : string) : option Z :=
  match s with
  | EmptyString => Some 0
  | String "e" rest =>
      let '(neg, body) := split_sign rest in
      match digit_run body 0 0 false with
      | Some (v, S _, EmptyString) => Some (if neg then - v else v)
      | _ => None
      end
  | _ => None
  end.

Definition float_of_str (s : string) : option dec :=
  let '(neg, body) := split_sign (ascii_lower (trim s)) in
  if String.eqb body "inf" || String.eqb body "infinity" then Some (DInf neg)
  else if String.eqb body "nan" then Some DNan
  else
    match body with
    | String "_" _ => None
    | _ =>
        match digit_run body 0 1 false with
        | Some (ip, S ni, String "." rest) =>
            match rest with
            | String "_" _ => None
            | _ =>
                match digit_run rest ip 1 false with
                | Some (m, S nf, tail) =>
                    if (ni + nf =? 0)%nat then None
                    else option_map (fun e => DFin neg m (e - Z.of_nat nf)) (exponent tail)
                | _ => None
                end
            end
        | Some (ip, S ni, tail) =>
            if (ni =? 0)%nat then None
            else option_map (fun e => DFin neg ip e) (exponent tail)
        | _ => None
        end
    end.

Definition unit_us (u : since_unit) : Z :=
  match u with Hours => 3600000000 | Days => 86400000000 end.

(** [p / q] rounded to the nearest integer, ties to even ([0 < q]). *)
Definition round_half_even (p q : Z) : Z :=
  let f := p / q in
  let r := p mod q in
  if 2 * r <? q then f
  else if q <? 2 * r then f + 1
  else if Z.even f then f else f + 1.

(** [num / den / 2 ^ e] as a fraction. *)
Definition scaled (num den e : Z) : Z * Z :=
  if 0 <=? e then (num, den * 2 ^ e) else (num * 2 ^ (- e), den).

(** The binary64 float nearest to [num / den] (both positive), ties to
    even, as [m * 2 ^ e]; [None] when it is infinite. *)
Definition to_binary64 (num den : Z) : option (Z * Z) :=
  let k0 := Z.log2 num - Z.log2 den in
  let k := (let '(n, d) := scaled num den k0 in if n <? d then k0 - 1 else k0) in
  let e := Z.max (k - 52) (-1074) in
  let m := (let '(n, d) := scaled num den e in round_half_even n d) in
  if (971 <? e) || ((e =? 971) && (m =? 2 ^ 53)) then None else Some (m, e).

(** [modf]: the integer part of [m * 2 ^ e] and its fraction. *)
Definition modf (m e : Z) : Z * (Z * Z) :=
  if 0 <=? e then (m * 2 ^ e, (0, 1)) else (m / 2 ^ (- e), (m mod 2 ^ (- e), 2 ^ (- e))).

(** [timedelta(hours=x)] and [timedelta(days=x)] for a float [x]: the
    whole part of [x] is multiplied exactly, the fraction in float
    arithmetic, and what is left below a microsecond is rounded, ties to an
    even total. *)
Definition timedelta (u : since_unit) (x : dec) : res Z :=
  match x with
  | DNan => raise ValueError "cannot convert float NaN to integer"
  | DInf _ => raise OverflowError "cannot convert float infinity to integer"
  | DFin neg m e =>
      if m =? 0 then Ok 0
      else
        match (if 0 <=? e then to_binary64 (m * 10 ^ e) 1 else to_binary64 m (10 ^ (- e))) with
        | None => raise OverflowError "cannot convert float infinity to integer"
        | Some (fm, fe) =>
            let '(whole, (fnum, fden)) := modf fm fe in
            let '(more, (rnum, rden)) :=
              if fnum =? 0 then (0, (0, 1))
              else match to_binary64 (unit_us u * fnum) fden with
                   | Some (pm, pe) => modf pm pe
                   | None => (0, (0, 1))
                   end in
            let total := whole * unit_us u + more in
            let total :=
              if 2 * rnum <? rden then total
              else if rden <? 2 * rnum then total + 1
              else if Z.even total then total else total + 1 in
            let us := if neg then - total else total in
            let days := us / 86400000000 in
            if (days <? - 2 ^ 31) || (2 ^ 31 - 1 <? days)
            then raise OverflowError "Python int too large to convert to C int"
            else if (days <? -999999999) || (999999999 <? days)
            then raise OverflowError
                   ("days=" ++ NilZero.string_of_int (Z.to_int days)
                    ++ "; must have magnitude <= 999999999")
            else Ok us
        end
  end.

Definition repr (v : json) : string :=
  match v with
  | JNull => "None"
  | JBool true => "True"
  | JBool false => "False"
  | JInt n => NilZero.string_of_int (Z.to_int n)
  | JStr s => "'" ++ s ++ "'"
  | JFloat _ => "<float>"
  | JArr _ => "<list>"
  | JObj _ => "<dict>"
  end.

(** A lone surrogate, which UTF-8 does not encode, is carried here by the
    three bytes ED A0..BF 80..BF. *)
Fixpoint holds_surrogate (s : string) : bool :=
  match s with
  | String c (String d _ as tail) =>
      ((nat_of_ascii c =? 237)%nat && (160 <=? nat_of_ascii d)%nat
       && (nat_of_ascii d <=? 191)%nat)
      || holds_surrogate tail
  | _ => false
  end.

Fixpoint encodable_value (v : json) : bool :=
  match v with
  | JStr s => negb (holds_surrogate s)
  | JArr items => forallb encodable_value items
  | JObj fields =>
      forallb (fun kv => negb (holds_surrogate (fst kv)) && encodable_value (snd kv)) fields
  | _ => true
  end.

Definition encodable (t : text) : bool :=
  match t with
  | JsonText j => encodable_value j
  | OtherText s => negb (holds_surrogate s)
  end.

#[export] Instance runtime : PyRuntime := {
  py_repr := repr;
  py_int_of_str := int_of_str;
  pyfloat := dec;
  py_float_of_str := float_of_str;
  py_timedelta := timedelta;
  py_lower := ascii_lower;
  py_encodable := encodable
}.

End Reference.

(** * Reading the program

    Closed forms of the cache and fetch paths and the vocabulary the
    properties are stated in. *)

(** What a read of the cache gives, in closed form. *)
Definition cache_lookup (url : string) (ttl_seconds : Z) (w : world) : json :=
  match cache_files w !! _cache_path url with
  | None => JNull
  | Some f =>
      if ttl_seconds * 1000000 <? clock w - f_mtime f then JNull
      else match f_content f with
           | Ok (JsonText j) => j
           | _ => JNull
           end
  end.

(** The world after a write of the cache. *)
Definition cache_store {R : PyRuntime} (url : string) (obj : json) (w : world) : world :=
  if cache_writable w
  then set_cache_files
         (<[_cache_path url :=
              File (Ok (if py_encodable (json_dumps obj) then JsonText obj else OtherText ""))
                (clock w)]> (cache_files w)) w
  else w.

(** The entry a [_get] may answer from. *)
Definition cached (url : string) (ttl : Z) (no_cache : bool) (w : world) : json :=
  if negb no_cache && (0 <? ttl) then cache_lookup url ttl w else JNull.

(** The part of [_get] after a miss. *)
Definition fetch {R : PyRuntime} (url : string) (ttl : Z) (no_cache : bool)
  : M (json * bool) :=
  let* _ := Request url in
  let* token := _bearer in
  let* data := urlopen url in
  match json_loads data with
  | None => throw (Exn XRadarError "X API returned invalid JSON response")
  | Some obj =>
      let* _ :=
        (if negb no_cache && (0 <? ttl) then _write_cache url obj else ret tt) in
      ret (obj, false)
  end.

(** The bearer credential the environment configures, if any. *)
Definition credential (w : world) : option string :=
  match opt_or (environ w !! "X_BEARER_TOKEN") (environ w !! "TWITTER_BEARER_TOKEN") with
  | Some t => if String.eqb t "" then None else Some t
  | None => None
  end.

Definition missing_credential : exn := Exn XRadarError "Missing X_BEARER_TOKEN env var".

(** What a response amounts to once read, decoded and parsed. *)
Definition response_result (r : response) : res json :=
  match r with
  | RespBody (JsonText obj) => Ok obj
  | RespBody (OtherText _) => Raise (Exn XRadarError "X API returned invalid JSON response")
  | RespUndecodable => Raise (Exn UnicodeDecodeError "'utf-8' codec can't decode byte")
  | RespHTTPError code reason detail =>
      Raise (Exn XRadarError
               ("X API request failed (" ++ code ++ " " ++ reason ++ "): " ++ detail))
  | RespURLError reason =>
      Raise (Exn XRadarError ("Network error while calling X API: " ++ reason))
  | RespTimeout => Raise (Exn XRadarError "Request to X API timed out")
  | RespRaises e => Raise e
  end.

(** The miss path in closed form: the URL is checked, the credential
    resolved, the request made and recorded, the answer stored. *)
Definition fetch_outcome {R : PyRuntime} (url : string) (ttl : Z) (no_cache : bool)
    (w : world) : res (json * bool) * world :=
  if has_scheme url then
    match credential w with
    | None => (Raise missing_credential, w)
    | Some _ =>
        let w' := set_requested (requested w ++ [url]) w in
        match response_result (provider w url) with
        | Ok obj =>
            (Ok (obj, false),
             if negb no_cache && (0 <? ttl) then cache_store url obj w' else w')
        | Raise e => (Raise e, w')
        end
    end
  else (Raise (Exn ValueError ("unknown url type: '" ++ url ++ "'")), w).


(** Reading a [quote_plus] encoding back. *)
Definition hex_val (c : ascii) : nat :=
  let n := nat_of_ascii c in
  if (n <=? 57)%nat then n - 48 else n - 55.

Fixpoint unquote_plus (s : string) : string :=
  match s with
  | EmptyString => EmptyString
  | String c rest =>
      if Ascii.eqb c "%" then
        match rest with
        | String h (String l rest') =>
            String (ascii_of_nat (16 * hex_val h + hex_val l)) (unquote_plus rest')
        | _ => s
        end
      else String (if Ascii.eqb c "+" then " "%char else c) (unquote_plus rest)
  end.

Fixpoint has_char (c : ascii) (s : string) : bool :=
  match s with
  | EmptyString => false
  | String c' rest => Ascii.eqb c c' || has_char c rest
  end.

(** A request: an endpoint and its query parameters, in the order the dict
    holds them; [resolve] is the URL string built from it. *)
Definition resolve (endpoint : string) (qp : list (string * string)) : string :=
  endpoint ++ "?" ++ urlencode qp.

(** The value an item stores for a metric, if any. *)
Definition raw_metric (t : json) (key : string) : option json :=
  match t with
  | JObj fields =>
      match assoc "public_metrics" fields with
      | Some (JObj ms) => assoc key ms
      | _ => None
      end
  | _ => None
  end.

(** The items [_metric] reads without raising: a dict whose
    [public_metrics] is absent, falsy or a dict holding no infinite float
    for a tracked metric. *)
Definition finite_metric (ms : list (string * json)) (key : string) : bool :=
  match assoc key ms with
  | Some (JFloat (S754_infinity _)) => false
  | _ => true
  end.

Definition item_ok (t : json) : bool :=
  match t with
  | JObj fields =>
      match assoc "public_metrics" fields with
      | None => true
      | Some pm =>
          negb (truthy pm) ||
          match pm with
          | JObj ms => finite_metric ms "like_count" && finite_metric ms "reply_count"
                       && finite_metric ms "retweet_count"
          | _ => false
          end
      end
  | _ => false
  end.

(** [k1 >= k2] in the words of the specification: a larger primary metric,
    or an equal one and a larger secondary metric, or both equal and a
    timestamp at least as recent. *)
Definition key_ge (k1 k2 : sort_key) : Prop :=
  match k1, k2 with
  | Key3 a b c, Key3 a' b' c' =>
      a' < a \/ (a = a' /\ (b' < b \/ (b = b' /\ String.leb c' c = true)))
  | Key1 c, Key1 c' => String.leb c' c = true
  | Key3 _ _ _, Key1 _ => True
  | Key1 _, Key3 _ _ _ => False
  end.

Definition ranks_above (x y : sort_key * json) : Prop := key_ltb (fst x) (fst y) = false.

(** The decorated items whose key equals [k]. *)
Definition same_key (k : sort_key) (key : sort_key) : bool :=
  negb (key_ltb k key) && negb (key_ltb key k).



Section Reading.

Context {R : PyRuntime}.

(** The count a stored value stands for: an integer is itself, a numeric
    string or a finite float its integer value, and an absent or
    unparseable value is zero. *)
Definition count_of (v : option json) : Z :=
  match v with
  | Some (JBool b) => if b then 1 else 0
  | Some (JInt n) => n
  | Some (JFloat f) => match int_of_float f with Ok n => n | Raise _ => 0 end
  | Some (JStr s) =>
      if String.eqb s "" then 0
      else match py_int_of_str s with Some n => n | None => 0 end
  | _ => 0
  end.

Definition metric_count (t : json) (key : string) : Z := count_of (raw_metric t key).

(** A stored value that is absent or that [int()] does not parse. *)
Definition absent_or_unparseable (v : option json) : Prop :=
  match v with
  | None | Some JNull => True
  | Some (JStr s) => py_int_of_str s = None
  | Some (JArr _) | Some (JObj _) => True
  | Some (JFloat S754_nan) => True
  | _ => False
  end.

Definition keeps (min_likes min_replies min_retweets : Z) (t : json) : bool :=
  (min_likes <=? metric_count t "like_count") &&
  (min_replies <=? metric_count t "reply_count") &&
  (min_retweets <=? metric_count t "retweet_count").

(** The timestamp an item is ordered by: its [created_at] as a string,
    empty when absent. *)
Definition created_of (t : json) : string :=
  match t with
  | JObj fields =>
      match assoc "created_at" fields with
      | Some v => if truthy v then py_str v else EmptyString
      | None => EmptyString
      end
  | _ => EmptyString
  end.

(** The composite key of each sort mode. *)
Definition key_of (sort : string) (t : json) : sort_key :=
  let likes := metric_count t "like_count" in
  let replies := metric_count t "reply_count" in
  let retweets := metric_count t "retweet_count" in
  if String.eqb (lower sort) "likes" then Key3 likes replies (created_of t)
  else if String.eqb (lower sort) "replies" then Key3 replies likes (created_of t)
  else if String.eqb (lower sort) "retweets" then Key3 retweets likes (created_of t)
  else Key1 (created_of t).

Definition decorated (sort : string) (t : json) : sort_key * json := (key_of sort t, t).

(** A decorated item carries the key of its item. *)
Definition keyed (sort : string) (x : sort_key * json) : Prop := fst x = key_of sort (snd x).

End Reading.

(** ** The first fetch of a command *)

Section Openings.

Context {R : PyRuntime}.

(** The time window a command resolves before its first fetch. *)
Definition window (args : command) : M (option string) :=
  match args with
  | CmdSearch _ _ _ since _ _ _ quick => start_time_of (quick_since since quick)
  | _ => ret None
  end.

End Openings.

(** The URL of the username lookup. *)
Definition lookup_url (username : string) : string :=
  API ++ "/users/by/username/" ++ quote (lstrip_at username) ++
  "?user.fields=public_metrics,verified,created_at".

(** The first fetch of a command: its URL, its TTL and whether it bypasses
    the cache. *)
Definition opening_url {R : PyRuntime} (args : command) (start_time : option string)
  : string :=
  match args with
  | CmdSearch query _ _ _ _ _ _ quick => search_url (quick_query query quick) quick start_time
  | CmdTweet id _ => tweet_url id
  | CmdUserTweets username _ _ _ _ _ => lookup_url username
  end.

Definition opening_ttl (args : command) : Z :=
  match args with
  | CmdSearch _ _ _ _ _ _ _ quick => if quick then 3600 else 900
  | _ => 900
  end.

Definition opening_no_cache (args : command) : bool :=
  match args with
  | CmdTweet _ no_cache => no_cache
  | _ => false
  end.

(** The world once a request for [url] has been recorded. *)
Definition after_request (url : string) (w : world) : world :=
  set_requested (requested w ++ [url]) w.

Section Outcomes.

Context {R : PyRuntime}.


End Outcomes.

(** ** Requests and results *)

(** A URL below the API root. *)
Definition to_api (url : string) : bool := String.prefix (API ++ "/") url.

(** A computation that only adds to the record of requests: at most [n]
    URLs, each below the API root. *)
Definition sends {A : Type} (n : nat) (m : M A) : Prop :=
  forall w, exists fetched,
    requested (snd (m w)) = (requested w ++ fetched)%list /\
    Forall (fun u => to_api u = true) fetched /\
    (length fetched <= n)%nat.

Section Tails.

Context {R : PyRuntime}.

(** What [search_recent] makes of the payload its fetch returned. *)
Definition search_result (q : string) (since : option string) (sort : string) (quick : bool)
    (min_likes min_replies min_retweets limit : Z) (raw : json) (cache_hit : bool)
  : res search_envelope :=
  let? data := dict_get raw "data" in
  let? tweets := py_list (py_or data (JArr [])) in
  let? tweets := rank tweets min_likes min_replies min_retweets sort limit in
  let? n := (if cache_hit then Ok 0 else py_len (py_or data (JArr []))) in
  let? includes := dict_get raw "includes" in
  let? meta := dict_get raw "meta" in
  Ok (SearchEnvelope q since sort quick (min_likes, min_replies, min_retweets)
        (Z.of_nat (length tweets)) (Cost (if cache_hit then 0 else 1) n 0)
        tweets includes meta).

(** What the single-item command makes of the payload. *)
Definition tweet_result (id : string) (raw : json) (cache_hit : bool) : res tweet_envelope :=
  let? data := dict_get raw "data" in
  let? includes := dict_get raw "includes" in
  let? errors := dict_get raw "errors" in
  Ok (TweetEnvelope id cache_hit
        (Cost (if cache_hit then 0 else 1) (if cache_hit then 0 else 1) 0)
        (py_or data (JArr [])) includes errors).

End Tails.

(** The value a payload holds under a key, [null] when it holds none. *)
Definition entry (raw : json) (key : string) : json :=
  match raw with
  | JObj fields => match assoc key fields with Some v => v | None => JNull end
  | _ => JNull
  end.

(** The items of a payload: the list under [data], none when [data] is
    absent or falsy. *)
Definition payload_items (raw : json) : list json :=
  match entry raw "data" with
  | JArr items => items
  | _ => []
  end.

(** The document and the exit code [main] makes of an outcome. *)
Definition report (r : res document) : document * Z :=
  match r with
  | Ok out => (out, 0)
  | Raise e =>
      if is_ValueError (exn_cls e) then (DocError "invalid_arguments" (exn_msg e), 2)
      else if is_XRadarError (exn_cls e) then (DocError "runtime_error" (exn_msg e), 1)
      else (DocError "internal_error" (class_name (exn_cls e) ++ ": " ++ exn_msg e), 1)
  end.

(** ** URLs, dates and texts *)

(** Every character of a string passes a test. *)
Fixpoint all_chars (p : ascii -> bool) (s : string) : bool :=
  match s with
  | EmptyString => true
  | String c rest => p c && all_chars p rest
  end.

(** What [strip] makes of a string of ASCII characters, byte by byte. *)
Fixpoint ascii_lstrip (s : string) : string :=
  match s with
  | String c rest => if is_space c then ascii_lstrip rest else s
  | EmptyString => EmptyString
  end.

Fixpoint ascii_rstrip (s : string) : string :=
  match s with
  | EmptyString => EmptyString
  | String c rest =>
      match ascii_rstrip rest with
      | EmptyString => if is_space c then EmptyString else String c EmptyString
      | r => String c r
      end
  end.

Definition ascii_strip (s : string) : string := ascii_rstrip (ascii_lstrip s).

(** The characters [quote] lets into a URL path: letters, digits,
    [_], [.], [-], [~], the slash and the percent sign of an escape. *)
Definition path_char (c : ascii) : bool :=
  is_unreserved c || Ascii.eqb c "/" || Ascii.eqb c "%".

(** The day count of a date of the proleptic Gregorian calendar, the
    inverse of [civil_from_days]. *)
Definition days_from_civil (y m d : Z) : Z :=
  let y' := if m <=? 2 then y - 1 else y in
  let era := y' / 400 in
  let yoe := y' - era * 400 in
  let mp := if 2 <? m then m - 3 else m + 9 in
  let doy := (153 * mp + 2) / 5 + d - 1 in
  let doe := yoe * 365 + yoe / 4 - yoe / 100 + doy in
  era * 146097 + doe - 719468.

(** The second an instant falls in. *)
Definition second_of (us : Z) : Z := us / 1000000.

(** The number of characters of a string. *)
Fixpoint char_length (s : string) : nat :=
  match s with
  | EmptyString => O
  | String c rest => if is_continuation c then char_length rest else S (char_length rest)
  end.

(** The value a dict holds under a key is absent or falsy. *)
Definition no_value (d : list (string * json)) (key : string) : Prop :=
  match assoc key d with
  | None => True
  | Some v => truthy v = false
  end.


(** * Sample data and worlds *)

(** Worlds to run the program in. *)
Definition token_env : gmap string string := {[ "X_BEARER_TOKEN" := "token" ]}.

Definition offline : string -> response := fun _ => RespURLError "offline".

Definition sample_payload : json :=
  JObj [("data", JArr [JObj [("id", JStr "1");
                             ("created_at", JStr "2026-01-01T00:00:00Z");
                             ("public_metrics", JObj [("like_count", JInt 1)])]])].

Definition other_payload : json := JObj [("data", JArr [])].



Definition no_token_world : world := World ∅ 0 true ∅ offline [].

Definition cached_world : world :=
  World ∅ 60000000 true
        {[ _cache_path (tweet_url "1") := File (Ok (JsonText sample_payload)) 0 ]}
        offline [].

Definition tweet (created : string) (likes replies : json) : json :=
  JObj [("created_at", JStr created);
        ("public_metrics", JObj [("like_count", likes); ("reply_count", replies)])].

Definition timeline : list json :=
  [ tweet "2026-01-01T00:00:00Z" (JInt 1) (JInt 0);
    tweet "2026-01-02T00:00:00Z" (JInt 5) (JInt 2);
    JObj [("created_at", JStr "2026-01-03T00:00:00Z")];
    tweet "2026-01-04T00:00:00Z" (JStr "many") JNull ].

(** The two items of the specification's example. *)
Definition older_item : json :=
  JObj [("created_at", JStr "2026-01-01"); ("public_metrics", JObj [("like_count", JInt 1)])].
Definition newer_item : json :=
  JObj [("created_at", JStr "2026-01-02"); ("public_metrics", JObj [("like_count", JInt 5)])].

Definition alice_url : string :=
  API ++ "/users/by/username/alice?user.fields=public_metrics,verified,created_at".

Definition alice_payload : json := JObj [("data", JObj [("id", JStr "u1")])].


(** The username lookup is cached, the author's tweets are not. *)
Definition partly_cached_world : world :=
  World token_env 60000000 true
        {[ _cache_path alice_url := File (Ok (JsonText alice_payload)) 0 ]}
        (fun _ => RespBody (JsonText sample_payload)) [].


Definition alice_tweets_url : string :=
  API ++ "/users/u1/tweets?max_results=100" ++
  "&tweet.fields=created_at,public_metrics,conversation_id&exclude=replies,retweets".

Definition alice_envelope : user_tweets_envelope :=
  UserTweetsEnvelope "alice" "recent" (0, 0, 0) true false 1 (Cost 1 1 0)
    (JObj [("id", JStr "u1")])
    [JObj [("id", JStr "1"); ("created_at", JStr "2026-01-01T00:00:00Z");
           ("public_metrics", JObj [("like_count", JInt 1)])]]
    JNull.

Definition infinite_likes_item : json :=
  JObj [("public_metrics", JObj [("like_count", JFloat (S754_infinity false))])].

Definition infinite_likes_world : world :=
  World token_env 0 true ∅
        (fun _ => RespBody (JsonText (JObj [("data", JArr [infinite_likes_item])]))) [].

Definition null_data_payload : json := JObj [("data", JNull)].

Definition null_data_world : world :=
  World token_env 0 true ∅ (fun _ => RespBody (JsonText null_data_payload)) [].

Definition quick_world : world :=
  World token_env 1770988245123456 true ∅ (fun _ => RespBody (JsonText sample_payload)) [].


Definition undecodable_world : world := World token_env 0 true ∅ (fun _ => RespUndecodable) [].

Definition list_payload : json := JArr [JInt 1].

Definition list_payload_world : world :=
  World token_env 0 true ∅ (fun _ => RespBody (JsonText list_payload)) [].



Definition sample_world : world :=
  World token_env 0 true ∅ (fun _ => RespBody (JsonText sample_payload)) [].

(** A fresh entry in the cache, another answer at the API. *)
Definition bypass_world : world :=
  World token_env 60000000 true
    {[ _cache_path (tweet_url "1") := File (Ok (JsonText sample_payload)) 0 ]}
    (fun _ => RespBody (JsonText other_payload)) [].

(** A payload that holds a lone surrogate (the JSON text ["\ud800"]), as
    the reference runtime carries it. *)
Definition surrogate_payload : json := JStr (bytes [237; 160; 128]).



(** * Checks of the model against known values *)

Example K_ends : nth 0 Sha256.K 0 = 0x428a2f98 /\ nth 63 Sha256.K 0 = 0xc67178f2 /\ length Sha256.K = 64%nat.
Proof. repeat split. Qed.

Example H0_ends : Sha256.sa Sha256.H0 = 0x6a09e667 /\ Sha256.sh Sha256.H0 = 0x5be0cd19.
Proof. split; reflexivity. Qed.

Example sha256_abc :
  sha256_hex "abc" = "ba7816bf8f01cfea414140de5dae2223b00361a396177a9cb410ff61f20015ad".
Proof. vm_compute. reflexivity. Qed.

Example sha256_empty :
  sha256_hex "" = "e3b0c44298fc1c149afbf4c8996fb92427ae41e4649b934ca495991b7852b855".
Proof. vm_compute. reflexivity. Qed.

Example sha256_two_blocks :
  sha256_hex "abcdbcdecdefdefgefghfghighijhijkijkljklmklmnlmnomnopnopq"
  = "248d6a61d20638b8e5c026930c3e6039a33ce45964ff2167f6ecedd419db06c1".
Proof. vm_compute. reflexivity. Qed.

Example lower_example :
  ascii_lower "Is:RePLY x" = "is:reply x" /\
  lower (R := Reference.runtime) "Is:RePLY x" = "is:reply x" /\
  is_ascii "Is:RePLY x" = true /\ is_ascii (bytes [195; 137] ++ "h") = false.
Proof. repeat split. Qed.

Example strip_example :
  strip "  12h " = "12h" /\ drop_last "12h" = "12" /\ last_char "12h" = Some "h"%char /\
  strip (bytes [194; 160] ++ " 1 h" ++ bytes [10; 226; 128; 137]) = "1 h" /\
  strip (bytes [226; 128; 139] ++ "1h") = bytes [226; 128; 139] ++ "1h".
Proof. repeat split. Qed.

(** The 29 characters Python counts as whitespace. *)
Example whitespace_example :
  let ws := bytes [9; 10; 11; 12; 13; 28; 29; 30; 31; 32; 194; 133; 194; 160;
                   225; 154; 128; 226; 128; 128; 226; 128; 129; 226; 128; 130;
                   226; 128; 131; 226; 128; 132; 226; 128; 133; 226; 128; 134;
                   226; 128; 135; 226; 128; 136; 226; 128; 137; 226; 128; 138;
                   226; 128; 168; 226; 128; 169; 226; 128; 175; 226; 129; 159;
                   227; 128; 128] in
  length (characters ws) = 29%nat /\
  forallb is_whitespace (characters ws) = true /\
  strip (ws ++ "1h" ++ ws) = "1h".
Proof. repeat split; vm_compute; reflexivity. Qed.

Example encodable_example :
  Reference.encodable (json_dumps sample_payload) = true /\
  Reference.encodable (json_dumps surrogate_payload) = false /\
  Reference.encodable (json_dumps (JObj [("data", JArr [JObj [("text", surrogate_payload)]])]))
  = false.
Proof. repeat split. Qed.

Example urlencode_example :
  urlencode [("query", "a b -is:retweet"); ("tweet.fields", "created_at,public_metrics")]
  = "query=a+b+-is%3Aretweet&tweet.fields=created_at%2Cpublic_metrics".
Proof. reflexivity. Qed.

Example iso_epoch : _to_iso_utc 0 = "1970-01-01T00:00:00Z".
Proof. reflexivity. Qed.

Example iso_2026 : _to_iso_utc 1770988245123456 = "2026-02-13T13:10:45Z".
Proof. reflexivity. Qed.

Example iso_leap : _to_iso_utc (951782400 * 1000000) = "2000-02-29T00:00:00Z".
Proof. reflexivity. Qed.

Example int_literals :
  map Reference.int_of_str ["12"; " -7 "; "1_000"; "+5"; ""; "abc"; "1__0"; "12a"; "_1"]
  = [Some 12; Some (-7); Some 1000; Some 5; None; None; None; None; None].
Proof. reflexivity. Qed.

Example float_literals :
  map Reference.float_of_str ["24"; "1.5"; ".5"; "1."; "1e3"; "-2.5E-1"; "inf"; "nan";
                    ""; "x"; "."; "e5"; "1_.5"; "abc"]
  = [Some (Reference.DFin false 24 0); Some (Reference.DFin false 15 (-1)); Some (Reference.DFin false 5 (-1));
     Some (Reference.DFin false 1 0); Some (Reference.DFin false 1 3); Some (Reference.DFin true 25 (-2));
     Some (Reference.DInf false); Some Reference.DNan;
     None; None; None; None; None; None].
Proof. reflexivity. Qed.

Example timedelta_examples :
  Reference.timedelta Hours (Reference.DFin false 24 0) = Ok 86400000000 /\
  Reference.timedelta Days (Reference.DFin false 15 (-1)) = Ok 129600000000 /\
  Reference.timedelta Hours (Reference.DFin false 1 (-1)) = Ok 360000000 /\
  Reference.timedelta Hours (Reference.DFin false 15 (-7)) = Ok 5400 /\
  Reference.timedelta Days (Reference.DFin true 25 (-12)) = Ok (-2) /\
  Reference.timedelta Days (Reference.DFin false 1 9)
  = raise OverflowError "days=1000000000; must have magnitude <= 999999999" /\
  Reference.timedelta Days (Reference.DFin false 1 10)
  = raise OverflowError "Python int too large to convert to C int" /\
  Reference.timedelta Hours (Reference.DFin false 1 400)
  = raise OverflowError "cannot convert float infinity to integer".
Proof. repeat split; vm_compute; reflexivity. Qed.

Example characters_example :
  characters ("a" ++ bytes [195; 169] ++ " " ++ bytes [226; 130; 172] ++ "b")
  = ["a"; bytes [195; 169]; " "; bytes [226; 130; 172]; "b"].
Proof. reflexivity. Qed.

Example split_example :
  str_split ("  rate   limit" ++ bytes [194; 160; 10] ++ "exceeded ")
  = ["rate"; "limit"; "exceeded"] /\
  space_join ["rate"; "limit"; "exceeded"] = "rate limit exceeded" /\
  take_chars 2 ("a" ++ bytes [226; 130; 172] ++ "bc") = "a" ++ bytes [226; 130; 172].
Proof. repeat split. Qed.

(** * Properties of the cache store and the fetcher *)

Section Store.

Context {R : PyRuntime}.

Lemma read_cache_eq (url : string) (ttl : Z) (w : world) :
  _read_cache url ttl w = (Ok (cache_lookup url ttl w), w).
Proof.
  unfold _read_cache, cache_lookup, try_except, bind, path_exists, utcnow,
    stat_mtime, read_text, ret, throw.
  destruct (cache_files w !! _cache_path url) as [f|] eqn:Hf; simpl.
  - rewrite Hf.
    destruct (ttl * 1000000 <? clock w - f_mtime f); simpl; [reflexivity|].
    rewrite Hf. destruct (f_content f) as [[j|s]|e]; reflexivity.
  - reflexivity.
Qed.

Lemma write_cache_eq (url : string) (obj : json) (w : world) :
  _write_cache url obj w = (Ok tt, cache_store url obj w).
Proof.
  unfold _write_cache, cache_store, try_except, write_text, ret.
  destruct (cache_writable w); [|reflexivity].
  destruct (py_encodable (json_dumps obj)); reflexivity.
Qed.

Lemma get_eq (url : string) (ttl : Z) (no_cache : bool) (w : world) :
  _get url ttl no_cache w =
  match cached url ttl no_cache w with
  | JNull => fetch url ttl no_cache w
  | c => (Ok (c, true), w)
  end.
Proof.
  unfold _get, cached, fetch. unfold bind at 1.
  destruct (negb no_cache && (0 <? ttl)).
  - rewrite read_cache_eq. destruct (cache_lookup url ttl w); reflexivity.
  - reflexivity.
Qed.

Lemma get_hit (url : string) (ttl : Z) (no_cache : bool) (w : world) :
  cached url ttl no_cache w <> JNull ->
  _get url ttl no_cache w = (Ok (cached url ttl no_cache w, true), w).
Proof.
  intros H. rewrite get_eq. destruct (cached url ttl no_cache w); congruence.
Qed.

Lemma get_miss (url : string) (ttl : Z) (no_cache : bool) (w : world) :
  cached url ttl no_cache w = JNull ->
  _get url ttl no_cache w = fetch url ttl no_cache w.
Proof. intros H. rewrite get_eq, H. reflexivity. Qed.

Lemma bearer_eq (w : world) :
  _bearer w = (match credential w with Some t => Ok t | None => Raise missing_credential end, w).
Proof.
  unfold _bearer, credential, bind, getenv, ret, throw, missing_credential.
  destruct (opt_or (environ w !! "X_BEARER_TOKEN") (environ w !! "TWITTER_BEARER_TOKEN"))
    as [t|]; [destruct (String.eqb t "")|]; reflexivity.
Qed.

Lemma fetch_eq (url : string) (ttl : Z) (no_cache : bool) (w : world) :
  fetch url ttl no_cache w = fetch_outcome url ttl no_cache w.
Proof.
  unfold fetch, fetch_outcome, Request. destruct (has_scheme url); [|reflexivity].
  unfold bind at 1. unfold ret at 1. unfold bind at 1. rewrite bearer_eq.
  destruct (credential w) as [t|]; [|reflexivity].
  unfold bind at 1. unfold urlopen, response_result.
  destruct (provider w url) as [[obj|s]| | | | |e]; try reflexivity.
  cbn [json_loads]. unfold bind at 1.
  destruct (negb no_cache && (0 <? ttl)).
  - rewrite write_cache_eq. reflexivity.
  - reflexivity.
Qed.

Lemma fetch_outcome_ok (url : string) (ttl : Z) (no_cache : bool) (w w' : world)
    (p : json) (hit : bool) :
  fetch_outcome url ttl no_cache w = (Ok (p, hit), w') ->
  hit = false /\ requested w' = (requested w ++ [url])%list /\
  response_result (provider w url) = Ok p /\
  environ w' = environ w /\ clock w' = clock w /\ provider w' = provider w.
Proof.
  unfold fetch_outcome. destruct (has_scheme url); [|discriminate].
  destruct (credential w); [|discriminate]. cbv zeta.
  destruct (response_result (provider w url)) as [obj|e]; [|discriminate].
  intros [= <- <- <-].
  destruct (negb no_cache && (0 <? ttl)); [|repeat split; reflexivity].
  unfold cache_store. simpl. destruct (cache_writable w); repeat split; reflexivity.
Qed.

(** A [_get] that returns made one request on a miss and none on a hit. *)
Lemma get_requested (url : string) (ttl : Z) (no_cache : bool) (w w' : world)
    (p : json) (hit : bool) :
  _get url ttl no_cache w = (Ok (p, hit), w') ->
  requested w' = (requested w ++ (if hit then [] else [url]))%list.
Proof.
  rewrite get_eq, fetch_eq. intros H.
  assert (Hmiss : (fetch_outcome url ttl no_cache w = (Ok (p, hit), w')) ->
                  (requested w' = (requested w ++ (if hit then [] else [url]))%list)).
  { intros Hf. apply fetch_outcome_ok in Hf as (-> & -> & _). reflexivity. }
  destruct (cached url ttl no_cache w); auto;
    injection H as <- <- <-; rewrite app_nil_r; reflexivity.
Qed.

Lemma has_scheme_API (rest : string) : has_scheme (API ++ rest) = true.
Proof. reflexivity. Qed.

(** ** Cache failures never reach the caller *)


End Store.


(** ** Cache round trip *)

Section RoundTrip.

Context {R : PyRuntime}.

(** The entry a write leaves when the directory can be written: the
    payload, or an empty file when the payload cannot be encoded. *)
Lemma cache_store_file (u : string) (P : json) (w : world) :
  cache_writable w = true ->
  cache_files (cache_store u P w) !! _cache_path u
  = Some (File (Ok (if py_encodable (json_dumps P) then JsonText P else OtherText ""))
            (clock w)).
Proof.
  intros Hw. unfold cache_store. rewrite Hw. cbn [cache_files set_cache_files].
  apply lookup_insert_eq.
Qed.

Lemma cache_store_clock (u : string) (P : json) (w : world) :
  clock (cache_store u P w) = clock w.
Proof. unfold cache_store. destruct (cache_writable w); reflexivity. Qed.

Lemma cache_lookup_after_store (u : string) (P : json) (ttl dt : Z) (w : world) :
  cache_writable w = true -> py_encodable (json_dumps P) = true -> dt <= ttl * 1000000 ->
  cache_lookup u ttl (set_clock (clock w + dt) (cache_store u P w)) = P.
Proof.
  intros Hw He Hdt. unfold cache_lookup. cbn [cache_files set_clock clock].
  rewrite cache_store_file, He by assumption. cbn [f_mtime f_content].
  replace (ttl * 1000000 <? clock w + dt - clock w) with false; [reflexivity|].
  symmetry. apply Z.ltb_ge. lia.
Qed.

(** A write of [null], or of a payload that cannot be encoded, leaves
    nothing a read could return. *)
Lemma cache_lookup_after_lost_store (u : string) (P : json) (ttl t : Z) (w : world) :
  cache_writable w = true -> P = JNull \/ py_encodable (json_dumps P) = false ->
  cache_lookup u ttl (set_clock t (cache_store u P w)) = JNull.
Proof.
  intros Hw HP. unfold cache_lookup. cbn [cache_files set_clock clock].
  rewrite cache_store_file by assumption. cbn [f_mtime f_content].
  destruct (ttl * 1000000 <? t - clock w); [reflexivity|].
  destruct (py_encodable (json_dumps P)) eqn:He; [|reflexivity].
  destruct HP as [-> | HP]; [reflexivity | discriminate].
Qed.


End RoundTrip.

Section Properties.

Context {R : PyRuntime}.

(** ** The credential is resolved lazily *)

Lemma main_raises (args : command) (w w' : world) (e : exn) :
  run args w = (Raise e, w') ->
  main args w =
  ((if is_ValueError (exn_cls e) then DocError "invalid_arguments" (exn_msg e)
    else if is_XRadarError (exn_cls e) then DocError "runtime_error" (exn_msg e)
    else DocError "internal_error" (class_name (exn_cls e) ++ ": " ++ exn_msg e),
    if is_ValueError (exn_cls e) then 2 else 1), w').
Proof.
  intros H. unfold main. rewrite H.
  destruct (is_ValueError (exn_cls e)); [reflexivity|].
  destruct (is_XRadarError (exn_cls e)); reflexivity.
Qed.

(** C7. A [_get] answered from the cache returns the cached payload whatever
    the environment holds, also with no credential in it.  On a miss (or with
    the cache bypassed) and no credential, a [_get] of a URL raises the
    missing-credential error and leaves the world as it is: no request is
    made.  The single-item command then writes the [runtime_error] payload
    citing the credential and exits with code 1. *)
Theorem credential_is_resolved_lazily :
  (forall url ttl no_cache w,
     cached url ttl no_cache w <> JNull -> credential w = None ->
     _get url ttl no_cache w = (Ok (cached url ttl no_cache w, true), w)) /\
  (forall url ttl no_cache w,
     has_scheme url = true -> cached url ttl no_cache w = JNull -> credential w = None ->
     _get url ttl no_cache w = (Raise (Exn XRadarError "Missing X_BEARER_TOKEN env var"), w)) /\
  (forall id no_cache w,
     cached (tweet_url id) 900 no_cache w = JNull -> credential w = None ->
     main (CmdTweet id no_cache) w
     = ((DocError "runtime_error" "Missing X_BEARER_TOKEN env var", 1), w)).
Proof.
  assert (Hmiss : forall url ttl no_cache w,
             has_scheme url = true -> cached url ttl no_cache w = JNull ->
             credential w = None ->
             _get url ttl no_cache w = (Raise missing_credential, w)).
  { intros url ttl no_cache w Hs Hc Hcred.
    rewrite get_miss, fetch_eq by assumption.
    unfold fetch_outcome. rewrite Hs, Hcred. reflexivity. }
  repeat split.
  - intros url ttl no_cache w Hc _. apply get_hit. assumption.
  - exact Hmiss.
  - intros id no_cache w Hc Hcred.
    rewrite (main_raises _ w w missing_credential); [reflexivity|].
    unfold run, tweet_by_id. unfold bind at 1.
    rewrite Hmiss; [reflexivity | apply has_scheme_API | assumption | assumption].
Qed.

End Properties.

Lemma credential_is_resolved_lazily_witness :
  _get (R := Reference.runtime) (tweet_url "1") 900 false cached_world
  = (Ok (sample_payload, true), cached_world) /\
  _get (R := Reference.runtime) (tweet_url "1") 900 false no_token_world
  = (Raise (Exn XRadarError "Missing X_BEARER_TOKEN env var"), no_token_world) /\
  main (R := Reference.runtime) (CmdTweet "1" false) no_token_world
  = ((DocError "runtime_error" "Missing X_BEARER_TOKEN env var", 1), no_token_world).
Proof.
  pose proof (credential_is_resolved_lazily (R := Reference.runtime)) as (Hhit & Hmiss & Hmain).
  split; [|split].
  - apply (Hhit (tweet_url "1") 900 false cached_world); [vm_compute; discriminate | reflexivity].
  - apply Hmiss; reflexivity.
  - apply Hmain; reflexivity.
Defined.

(** * Request signatures *)

Lemma unquote_plus_char (c : ascii) (rest : string) :
  unquote_plus (plus_char c ++ rest) = String c (unquote_plus rest).
Proof. destruct c as [[] [] [] [] [] [] [] []]; reflexivity. Qed.

Lemma unquote_quote_plus (s : string) : unquote_plus (quote_plus s) = s.
Proof.
  induction s as [|c s IH]; [reflexivity|].
  cbn [quote_plus]. rewrite unquote_plus_char, IH. reflexivity.
Qed.

Lemma quote_plus_inj (a b : string) : quote_plus a = quote_plus b -> a = b.
Proof.
  intros H. rewrite <- (unquote_quote_plus a), <- (unquote_quote_plus b), H. reflexivity.
Qed.

Lemma append_cons (x : ascii) (a b : string) : String x a ++ b = String x (a ++ b).
Proof. reflexivity. Qed.

Lemma append_nil (b : string) : EmptyString ++ b = b.
Proof. reflexivity. Qed.

Lemma has_char_app (c : ascii) (a b : string) :
  has_char c (a ++ b) = has_char c a || has_char c b.
Proof.
  induction a as [|x a IH]; [reflexivity|].
  rewrite append_cons. cbn [has_char]. rewrite IH, orb_assoc. reflexivity.
Qed.

Lemma plus_char_separators (c : ascii) :
  has_char "&" (plus_char c) = false /\ has_char "=" (plus_char c) = false.
Proof. destruct c as [[] [] [] [] [] [] [] []]; split; reflexivity. Qed.

Lemma quote_plus_separators (s : string) :
  has_char "&" (quote_plus s) = false /\ has_char "=" (quote_plus s) = false.
Proof.
  induction s as [|c s [IH1 IH2]]; [split; reflexivity|].
  cbn [quote_plus]. rewrite !has_char_app, IH1, IH2.
  destruct (plus_char_separators c) as [-> ->]. split; reflexivity.
Qed.

(** Two strings cut at the first separator agree part by part. *)
Lemma split_at_separator (sep : ascii) (a1 a2 r1 r2 : string) :
  has_char sep a1 = false -> has_char sep a2 = false ->
  a1 ++ String sep r1 = a2 ++ String sep r2 -> a1 = a2 /\ r1 = r2.
Proof.
  revert a2. induction a1 as [|x a1 IH]; intros [|y a2] H1 H2 H;
    rewrite ?append_cons, ?append_nil in H; cbn [has_char] in *.
  - injection H as ->. split; reflexivity.
  - injection H as -> _. rewrite Ascii.eqb_refl in H2. discriminate.
  - injection H as -> _. rewrite Ascii.eqb_refl in H1. discriminate.
  - injection H as -> H. apply orb_false_elim in H1 as [_ H1].
    apply orb_false_elim in H2 as [_ H2].
    destruct (IH a2 H1 H2 H) as [-> ->]. split; reflexivity.
Qed.

Lemma encode_pair_inj (kv1 kv2 : string * string) :
  encode_pair kv1 = encode_pair kv2 -> kv1 = kv2.
Proof.
  destruct kv1 as [k1 v1], kv2 as [k2 v2]. unfold encode_pair. cbn [fst snd].
  intros H. apply split_at_separator in H as [Hk Hv];
    try apply quote_plus_separators.
  apply quote_plus_inj in Hk, Hv. congruence.
Qed.

Lemma encode_pair_separators (kv : string * string) :
  has_char "&" (encode_pair kv) = false /\ has_char "=" (encode_pair kv) = true.
Proof.
  unfold encode_pair. rewrite !has_char_app.
  destruct (quote_plus_separators (fst kv)) as [-> ->].
  destruct (quote_plus_separators (snd kv)) as [-> _]. split; reflexivity.
Qed.

Lemma urlencode_cons (kv : string * string) (rest : list (string * string)) :
  has_char "=" (urlencode (kv :: rest)) = true.
Proof.
  destruct rest as [|kv' rest]; cbn [urlencode].
  - apply encode_pair_separators.
  - rewrite has_char_app. destruct (encode_pair_separators kv) as [_ ->]. reflexivity.
Qed.

Lemma urlencode_more (kv x : string * string) (l : list (string * string)) :
  urlencode (kv :: x :: l) = encode_pair kv ++ "&" ++ urlencode (x :: l).
Proof. reflexivity. Qed.

Lemma urlencode_inj (qp1 qp2 : list (string * string)) :
  urlencode qp1 = urlencode qp2 -> qp1 = qp2.
Proof.
  revert qp2. induction qp1 as [|kv1 l1 IH]; intros [|kv2 l2] H.
  - reflexivity.
  - pose proof (urlencode_cons kv2 l2) as E. rewrite <- H in E. discriminate.
  - pose proof (urlencode_cons kv1 l1) as E. rewrite H in E. discriminate.
  - destruct l1 as [|x l1], l2 as [|y l2]; rewrite ?urlencode_more in H.
    + apply encode_pair_inj in H. congruence.
    + pose proof (encode_pair_separators kv1) as [E _].
      change (urlencode [kv1]) with (encode_pair kv1) in H. rewrite H in E.
      rewrite has_char_app in E. cbn [has_char String.append] in E.
      rewrite append_cons in E. cbn in E. rewrite orb_true_r in E. discriminate.
    + pose proof (encode_pair_separators kv2) as [E _].
      change (urlencode [kv2]) with (encode_pair kv2) in H. rewrite <- H in E.
      rewrite has_char_app in E. rewrite append_cons in E. cbn in E.
      rewrite orb_true_r in E. discriminate.
    + rewrite !append_cons, !append_nil in H.
      apply split_at_separator in H as [Hkv Hrest];
        try apply encode_pair_separators.
      apply encode_pair_inj in Hkv. apply IH in Hrest. congruence.
Qed.

Lemma string_length_app (a b : string) :
  String.length (a ++ b) = (String.length a + String.length b)%nat.
Proof.
  induction a as [|x a IH]; [reflexivity|].
  rewrite append_cons. cbn [String.length]. rewrite IH. reflexivity.
Qed.

Lemma hex_word_length (x : Z) : String.length (Sha256.hex_word x) = 8%nat.
Proof. reflexivity. Qed.

Lemma cache_key_length (url : string) : String.length (_cache_key url) = 64%nat.
Proof.
  unfold _cache_key, sha256_hex, Sha256.hexdigest.
  rewrite !string_length_app, !hex_word_length. reflexivity.
Qed.

Lemma append_cancel_l (a x y : string) : a ++ x = a ++ y -> x = y.
Proof.
  induction a as [|c a IH]; [trivial|].
  rewrite !append_cons. intros [= H]. auto.
Qed.

Lemma search_url_resolve (q : string) (quick : bool) :
  search_url q quick None
  = resolve (API ++ "/tweets/search/recent")
      [ ("query", q); ("max_results", if quick then "10" else "100");
        ("tweet.fields", tweet_fields); ("expansions", "author_id");
        ("user.fields", "username,name,verified") ].
Proof. reflexivity. Qed.

(** C1, as amended.  The cache key is the SHA-256 of the resolved URL string
    and of nothing else, 64 hexadecimal digits long: two requests with the
    same endpoint and the same parameters in the same order get the same key.
    Requests to an endpoint that differ in a parameter, or in the order of
    the parameters, resolve to different strings; their keys are digests of
    different strings. *)
Theorem cache_key_of_request :
  (forall endpoint qp1 qp2,
     qp1 = qp2 -> _cache_key (resolve endpoint qp1) = _cache_key (resolve endpoint qp2)) /\
  (forall endpoint qp1 qp2,
     resolve endpoint qp1 = resolve endpoint qp2 <-> qp1 = qp2) /\
  (forall url, _cache_key url = sha256_hex url /\ String.length (_cache_key url) = 64%nat).
Proof.
  split; [|split].
  - intros endpoint qp1 qp2 ->. reflexivity.
  - intros endpoint qp1 qp2. split; [|intros ->; reflexivity].
    unfold resolve. intros H. apply append_cancel_l in H.
    rewrite !append_cons, !append_nil in H. injection H as H.
    apply urlencode_inj. assumption.
  - intros url. split; [reflexivity | apply cache_key_length].
Qed.

Lemma cache_key_of_request_witness :
  _cache_key (resolve (API ++ "/tweets") [("ids", "1")])
  = _cache_key (resolve (API ++ "/tweets") [("ids", "1")]) /\
  [("ids", "1")] = [("ids", "1")].
Proof.
  split.
  - apply (proj1 cache_key_of_request). reflexivity.
  - apply (proj1 (proj2 cache_key_of_request) (API ++ "/tweets")). reflexivity.
Defined.

Example cache_key_example :
  _cache_key "https://api.x.com/2/tweets?ids=1"
  = "6fef42d9b31b406c296729fd1ff64709a96480bf39edcc562e11d4cb5518abc5".
Proof. vm_compute. reflexivity. Qed.

(** C1, as stated, fails: the same endpoint with the same two parameter
    values in the other order is hashed from another string and gets
    another key. *)
Lemma cache_key_depends_on_parameter_order :
  let endpoint := API ++ "/tweets/search/recent" in
  let qp1 := [("query", "x"); ("max_results", "10")] in
  let qp2 := [("max_results", "10"); ("query", "x")] in
  Permutation qp1 qp2 /\
  resolve endpoint qp1 = "https://api.x.com/2/tweets/search/recent?query=x&max_results=10" /\
  resolve endpoint qp2 = "https://api.x.com/2/tweets/search/recent?max_results=10&query=x" /\
  _cache_key (resolve endpoint qp1)
  = "5e3b0371cb924955ff2210c8c7c06d3de084367ed95d4b3f4c5025002356b920" /\
  _cache_key (resolve endpoint qp2)
  = "47ceaf87ae49af3fe6ce4c61fb6550558db51beb71531f01e3ffd0552bca0ab5" /\
  _cache_key (resolve endpoint qp1) <> _cache_key (resolve endpoint qp2).
Proof.
  cbv zeta. split; [apply perm_swap|].
  repeat split; try (vm_compute; reflexivity).
  vm_compute. discriminate.
Qed.

(** * The ranker *)

Section Ranker.

Context {R : PyRuntime}.

(** ** Filtering *)

Lemma metric_of_values (ms : list (string * json)) (key : string) :
  finite_metric ms key = true ->
  (let? val := dict_get (JObj ms) key in
   match py_int (py_or val (JInt 0)) with
   | Ok n => Ok n
   | Raise e =>
       match exn_cls e with
       | TypeError | ValueError | UnicodeDecodeError => Ok 0
       | _ => Raise e
       end
   end) = Ok (count_of (assoc key ms)).
Proof.
  unfold finite_metric, dict_get, res_bind, py_or, count_of.
  destruct (assoc key ms) as [[| b | n | f | s | items | fields]|]; intros Hfin;
    try reflexivity.
  - destruct b; reflexivity.
  - cbn [truthy]. destruct (Z.eqb_spec n 0) as [->|]; reflexivity.
  - destruct f; try discriminate; reflexivity.
  - cbn [truthy]. destruct (String.eqb s ""); [reflexivity|].
    cbn [negb py_int]. destruct (py_int_of_str s); reflexivity.
  - destruct items; reflexivity.
  - destruct fields; reflexivity.
Qed.

Lemma metric_eq (t : json) (key : string) :
  item_ok t = true ->
  key = "like_count" \/ key = "reply_count" \/ key = "retweet_count" ->
  _metric t key = Ok (metric_count t key).
Proof.
  intros Hok Hkey. unfold _metric, metric_count, raw_metric.
  destruct t as [| | | | | |fields]; try discriminate.
  cbn [dict_get res_bind]. cbn [item_ok] in Hok.
  destruct (assoc "public_metrics" fields) as [pm|].
  - unfold py_or at 1. destruct (truthy pm) eqn:Htruthy.
    + destruct pm as [| | | | | |ms]; try discriminate.
      cbn [negb orb] in Hok. apply andb_prop in Hok as [Hok H3].
      apply andb_prop in Hok as [H1 H2].
      apply metric_of_values. destruct Hkey as [->|[->| ->]]; assumption.
    + rewrite (metric_of_values [] key) by reflexivity.
      destruct pm as [| | | | | |ms]; try reflexivity.
      destruct ms; [reflexivity | discriminate].
  - apply (metric_of_values [] key). reflexivity.
Qed.

Lemma filter_tweets_eq (tweets : list json) (ml mr mt : Z) :
  Forall (fun t => item_ok t = true) tweets ->
  _filter_tweets tweets ml mr mt = Ok (List.filter (keeps ml mr mt) tweets).
Proof.
  induction 1 as [|t rest Ht _ IH]; [reflexivity|].
  cbn [_filter_tweets List.filter]. rewrite IH.
  rewrite !metric_eq by auto. unfold keeps. cbn [res_bind].
  rewrite (Z.leb_antisym _ ml), (Z.leb_antisym _ mr), (Z.leb_antisym _ mt).
  destruct (metric_count t "like_count" <? ml); [reflexivity|].
  cbn [res_bind]. destruct (metric_count t "reply_count" <? mr); [reflexivity|].
  cbn [res_bind]. destruct (metric_count t "retweet_count" <? mt); reflexivity.
Qed.

Lemma unparseable_counts_zero (v : option json) :
  absent_or_unparseable v -> count_of v = 0.
Proof.
  destruct v as [[| b | n | f | s | items | fields]|]; cbn; try tauto.
  - destruct f; tauto.
  - intros ->. destruct (String.eqb s ""); reflexivity.
Qed.

Lemma filter_refines (p q : json -> bool) (l : list json) :
  (forall t, q t = true -> p t = true) ->
  List.filter q (List.filter p l) = List.filter q l.
Proof.
  intros Hpq. induction l as [|t l IH]; [reflexivity|].
  cbn [List.filter]. destruct (p t) eqn:Hp.
  - cbn [List.filter]. rewrite IH. reflexivity.
  - rewrite IH. destruct (q t) eqn:Hq; [|reflexivity].
    rewrite (Hpq t Hq) in Hp. discriminate.
Qed.

Lemma keeps_iff (ml mr mt : Z) (t : json) :
  keeps ml mr mt t = true <->
  ml <= metric_count t "like_count" /\ mr <= metric_count t "reply_count" /\
  mt <= metric_count t "retweet_count".
Proof. unfold keeps. rewrite !andb_true_iff, !Z.leb_le. tauto. Qed.

(** Thresholds on readable items (the part of C3 that holds).  On items
    [_metric] can read, [_filter_tweets] returns exactly the items whose
    like, reply and retweet counts each reach their threshold, in their
    order; an absent or unparseable metric value counts as zero, so
    such an item is dropped by every positive threshold on that metric; and
    with thresholds raised the result is the earlier result filtered
    further. *)
Theorem filter_tweets_thresholds (tweets : list json) (ml mr mt : Z) :
  Forall (fun t => item_ok t = true) tweets ->
  _filter_tweets tweets ml mr mt = Ok (List.filter (keeps ml mr mt) tweets) /\
  (forall t, In t (List.filter (keeps ml mr mt) tweets) <->
             In t tweets /\
             ml <= metric_count t "like_count" /\
             mr <= metric_count t "reply_count" /\
             mt <= metric_count t "retweet_count") /\
  (forall t key, absent_or_unparseable (raw_metric t key) -> metric_count t key = 0) /\
  (forall t, absent_or_unparseable (raw_metric t "like_count") -> 0 < ml ->
             keeps ml mr mt t = false) /\
  (forall t, absent_or_unparseable (raw_metric t "reply_count") -> 0 < mr ->
             keeps ml mr mt t = false) /\
  (forall t, absent_or_unparseable (raw_metric t "retweet_count") -> 0 < mt ->
             keeps ml mr mt t = false) /\
  (forall ml' mr' mt', ml <= ml' -> mr <= mr' -> mt <= mt' ->
     _filter_tweets tweets ml' mr' mt'
     = Ok (List.filter (keeps ml' mr' mt') (List.filter (keeps ml mr mt) tweets))).
Proof.
  intros Hok.
  assert (Hdrop : forall t key m, absent_or_unparseable (raw_metric t key) -> 0 < m ->
                                  (m <=? metric_count t key) = false).
  { intros t key m Hv Hm. unfold metric_count.
    rewrite unparseable_counts_zero by assumption. apply Z.leb_gt. assumption. }
  split; [apply filter_tweets_eq; assumption|].
  split; [intros t; rewrite filter_In, keeps_iff; reflexivity|].
  split; [intros t key Hv; apply unparseable_counts_zero; assumption|].
  split; [intros t Hv Hm; unfold keeps; rewrite Hdrop by assumption; reflexivity|].
  split; [intros t Hv Hm; unfold keeps; rewrite (Hdrop t "reply_count") by assumption;
          apply andb_false_intro1, andb_false_intro2; reflexivity|].
  split; [intros t Hv Hm; unfold keeps; rewrite (Hdrop t "retweet_count") by assumption;
          apply andb_false_intro2; reflexivity|].
  intros ml' mr' mt' Hl Hr Ht.
  rewrite filter_tweets_eq by assumption. f_equal. symmetry.
  apply filter_refines. intros t. rewrite !keeps_iff. lia.
Qed.

End Ranker.

Lemma filter_tweets_thresholds_witness :
  _filter_tweets (R := Reference.runtime) timeline 2 0 0
  = Ok [tweet "2026-01-02T00:00:00Z" (JInt 5) (JInt 2)].
Proof.
  assert (H : Forall (fun t => item_ok t = true) timeline)
    by (repeat (constructor; [reflexivity|]); constructor).
  exact (proj1 (filter_tweets_thresholds (R := Reference.runtime) timeline 2 0 0 H)).
Defined.

(** ** The order of sort keys *)

Lemma string_ltb_irrefl (a : string) : String.ltb a a = false.
Proof.
  unfold String.ltb. pose proof (String.compare_antisym a a) as H.
  destruct (String.compare a a); try reflexivity; discriminate.
Qed.

Lemma string_ltb_trans (a b c : string) :
  String.ltb a b = true -> String.ltb b c = true -> String.ltb a c = true.
Proof.
  unfold String.ltb. intros Hab Hbc.
  assert (Hlt : String_as_OT.lt a c).
  { apply String_as_OT.lt_trans with b; apply String_as_OT.cmp_lt;
      unfold String_as_OT.cmp.
    - destruct (String.compare a b); try discriminate; reflexivity.
    - destruct (String.compare b c); try discriminate; reflexivity. }
  apply String_as_OT.cmp_lt in Hlt. unfold String_as_OT.cmp in Hlt.
  rewrite Hlt. reflexivity.
Qed.

(** Two strings are equal or one is below the other. *)
Lemma string_ltb_total (a b : string) :
  String.ltb a b = true \/ a = b \/ String.ltb b a = true.
Proof.
  unfold String.ltb. rewrite (String.compare_antisym b a).
  destruct (String.compare a b) eqn:E; cbn; auto.
  right. left. apply String.compare_eq_iff. assumption.
Qed.

Lemma string_ge_trans (a b c : string) :
  String.ltb a b = false -> String.ltb b c = false -> String.ltb a c = false.
Proof.
  intros Hab Hbc. destruct (String.ltb a c) eqn:Hac; [|reflexivity].
  destruct (string_ltb_total a b) as [H|[->|H]].
  - congruence.
  - congruence.
  - rewrite (string_ltb_trans b a c H Hac) in Hbc. discriminate.
Qed.

Lemma string_ltb_leb (a b : string) : String.ltb a b = negb (String.leb b a).
Proof.
  unfold String.ltb, String.leb. rewrite (String.compare_antisym a b).
  destruct (String.compare b a); reflexivity.
Qed.

Lemma key_ge_iff (k1 k2 : sort_key) : key_ltb k1 k2 = false <-> key_ge k1 k2.
Proof.
  destruct k1 as [a b c|c], k2 as [a' b' c'|c']; cbn [key_ltb key_ge].
  - destruct (Z.eqb_spec a a') as [->|Ha].
    + destruct (Z.eqb_spec b b') as [->|Hb].
      * rewrite string_ltb_leb, negb_false_iff. split; [auto|].
        intros [H|[_ [H|[_ H]]]]; [lia | lia | assumption].
      * rewrite Z.ltb_ge. split; [intros H; right; split; [reflexivity|left; lia]|].
        intros [H|[_ [H|[H _]]]]; lia.
    + rewrite Z.ltb_ge. split; [intros H; left; lia|].
      intros [H|[H _]]; lia.
  - tauto.
  - split; [discriminate | tauto].
  - rewrite string_ltb_leb, negb_false_iff. tauto.
Qed.

Lemma string_leb_trans (a b c : string) :
  String.leb a b = true -> String.leb b c = true -> String.leb a c = true.
Proof.
  intros Hab Hbc. apply negb_false_iff. rewrite <- string_ltb_leb.
  apply string_ge_trans with b; rewrite string_ltb_leb, negb_false_iff; assumption.
Qed.

Lemma key_ge_trans (k1 k2 k3 : sort_key) :
  key_ltb k1 k2 = false -> key_ltb k2 k3 = false -> key_ltb k1 k3 = false.
Proof.
  rewrite !key_ge_iff.
  destruct k1 as [a1 b1 c1|c1], k2 as [a2 b2 c2|c2], k3 as [a3 b3 c3|c3];
    cbn [key_ge]; try tauto.
  - intros [H|[-> [H|[-> H]]]] [H'|[-> [H'|[-> H']]]];
      first [ left; lia
            | right; split; [lia|];
              first [ left; lia
                    | right; split; [lia|]; eapply string_leb_trans; eassumption ] ].
  - intros H H'. eapply string_leb_trans; eassumption.
Qed.

Lemma string_ltb_asym (a b : string) : String.ltb a b = true -> String.ltb b a = false.
Proof.
  intros H. destruct (String.ltb b a) eqn:E; [|reflexivity].
  pose proof (string_ltb_trans _ _ _ H E) as F.
  rewrite string_ltb_irrefl in F. discriminate.
Qed.

Lemma key_ltb_asym (k1 k2 : sort_key) : key_ltb k1 k2 = true -> key_ltb k2 k1 = false.
Proof.
  destruct k1 as [a1 b1 c1|c1], k2 as [a2 b2 c2|c2]; cbn [key_ltb]; try congruence.
  - destruct (Z.eqb_spec a1 a2) as [->|Ha].
    + rewrite Z.eqb_refl. destruct (Z.eqb_spec b1 b2) as [->|Hb].
      * rewrite Z.eqb_refl. apply string_ltb_asym.
      * destruct (Z.eqb_spec b2 b1); [lia|]. rewrite Z.ltb_lt, Z.ltb_ge. lia.
    + destruct (Z.eqb_spec a2 a1); [lia|]. rewrite Z.ltb_lt, Z.ltb_ge. lia.
  - apply string_ltb_asym.
Qed.

(** ** The stable descending sort *)

Lemma insert_desc_perm (x : sort_key * json) (l : list (sort_key * json)) :
  Permutation (x :: l) (insert_desc x l).
Proof.
  induction l as [|y l IH]; cbn [insert_desc]; [reflexivity|].
  destruct (key_ltb (fst x) (fst y)); [|reflexivity].
  rewrite perm_swap. apply perm_skip. assumption.
Qed.

Lemma sort_desc_perm (l : list (sort_key * json)) : Permutation l (sort_desc l).
Proof.
  induction l as [|x l IH]; cbn [sort_desc fold_right]; [reflexivity|].
  rewrite <- insert_desc_perm. apply perm_skip. assumption.
Qed.

Lemma insert_desc_sorted (x : sort_key * json) (l : list (sort_key * json)) :
  StronglySorted ranks_above l -> StronglySorted ranks_above (insert_desc x l).
Proof.
  induction 1 as [|y l Hsorted IH Hy]; cbn [insert_desc].
  - constructor; constructor.
  - destruct (key_ltb (fst x) (fst y)) eqn:Hxy.
    + constructor; [assumption|].
      apply (Permutation_Forall (insert_desc_perm x l)).
      constructor; [apply key_ltb_asym; assumption | assumption].
    + constructor; [constructor; assumption|].
      constructor; [assumption|].
      eapply List.Forall_impl; [|exact Hy]. intros z Hz.
      unfold ranks_above in *. eapply key_ge_trans; eassumption.
Qed.

Lemma sort_desc_sorted (l : list (sort_key * json)) :
  StronglySorted ranks_above (sort_desc l).
Proof.
  induction l as [|x l IH]; cbn [sort_desc fold_right]; [constructor|].
  apply insert_desc_sorted. assumption.
Qed.

Lemma same_key_apart (k k1 k2 : sort_key) :
  same_key k k1 = true -> key_ltb k1 k2 = true -> same_key k k2 = false.
Proof.
  unfold same_key. rewrite andb_true_iff, !negb_true_iff. intros [H1 H2] H12.
  destruct (key_ltb k k2) eqn:E; [reflexivity|].
  rewrite (key_ge_trans k1 k k2) in H12 by assumption. discriminate.
Qed.

Lemma insert_desc_stable (k : sort_key) (x : sort_key * json) (l : list (sort_key * json)) :
  List.filter (fun y => same_key k (fst y)) (insert_desc x l)
  = List.filter (fun y => same_key k (fst y)) (x :: l).
Proof.
  induction l as [|y l IH]; cbn [insert_desc]; [reflexivity|].
  destruct (key_ltb (fst x) (fst y)) eqn:Hxy; [|reflexivity].
  cbn [List.filter] in *. rewrite IH.
  destruct (same_key k (fst x)) eqn:Hx; [|reflexivity].
  rewrite (same_key_apart k (fst x) (fst y)) by assumption. reflexivity.
Qed.

Lemma sort_desc_stable (k : sort_key) (l : list (sort_key * json)) :
  List.filter (fun y => same_key k (fst y)) (sort_desc l)
  = List.filter (fun y => same_key k (fst y)) l.
Proof.
  induction l as [|x l IH]; [reflexivity|].
  cbn [sort_desc fold_right]. fold (sort_desc l).
  rewrite insert_desc_stable. cbn [List.filter]. rewrite IH. reflexivity.
Qed.

Section Ranking.

Context {R : PyRuntime}.

Lemma created_at_eq (t : json) : item_ok t = true -> _created_at t = Ok (created_of t).
Proof.
  destruct t as [| | | | | |fields]; try discriminate. intros _.
  unfold _created_at, created_of, dict_get, res_bind, py_or.
  destruct (assoc "created_at" fields) as [v|]; [|reflexivity].
  destruct (truthy v); reflexivity.
Qed.

Lemma sort_key_eq (t : json) (sort : string) :
  item_ok t = true -> _sort_key t sort = Ok (key_of sort t).
Proof.
  intros Hok. unfold _sort_key, key_of.
  rewrite !metric_eq, created_at_eq by auto.
  destruct (String.eqb (lower sort) "likes"); [reflexivity|].
  destruct (String.eqb (lower sort) "replies"); [reflexivity|].
  destruct (String.eqb (lower sort) "retweets"); reflexivity.
Qed.

Lemma decorate_eq (tweets : list json) (sort : string) :
  Forall (fun t => item_ok t = true) tweets ->
  decorate tweets sort = Ok (map (decorated sort) tweets).
Proof.
  induction 1 as [|t rest Ht _ IH]; [reflexivity|].
  cbn [decorate map]. rewrite sort_key_eq, IH by assumption. reflexivity.
Qed.

Lemma map_snd_decorated (sort : string) (tweets : list json) :
  map snd (map (decorated sort) tweets) = tweets.
Proof. rewrite map_map. apply map_id. Qed.

Lemma sorted_undecorated (sort : string) (l : list (sort_key * json)) :
  Forall (keyed sort) l -> StronglySorted ranks_above l ->
  StronglySorted (fun a b => key_ge (key_of sort a) (key_of sort b)) (map snd l).
Proof.
  intros Hkeyed Hsorted. induction Hsorted as [|x l _ IH Hx]; [constructor|].
  apply Forall_cons_iff in Hkeyed as [Hk Hkeyed]. constructor; [auto|].
  apply Forall_map. apply Forall_forall. intros y Hy.
  rewrite Forall_forall in Hx, Hkeyed.
  apply key_ge_iff. rewrite <- Hk, <- (Hkeyed y Hy). apply Hx. assumption.
Qed.

Lemma filter_undecorated (sort : string) (k : sort_key) (l : list (sort_key * json)) :
  Forall (keyed sort) l ->
  map snd (List.filter (fun x => same_key k (fst x)) l)
  = List.filter (fun t => same_key k (key_of sort t)) (map snd l).
Proof.
  induction 1 as [|x l Hk _ IH]; [reflexivity|].
  cbn [List.filter map]. rewrite <- Hk.
  destruct (same_key k (fst x)); cbn [map]; rewrite IH; reflexivity.
Qed.

Lemma sort_tweets_eq (tweets : list json) (sort : string) :
  Forall (fun t => item_ok t = true) tweets ->
  sort_tweets tweets sort = Ok (map snd (sort_desc (map (decorated sort) tweets))).
Proof. intros H. unfold sort_tweets. rewrite decorate_eq by assumption. reflexivity. Qed.

(** What the filter keeps, the sort can read. *)
Lemma metric_of_values_ok (ms : list (string * json)) (key : string) (n : Z) :
  (let? val := dict_get (JObj ms) key in
   match py_int (py_or val (JInt 0)) with
   | Ok n => Ok n
   | Raise e =>
       match exn_cls e with
       | TypeError | ValueError | UnicodeDecodeError => Ok 0
       | _ => Raise e
       end
   end) = Ok n ->
  finite_metric ms key = true.
Proof.
  unfold finite_metric, dict_get, res_bind.
  destruct (assoc key ms) as [v|]; [|reflexivity].
  destruct v as [| | |f| | |]; try reflexivity.
  destruct f; try reflexivity. intros H. cbn in H. discriminate H.
Qed.

Lemma metrics_ok_item (t : json) (a b c : Z) :
  _metric t "like_count" = Ok a -> _metric t "reply_count" = Ok b ->
  _metric t "retweet_count" = Ok c -> item_ok t = true.
Proof.
  unfold _metric. destruct t as [| | | | | |fields]; try discriminate.
  cbn [dict_get res_bind item_ok].
  destruct (assoc "public_metrics" fields) as [pm|]; [|reflexivity].
  unfold py_or at 1 3 5. destruct (truthy pm) eqn:Hpm; [|reflexivity].
  cbn [negb orb]. destruct pm as [| | | | | |ms]; try discriminate.
  intros Ha Hb Hc.
  rewrite (metric_of_values_ok ms "like_count" a Ha),
    (metric_of_values_ok ms "reply_count" b Hb),
    (metric_of_values_ok ms "retweet_count" c Hc). reflexivity.
Qed.

Lemma filter_kept_ok (tweets kept : list json) (ml mr mt : Z) :
  _filter_tweets tweets ml mr mt = Ok kept ->
  Forall (fun t => item_ok t = true) kept.
Proof.
  revert kept. induction tweets as [|t rest IH]; intros kept H; cbn [_filter_tweets] in H.
  - injection H as <-. constructor.
  - destruct (_metric t "like_count") as [a|] eqn:Ha; [|discriminate].
    cbn [res_bind] in H.
    destruct (_filter_tweets rest ml mr mt) as [out|] eqn:Hrest.
    + specialize (IH out eq_refl).
      destruct (a <? ml); cbn [res_bind] in H; [injection H as <-; exact IH|].
      destruct (_metric t "reply_count") as [b|] eqn:Hb; [|discriminate].
      cbn [res_bind] in H.
      destruct (b <? mr); cbn [res_bind] in H; [injection H as <-; exact IH|].
      destruct (_metric t "retweet_count") as [c|] eqn:Hc; [|discriminate].
      cbn [res_bind] in H.
      destruct (c <? mt); cbn [res_bind] in H; injection H as <-; [exact IH|].
      constructor; [eapply metrics_ok_item; eassumption | exact IH].
    + destruct (a <? ml); cbn [res_bind] in H; [discriminate|].
      destruct (_metric t "reply_count") as [b|]; [|discriminate].
      cbn [res_bind] in H. destruct (b <? mr); cbn [res_bind] in H; [discriminate|].
      destruct (_metric t "retweet_count") as [c|]; [|discriminate].
      cbn [res_bind] in H. destruct (c <? mt); discriminate.
Qed.

(** C4. Sorting returns the items rearranged in descending order of the
    composite key of the sort mode, (likes, replies, created) for [likes],
    (replies, likes, created) for [replies], (retweets, likes, created) for
    [retweets] and (created) alone otherwise, timestamps compared as
    strings: of two items in the result, the one in front has the larger
    primary metric, or an equal one and the larger secondary metric, or both
    equal and a timestamp at least as recent.  Items with equal keys keep
    their order (the sort is stable).  Ranking sorts what the filter kept and
    then truncates.  The two items of the example come out newer first, by
    likes and by recency. *)
Theorem ranking_is_stable_descending :
  (forall tweets sort,
     Forall (fun t => item_ok t = true) tweets ->
     exists out,
       sort_tweets tweets sort = Ok out /\
       Permutation tweets out /\
       StronglySorted (fun a b => key_ge (key_of sort a) (key_of sort b)) out /\
       (forall k, List.filter (fun t => same_key k (key_of sort t)) out
                  = List.filter (fun t => same_key k (key_of sort t)) tweets)) /\
  (forall tweets ml mr mt sort limit kept,
     _filter_tweets tweets ml mr mt = Ok kept ->
     exists sorted,
       sort_tweets kept sort = Ok sorted /\
       Permutation kept sorted /\
       StronglySorted (fun a b => key_ge (key_of sort a) (key_of sort b)) sorted /\
       rank tweets ml mr mt sort limit = Ok (firstn (Z.to_nat (Z.max 1 limit)) sorted)) /\
  (forall t,
     key_of "likes" t
     = Key3 (metric_count t "like_count") (metric_count t "reply_count") (created_of t) /\
     key_of "replies" t
     = Key3 (metric_count t "reply_count") (metric_count t "like_count") (created_of t) /\
     key_of "retweets" t
     = Key3 (metric_count t "retweet_count") (metric_count t "like_count") (created_of t) /\
     key_of "recent" t = Key1 (created_of t)) /\
  sort_tweets [older_item; newer_item] "likes" = Ok [newer_item; older_item] /\
  sort_tweets [older_item; newer_item] "recent" = Ok [newer_item; older_item].
Proof.
  assert (Hsort : forall tweets sort,
             Forall (fun t => item_ok t = true) tweets ->
             exists out,
               sort_tweets tweets sort = Ok out /\
               Permutation tweets out /\
               StronglySorted (fun a b => key_ge (key_of sort a) (key_of sort b)) out /\
               (forall k, List.filter (fun t => same_key k (key_of sort t)) out
                          = List.filter (fun t => same_key k (key_of sort t)) tweets)).
  { intros tweets sort Hok.
    pose proof (sort_desc_perm (map (decorated sort) tweets)) as Hperm.
    assert (Hkeyed : Forall (keyed sort) (sort_desc (map (decorated sort) tweets))).
    { apply (Permutation_Forall Hperm). apply Forall_map.
      apply Forall_forall. intros t _. reflexivity. }
    exists (map snd (sort_desc (map (decorated sort) tweets))).
    split; [apply sort_tweets_eq; assumption|].
    split; [|split].
    - rewrite <- (map_snd_decorated sort tweets) at 1. apply Permutation_map. assumption.
    - apply sorted_undecorated; [assumption | apply sort_desc_sorted].
    - intros k. rewrite <- (filter_undecorated sort) by assumption.
      rewrite sort_desc_stable, (filter_undecorated sort), map_snd_decorated; [reflexivity|].
      apply Forall_map. apply Forall_forall. intros t _. reflexivity. }
  split; [exact Hsort|].
  split; [|split; [|split; reflexivity]].
  - intros tweets ml mr mt sort limit kept Hkept.
    destruct (Hsort kept sort (filter_kept_ok _ _ _ _ _ Hkept))
      as (sorted & Hsorted & Hperm & Hdesc & _).
    exists sorted. repeat split; try assumption.
    unfold rank. rewrite Hkept. cbn [res_bind]. rewrite Hsorted. reflexivity.
  - intros t. repeat split.
Qed.

End Ranking.

Lemma ranking_is_stable_descending_witness :
  sort_tweets (R := Reference.runtime) timeline "likes"
  = Ok [ tweet "2026-01-02T00:00:00Z" (JInt 5) (JInt 2);
         tweet "2026-01-01T00:00:00Z" (JInt 1) (JInt 0);
         tweet "2026-01-04T00:00:00Z" (JStr "many") JNull;
         JObj [("created_at", JStr "2026-01-03T00:00:00Z")] ].
Proof.
  assert (H : Forall (fun t => item_ok t = true) timeline)
    by (repeat (constructor; [reflexivity|]); constructor).
  destruct (proj1 (ranking_is_stable_descending (R := Reference.runtime)) timeline "likes" H)
    as (out & Hout & _).
  rewrite Hout. vm_compute in Hout. injection Hout as <-. reflexivity.
Defined.

(** * Properties of the query operations *)

Lemma bind_ok {A B : Type} (m : M A) (k : A -> M B) (w w' : world) (b : B) :
  bind m k w = (Ok b, w') -> exists a w1, m w = (Ok a, w1) /\ k a w1 = (Ok b, w').
Proof.
  unfold bind. destruct (m w) as [[a|e] w1]; [|discriminate]. eauto.
Qed.

Lemma lift_ok {A : Type} (r : res A) (w w' : world) (a : A) :
  lift r w = (Ok a, w') -> r = Ok a /\ w' = w.
Proof. unfold lift. intros [= -> ->]. split; reflexivity. Qed.

Lemma ret_ok {A : Type} (a b : A) (w w' : world) :
  ret a w = (Ok b, w') -> a = b /\ w' = w.
Proof. unfold ret. intros [= -> ->]. split; reflexivity. Qed.

(** Inverting one step of a computation that returned. *)
Ltac step H :=
  let a := fresh "a" in
  let w1 := fresh "w" in
  let Ha := fresh "Hstep" in
  apply bind_ok in H as (a & w1 & Ha & H);
  first [ apply lift_ok in Ha as [Ha ->]
        | apply ret_ok in Ha as [Ha ->]
        | idtac ].

Section Operations.

Context {R : PyRuntime}.

Lemma start_time_world (since : option string) (w w' : world) (r : res (option string)) :
  start_time_of since w = (r, w') -> w' = w.
Proof.
  unfold start_time_of. destruct since as [s|]; [|intros [= _ <-]; reflexivity].
  destruct (String.eqb s ""); [intros [= _ <-]; reflexivity|].
  unfold bind, lift, utcnow, ret.
  destruct (_parse_since s); [|intros [= _ <-]; reflexivity].
  destruct (datetime_sub _ _); intros [= _ <-]; reflexivity.
Qed.


(** ** Cost accounting *)


(** ** A missing author *)


(** ** Quick mode *)

Lemma append_assoc (a b c : string) : (a ++ b) ++ c = a ++ (b ++ c).
Proof.
  induction a as [|x a IH]; [reflexivity|].
  rewrite !append_cons, IH. reflexivity.
Qed.

Lemma append_empty_r (a : string) : a ++ "" = a.
Proof.
  induction a as [|x a IH]; [reflexivity|]. rewrite append_cons, IH. reflexivity.
Qed.

Lemma prefix_contains (sub s : string) : String.prefix sub s = true -> contains sub s = true.
Proof. intros H. destruct s; cbn [contains]; rewrite H; reflexivity. Qed.

(** A text that holds [c] followed by [sub] holds [sub]. *)
Lemma contains_tail (c : ascii) (sub s : string) :
  contains (String c sub) s = true -> contains sub s = true.
Proof.
  induction s as [|d s IH].
  - cbn. discriminate.
  - cbn [contains]. intros H. apply orb_true_iff in H as [H|H].
    + cbn [String.prefix] in H. destruct (ascii_dec c d); [|discriminate].
      rewrite (prefix_contains sub s H). apply orb_true_r.
    + rewrite (IH H). apply orb_true_r.
Qed.

Lemma quick_query_eq (q : string) :
  quick_query q true
  = q ++ (if contains "is:retweet" (lower q) then "" else " -is:retweet")
      ++ (if contains "is:reply" (lower q) then "" else " -is:reply").
Proof.
  unfold quick_query.
  destruct (contains "is:retweet" (lower q)) eqn:Hrt;
    destruct (contains "is:reply" (lower q)) eqn:Hrp; cbn [negb andb].
  - rewrite append_empty_r. reflexivity.
  - destruct (contains "-is:reply" (lower q)) eqn:E.
    + apply contains_tail in E. congruence.
    + reflexivity.
  - destruct (contains "-is:retweet" (lower q)) eqn:E.
    + apply contains_tail in E. congruence.
    + reflexivity.
  - destruct (contains "-is:retweet" (lower q)) eqn:E;
      [apply contains_tail in E; congruence|].
    destruct (contains "-is:reply" (lower q)) eqn:E';
      [apply contains_tail in E'; congruence|].
    cbn [negb]. rewrite append_assoc. reflexivity.
Qed.

End Operations.

(** ** Runs of the operations *)

Lemma partly_cached_run :
  user_tweets (R := Reference.runtime) "alice" 10 "recent" 0 0 0 partly_cached_world
  = (Ok (UserTweets alice_envelope),
     set_cache_files
       (<[ _cache_path alice_tweets_url := File (Ok (JsonText sample_payload)) 60000000 ]>
          (cache_files partly_cached_world))
       (set_requested [alice_tweets_url] partly_cached_world)).
Proof. vm_compute. reflexivity. Qed.



(** ** The time window *)

Section Since.

Context {R : PyRuntime}.

(** The part of C8 that holds.  A window string that is not empty and
    that, stripped of surrounding whitespace and lower-cased, does not end in
    the unit [h] or [d] is rejected with the message that states the format,
    before anything is read from the world; a search with such a window
    writes the [invalid_arguments] payload with that message and exits with
    code 2, the world untouched. *)
Theorem since_without_unit_is_rejected (value : string) :
  value <> "" ->
  last_char (lower (strip value)) <> Some "h"%char ->
  last_char (lower (strip value)) <> Some "d"%char ->
  _parse_since value = raise ValueError "--since must be like 1h, 3h, 12h, 1d, 7d" /\
  (forall query limit sort ml mr mt quick w,
     main (CmdSearch query limit sort (Some value) ml mr mt quick) w
     = ((DocError "invalid_arguments" "--since must be like 1h, 3h, 12h, 1d, 7d", 2), w)).
Proof.
  intros Hne Hh Hd.
  assert (Hparse : _parse_since value = raise ValueError since_format_message).
  { unfold _parse_since.
    destruct (last_char (lower (strip value))) as [c|]; [|reflexivity].
    destruct c as [[] [] [] [] [] [] [] []]; try reflexivity; congruence. }
  split; [exact Hparse|].
  intros query limit sort ml mr mt quick w.
  rewrite (main_raises _ w w (Exn ValueError since_format_message)); [reflexivity|].
  unfold run, search_recent. unfold bind at 1. unfold bind at 1.
  assert (Hsince : quick_since (Some value) quick = Some value).
  { unfold quick_since, opt_truthy. destruct (String.eqb_spec value ""); [contradiction|].
    rewrite andb_false_r. reflexivity. }
  rewrite Hsince. unfold start_time_of.
  destruct (String.eqb_spec value ""); [contradiction|].
  unfold bind at 1. rewrite Hparse. reflexivity.
Qed.

End Since.

Lemma since_without_unit_is_rejected_witness :
  _parse_since (R := Reference.runtime) "abc"
  = raise ValueError "--since must be like 1h, 3h, 12h, 1d, 7d" /\
  main (R := Reference.runtime) (CmdSearch "test" 15 "likes" (Some "abc") 0 0 0 false)
    no_token_world
  = ((DocError "invalid_arguments" "--since must be like 1h, 3h, 12h, 1d, 7d", 2),
     no_token_world).
Proof.
  destruct (since_without_unit_is_rejected (R := Reference.runtime) "abc")
    as [Hparse Hmain]; try discriminate.
  split; [exact Hparse | apply Hmain].
Defined.

(** C8, the failing input.  A window with a unit but no number, such as
    [xh], is rejected with exit code 2 and code [invalid_arguments], but the
    message is that of [float()], not the one that states the format. *)
Theorem since_xh_is_reported_without_the_format (w : world) :
  main (R := Reference.runtime) (CmdSearch "test" 15 "likes" (Some "xh") 0 0 0 false) w
  = ((DocError "invalid_arguments" "could not convert string to float: 'x'", 2), w) /\
  contains "--since must be like" "could not convert string to float: 'x'" = false.
Proof. split; reflexivity. Qed.

(** Other windows the claim does not cover: a number too large for a
    [timedelta] ends in an internal error with exit code 1, and an empty
    window is no window at all. *)
Example since_overflow (w : world) :
  main (R := Reference.runtime) (CmdSearch "test" 15 "likes" (Some "1e10d") 0 0 0 false) w
  = ((DocError "internal_error"
        "OverflowError: Python int too large to convert to C int", 1), w).
Proof. vm_compute. reflexivity. Qed.

Example since_empty_is_unset :
  start_time_of (R := Reference.runtime) (Some "") no_token_world = (Ok None, no_token_world).
Proof. reflexivity. Qed.

Example since_24h :
  start_time_of (R := Reference.runtime) (quick_since None true)
    (set_clock 1770988245123456 no_token_world)
  = (Ok (Some "2026-02-12T13:10:45Z"), set_clock 1770988245123456 no_token_world).
Proof. reflexivity. Qed.

(** Whitespace around the window is removed, that beyond ASCII too: a no-break
    space after [1h] leaves one hour. *)
Example since_with_no_break_space :
  _parse_since (R := Reference.runtime) ("1h" ++ bytes [194; 160]) = Ok 3600000000 /\
  _parse_since (R := Reference.runtime) (bytes [226; 128; 175] ++ " 2D" ++ bytes [10])
  = Ok 172800000000.
Proof. split; vm_compute; reflexivity. Qed.

(** ** Payloads the operations do not read *)

(** C3, the failing input.  A like count that is the float infinity (the
    JSON number 1e999) is no integer, but [int()] raises [OverflowError] on
    it, which [_metric] does not catch: the filter raises instead of
    counting zero, and a search over such a payload ends as an internal
    error. *)
Theorem infinite_metric_is_not_counted_as_zero :
  _metric (R := Reference.runtime) infinite_likes_item "like_count"
  = raise OverflowError "cannot convert float infinity to integer" /\
  _filter_tweets (R := Reference.runtime) [infinite_likes_item] 0 0 0
  = raise OverflowError "cannot convert float infinity to integer" /\
  fst (main (R := Reference.runtime) (CmdSearch "x" 15 "likes" None 0 0 0 false)
         infinite_likes_world)
  = (DocError "internal_error" "OverflowError: cannot convert float infinity to integer", 1).
Proof. repeat split; vm_compute; reflexivity. Qed.

(** The same for a [public_metrics] that is neither falsy nor a dict. *)
Example metrics_container_not_a_dict :
  _filter_tweets (R := Reference.runtime) [JObj [("public_metrics", JStr "n/a")]] 0 0 0
  = raise AttributeError "'str' object has no attribute 'get'".
Proof. reflexivity. Qed.

(** C9, the failing input.  A lookup payload whose [data] is present and
    [null] holds no user id either, but [get("data", {})] returns the [null]
    and the [get("id")] on it raises: the listing ends as an internal error
    with exit code 1, not as the "not found" result with exit code 0. *)
Theorem null_data_is_an_internal_error :
  fst (user_tweets (R := Reference.runtime) "nobody" 10 "recent" 0 0 0 null_data_world)
  = raise AttributeError "'NoneType' object has no attribute 'get'" /\
  fst (main (R := Reference.runtime) (CmdUserTweets "nobody" 10 "recent" 0 0 0) null_data_world)
  = (DocError "internal_error" "AttributeError: 'NoneType' object has no attribute 'get'", 1).
Proof. split; vm_compute; reflexivity. Qed.

(** * Further properties of the fetcher *)

Section Failures.

Context {R : PyRuntime}.

Lemma has_scheme_opening (args : command) (st : option string) :
  has_scheme (opening_url args st) = true.
Proof. destruct args; reflexivity. Qed.

Lemma fetch_outcome_raise (url : string) (ttl : Z) (no_cache : bool) (w w' : world) (e : exn) :
  fetch_outcome url ttl no_cache w = (Raise e, w') ->
  w' = w \/ w' = after_request url w.
Proof.
  unfold fetch_outcome, after_request. destruct (has_scheme url); [|intros [= _ <-]; auto].
  destruct (credential w); [|intros [= _ <-]; auto]. cbv zeta.
  destruct (response_result (provider w url)); [discriminate|].
  intros [= _ <-]. auto.
Qed.

(** A [_get] that misses, with a credential at hand, is the request and
    what becomes of its response. *)
Lemma get_miss_outcome (url : string) (ttl : Z) (no_cache : bool) (w : world) (t : string) :
  has_scheme url = true -> cached url ttl no_cache w = JNull -> credential w = Some t ->
  _get url ttl no_cache w =
  match response_result (provider w url) with
  | Ok obj => (Ok (obj, false),
               if negb no_cache && (0 <? ttl) then cache_store url obj (after_request url w)
               else after_request url w)
  | Raise e => (Raise e, after_request url w)
  end.
Proof.
  intros Hs Hc Ht. rewrite get_miss, fetch_eq by assumption.
  unfold fetch_outcome. rewrite Hs, Ht. cbv zeta. unfold after_request.
  destruct (response_result (provider w url)); reflexivity.
Qed.

Lemma opening_raises (args : command) (st : option string) (w w1 : world) (e : exn) :
  window args w = (Ok st, w) ->
  _get (opening_url args st) (opening_ttl args) (opening_no_cache args) w = (Raise e, w1) ->
  run args w = (Raise e, w1).
Proof.
  destruct args as [query limit sort since ml mr mt quick | id no_cache
                   | username limit sort ml mr mt];
    cbn [window opening_url opening_ttl opening_no_cache]; intros Hwin Hget.
  - unfold run, search_recent. unfold bind at 1. unfold bind at 1. rewrite Hwin.
    unfold bind at 1. rewrite Hget. reflexivity.
  - unfold run, tweet_by_id. unfold bind at 1. rewrite Hget. reflexivity.
  - unfold lookup_url in Hget.
    unfold run, user_tweets, user_by_username. unfold bind at 1. unfold bind at 1.
    rewrite Hget. reflexivity.
Qed.


(** A response body that is not valid UTF-8 raises [UnicodeDecodeError]
    inside [_get], which none of its [except] clauses catches; being a
    [ValueError], it reaches the first handler of [main]: the command ends
    with the [invalid_arguments] payload and exit code 2, whatever its
    arguments. *)
Theorem undecodable_body_is_reported_as_invalid_arguments
    (args : command) (st : option string) (w : world) (t : string) :
  window args w = (Ok st, w) ->
  cached (opening_url args st) (opening_ttl args) (opening_no_cache args) w = JNull ->
  credential w = Some t ->
  provider w (opening_url args st) = RespUndecodable ->
  exists msg,
    _get (opening_url args st) (opening_ttl args) (opening_no_cache args) w
    = (raise UnicodeDecodeError msg, after_request (opening_url args st) w) /\
    main args w
    = ((DocError "invalid_arguments" msg, 2), after_request (opening_url args st) w).
Proof.
  intros Hwin Hmiss Hcred Hp. eexists.
  assert (Hget : _get (opening_url args st) (opening_ttl args) (opening_no_cache args) w
                 = (raise UnicodeDecodeError "'utf-8' codec can't decode byte",
                    after_request (opening_url args st) w)).
  { rewrite (get_miss_outcome _ _ _ _ t); try assumption; [|apply has_scheme_opening].
    rewrite Hp. reflexivity. }
  split; [exact Hget|].
  rewrite (main_raises _ w (after_request (opening_url args st) w)
             (Exn UnicodeDecodeError "'utf-8' codec can't decode byte")); [reflexivity|].
  apply (opening_raises args st); assumption.
Qed.

End Failures.

(** ** Where requests go *)

Section Requests.

Context {R : PyRuntime}.

Lemma to_api_API (rest : string) : to_api (API ++ "/" ++ rest) = true.
Proof.
  unfold to_api, API. cbn. repeat (destruct (ascii_dec _ _); [|congruence]).
  destruct rest; reflexivity.
Qed.

Lemma sends_ret {A : Type} (a : A) : sends 0 (ret a).
Proof. intros w. exists []. rewrite app_nil_r. repeat split; constructor. Qed.

Lemma sends_lift {A : Type} (r : res A) : sends 0 (lift r).
Proof. intros w. exists []. rewrite app_nil_r. repeat split; constructor. Qed.

Lemma sends_more {A : Type} (n n' : nat) (m : M A) : (n <= n')%nat -> sends n m -> sends n' m.
Proof.
  intros Hn H w. destruct (H w) as (l & H1 & H2 & H3). exists l. repeat split; try assumption. lia.
Qed.

Lemma sends_bind {A B : Type} (n1 n2 : nat) (m : M A) (k : A -> M B) :
  sends n1 m -> (forall a, sends n2 (k a)) -> sends (n1 + n2) (bind m k).
Proof.
  intros Hm Hk w. unfold bind. destruct (Hm w) as (l1 & H1 & H2 & H3).
  destruct (m w) as [[a|e] w1]; cbn [snd] in *.
  - destruct (Hk a w1) as (l2 & K1 & K2 & K3). exists (l1 ++ l2)%list.
    rewrite K1, H1, app_assoc, length_app. repeat split; [|lia].
    apply Forall_app. split; assumption.
  - exists l1. repeat split; try assumption. lia.
Qed.

Lemma sends_get (url : string) (ttl : Z) (no_cache : bool) :
  to_api url = true -> sends 1 (_get url ttl no_cache).
Proof.
  intros Hurl w. rewrite get_eq, fetch_eq.
  assert (Hfetch : exists fetched,
             requested (snd (fetch_outcome url ttl no_cache w)) = (requested w ++ fetched)%list /\
             Forall (fun u => to_api u = true) fetched /\ (length fetched <= 1)%nat).
  { destruct (fetch_outcome url ttl no_cache w) as [[[p hit]|e] w'] eqn:E; cbn [snd].
    - apply fetch_outcome_ok in E as (_ & -> & _). exists [url].
      repeat split; [|cbn; lia]. constructor; [assumption | constructor].
    - apply fetch_outcome_raise in E as [->| ->].
      + exists []. rewrite app_nil_r. repeat split; [constructor | cbn; lia].
      + exists [url]. repeat split; [|cbn; lia]. constructor; [assumption | constructor]. }
  destruct (cached url ttl no_cache w); try exact Hfetch;
    exists []; rewrite app_nil_r; repeat split; try constructor; cbn; lia.
Qed.

Lemma sends_start_time (since : option string) : sends 0 (start_time_of since).
Proof.
  intros w. exists []. rewrite app_nil_r.
  destruct (start_time_of since w) as [r w'] eqn:E. apply start_time_world in E as ->.
  repeat split; constructor.
Qed.

Lemma sends_search_recent (query : string) (limit : Z) (sort : string) (since : option string)
    (ml mr mt : Z) (quick : bool) :
  sends 1 (search_recent query limit sort since ml mr mt quick).
Proof.
  unfold search_recent.
  apply (sends_bind 0 1); [apply sends_start_time|]. intros st.
  apply (sends_bind 1 0); [apply sends_get, to_api_API|]. intros [raw hit].
  apply (sends_bind 0 0); [apply sends_lift|]. intros data.
  apply (sends_bind 0 0); [apply sends_lift|]. intros tweets.
  apply (sends_bind 0 0); [apply sends_lift|]. intros tweets'.
  apply (sends_bind 0 0); [destruct hit; [apply sends_ret | apply sends_lift]|]. intros n.
  apply (sends_bind 0 0); [apply sends_lift|]. intros includes.
  apply (sends_bind 0 0); [apply sends_lift|]. intros meta.
  apply sends_ret.
Qed.

Lemma sends_user_tweets (username : string) (limit : Z) (sort : string) (ml mr mt : Z) :
  sends 2 (user_tweets username limit sort ml mr mt).
Proof.
  unfold user_tweets, user_by_username.
  apply (sends_bind 1 1); [apply sends_get, to_api_API|]. intros [user_raw hit1].
  apply (sends_bind 0 1); [apply sends_lift|]. intros user_data.
  apply (sends_bind 0 1); [apply sends_lift|]. intros user_id.
  destruct (negb (truthy user_id)); [apply (sends_more 0); [lia | apply sends_ret]|].
  apply (sends_bind 1 0); [apply sends_get; unfold user_tweets_url; apply to_api_API|].
  intros [raw hit2].
  apply (sends_bind 0 0); [apply sends_lift|]. intros data.
  apply (sends_bind 0 0); [apply sends_lift|]. intros tweets.
  apply (sends_bind 0 0); [apply sends_lift|]. intros tweets'.
  apply (sends_bind 0 0); [destruct hit2; [apply sends_ret | apply sends_lift]|]. intros n.
  apply (sends_bind 0 0); [apply sends_lift|]. intros user.
  apply (sends_bind 0 0); [apply sends_lift|]. intros meta.
  apply sends_ret.
Qed.

Lemma sends_run (args : command) :
  sends (match args with CmdUserTweets _ _ _ _ _ _ => 2 | _ => 1 end) (run args).
Proof.
  destruct args as [query limit sort since ml mr mt quick | id no_cache
                   | username limit sort ml mr mt]; unfold run.
  - apply (sends_bind 1 0); [apply sends_search_recent|]. intros out. apply sends_ret.
  - unfold tweet_by_id.
    apply (sends_bind 1 0); [apply sends_get; unfold tweet_url; apply to_api_API|].
    intros [raw hit].
    apply (sends_bind 0 0); [apply sends_lift|]. intros data.
    apply (sends_bind 0 0); [apply sends_lift|]. intros includes.
    apply (sends_bind 0 0); [apply sends_lift|]. intros errors.
    apply sends_ret.
  - apply (sends_bind 2 0); [apply sends_user_tweets|]. intros out. apply sends_ret.
Qed.

Lemma main_world (args : command) (w : world) : snd (main args w) = snd (run args w).
Proof.
  unfold main. destruct (run args w) as [[out|e] w']; [reflexivity|].
  destruct (is_ValueError (exn_cls e)); [reflexivity|].
  destruct (is_XRadarError (exn_cls e)); reflexivity.
Qed.

(** Whatever the command and however it ends, [main] only adds to the
    record of requests: at most one URL (two for the per-author listing),
    each below [https://api.x.com/2/]. *)
Theorem requests_go_to_the_api_only (args : command) (w : world) :
  exists fetched,
    requested (snd (main args w)) = (requested w ++ fetched)%list /\
    Forall (fun u => String.prefix "https://api.x.com/2/" u = true) fetched /\
    (length fetched <= match args with CmdUserTweets _ _ _ _ _ _ => 2 | _ => 1 end)%nat.
Proof. rewrite main_world. apply sends_run. Qed.

End Requests.

(** ** What a miss stores, and payloads that are no objects *)

Section Closed.

Context {R : PyRuntime}.

(** What a miss that returned leaves in the world: the request is on
    record and, with caching on, the payload went to the cache. *)
Lemma miss_world (url : string) (ttl : Z) (w w1 : world) (p : json) :
  0 < ttl ->
  _get url ttl false w = (Ok (p, false), w1) ->
  w1 = cache_store url p (after_request url w).
Proof.
  intros Httl Hget.
  assert (Hon : negb false && (0 <? ttl) = true)
    by (apply andb_true_intro; split; [reflexivity | apply Z.ltb_lt; assumption]).
  rewrite get_eq, fetch_eq in Hget.
  assert (Hfetch : fetch_outcome url ttl false w = (Ok (p, false), w1))
    by (destruct (cached url ttl false w); try assumption; discriminate).
  unfold fetch_outcome in Hfetch. rewrite Hon in Hfetch.
  destruct (has_scheme url); [|discriminate].
  destruct (credential w); [|discriminate]. cbv zeta in Hfetch.
  destruct (response_result (provider w url)) as [obj|e]; [|discriminate].
  injection Hfetch as -> <-. reflexivity.
Qed.

(** A miss that returned has stored its payload: while the entry is fresh,
    the next [_get] is a hit. *)
Lemma hit_after_fetch (url : string) (ttl dt : Z) (w w1 : world) (p : json) :
  0 < ttl -> cache_writable w = true -> py_encodable (json_dumps p) = true -> p <> JNull ->
  dt <= ttl * 1000000 ->
  _get url ttl false w = (Ok (p, false), w1) ->
  _get url ttl false (set_clock (clock w1 + dt) w1)
  = (Ok (p, true), set_clock (clock w1 + dt) w1).
Proof.
  intros Httl Hw He Hp Hdt Hget.
  rewrite (miss_world url ttl w w1 p Httl Hget).
  assert (Hlookup : cached url ttl false
                      (set_clock (clock (cache_store url p (after_request url w)) + dt)
                         (cache_store url p (after_request url w))) = p).
  { unfold cached. cbn [negb andb].
    replace (0 <? ttl) with true by (symmetry; apply Z.ltb_lt; assumption).
    rewrite cache_store_clock. apply cache_lookup_after_store; assumption. }
  rewrite get_hit; rewrite Hlookup; [reflexivity | assumption].
Qed.

(** A miss that returned [null], or a payload that cannot be encoded, has
    stored nothing a read could return: the next [_get] is a miss again. *)
Lemma miss_after_lost_fetch (url : string) (ttl t : Z) (w w1 : world) (p : json) :
  0 < ttl -> cache_writable w = true -> p = JNull \/ py_encodable (json_dumps p) = false ->
  _get url ttl false w = (Ok (p, false), w1) ->
  _get url ttl false (set_clock t w1) = fetch url ttl false (set_clock t w1).
Proof.
  intros Httl Hw Hp Hget.
  rewrite (miss_world url ttl w w1 p Httl Hget).
  apply get_miss. unfold cached. cbn [negb andb].
  replace (0 <? ttl) with true by (symmetry; apply Z.ltb_lt; assumption).
  apply cache_lookup_after_lost_store; assumption.
Qed.

Lemma get_clock (url : string) (ttl : Z) (no_cache : bool) (w w' : world) (r : res (json * bool)) :
  _get url ttl no_cache w = (r, w') -> clock w' = clock w.
Proof.
  rewrite get_eq, fetch_eq. 
  assert (Hf : fetch_outcome url ttl no_cache w = (r, w') -> clock w' = clock w).
  { destruct r as [[p hit]|e]; intros E.
    - apply fetch_outcome_ok in E. tauto.
    - apply fetch_outcome_raise in E as [->| ->]; reflexivity. }
  destruct (cached url ttl no_cache w); try exact Hf; intros [= _ <-]; reflexivity.
Qed.

(** The window depends on the clock alone. *)
Lemma start_time_clock (since : option string) (w w' : world) :
  clock w' = clock w ->
  fst (start_time_of since w') = fst (start_time_of since w).
Proof.
  intros Hc. unfold start_time_of. destruct since as [s|]; [|reflexivity].
  destruct (String.eqb s ""); [reflexivity|].
  unfold bind, lift, utcnow, ret. rewrite Hc.
  destruct (_parse_since s); [|reflexivity].
  destruct (datetime_sub _ _); reflexivity.
Qed.

Lemma start_time_eq (since : option string) (w : world) :
  start_time_of since w = (fst (start_time_of since w), w).
Proof.
  destruct (start_time_of since w) as [r w'] eqn:E.
  apply start_time_world in E as ->. reflexivity.
Qed.

Lemma window_eq (args : command) (w : world) : window args w = (fst (window args w), w).
Proof. destruct args; cbn [window]; [apply start_time_eq | reflexivity | reflexivity]. Qed.

Lemma window_clock (args : command) (w w' : world) :
  clock w' = clock w -> fst (window args w') = fst (window args w).
Proof.
  intros Hc. destruct args; cbn [window]; [apply start_time_clock; assumption | |]; reflexivity.
Qed.

Lemma search_recent_eq (query : string) (limit : Z) (sort : string) (since : option string)
    (ml mr mt : Z) (quick : bool) (w : world) (st : option string) :
  start_time_of (quick_since since quick) w = (Ok st, w) ->
  search_recent query limit sort since ml mr mt quick w =
  match _get (search_url (quick_query query quick) quick st) (if quick then 3600 else 900) false w
  with
  | (Ok (raw, hit), w1) =>
      (search_result (quick_query query quick) (quick_since since quick) sort quick
         ml mr mt limit raw hit, w1)
  | (Raise e, w1) => (Raise e, w1)
  end.
Proof.
  intros Hst. unfold search_recent. unfold bind at 1. rewrite Hst.
  unfold bind at 1.
  destruct (_get _ _ false w) as [[[raw hit]|e] w1]; [|reflexivity].
  unfold search_result, bind, lift, ret.
  destruct (dict_get raw "data") as [data|]; [|reflexivity]. cbn [res_bind].
  destruct (py_list _) as [tweets|]; [|reflexivity]. cbn [res_bind].
  destruct (rank _ _ _ _ _ _) as [ranked|]; [|reflexivity]. cbn [res_bind].
  destruct hit.
  - cbn [res_bind]. destruct (dict_get raw "includes"); [|reflexivity]. cbn [res_bind].
    destruct (dict_get raw "meta"); reflexivity.
  - destruct (py_len _); [|reflexivity]. cbn [res_bind].
    destruct (dict_get raw "includes"); [|reflexivity]. cbn [res_bind].
    destruct (dict_get raw "meta"); reflexivity.
Qed.

Lemma run_tweet_eq (id : string) (no_cache : bool) (w : world) :
  run (CmdTweet id no_cache) w =
  match _get (tweet_url id) 900 no_cache w with
  | (Ok (raw, hit), w1) => (let? e := tweet_result id raw hit in Ok (DocTweet e), w1)
  | (Raise e, w1) => (Raise e, w1)
  end.
Proof.
  unfold run, tweet_by_id. unfold bind at 1.
  destruct (_get _ _ _ w) as [[[raw hit]|e] w1]; [|reflexivity].
  unfold tweet_result, bind, lift, ret.
  destruct (dict_get raw "data"); [|reflexivity]. cbn [res_bind].
  destruct (dict_get raw "includes"); [|reflexivity]. cbn [res_bind].
  destruct (dict_get raw "errors"); reflexivity.
Qed.

(** The payload of the first fetch is not an object. *)
Lemma opening_not_an_object (args : command) (st : option string) (w w1 : world)
    (raw : json) (hit : bool) :
  window args w = (Ok st, w) ->
  _get (opening_url args st) (opening_ttl args) (opening_no_cache args) w = (Ok (raw, hit), w1) ->
  type_name raw <> "dict" ->
  run args w
  = (raise AttributeError ("'" ++ type_name raw ++ "' object has no attribute 'get'"), w1).
Proof.
  intros Hwin Hget Hraw.
  assert (Hd : forall key, dict_get raw key
               = raise AttributeError ("'" ++ type_name raw ++ "' object has no attribute 'get'")).
  { intros key. destruct raw; try reflexivity. contradiction Hraw. reflexivity. }
  destruct args as [query limit sort since ml mr mt quick | id no_cache
                   | username limit sort ml mr mt];
    cbn [window opening_url opening_ttl opening_no_cache] in *.
  - unfold run. unfold bind at 1. rewrite (search_recent_eq _ _ _ _ _ _ _ _ _ st Hwin), Hget.
    unfold search_result. rewrite Hd. reflexivity.
  - rewrite run_tweet_eq, Hget. unfold tweet_result. rewrite Hd. reflexivity.
  - unfold lookup_url in Hget.
    unfold run, user_tweets, user_by_username. unfold bind at 1. unfold bind at 1.
    rewrite Hget. unfold bind at 1. unfold lift.
    replace (dict_get_default raw "data" (JObj []))
      with (@raise json AttributeError ("'" ++ type_name raw ++ "' object has no attribute 'get'"))
      by (destruct raw; try reflexivity; contradiction Hraw; reflexivity).
    reflexivity.
Qed.

(** A [_get] that misses with caching on (a positive TTL, a cache directory
    that can be written) stores the payload it returns when the payload can
    be encoded and is not [null]: every [_get] of the URL while the entry is
    no older than the TTL is then a hit with that payload, and the request of
    the miss stays the only one.  A payload that is [null] or cannot be
    encoded is returned but not stored: the next [_get] is a miss again. *)
Theorem fetch_populates_the_cache (url : string) (ttl : Z) (w w1 : world) (p : json) :
  0 < ttl -> cache_writable w = true ->
  _get url ttl false w = (Ok (p, false), w1) ->
  (py_encodable (json_dumps p) = true -> p <> JNull ->
   forall dt, dt <= ttl * 1000000 ->
     let w2 := set_clock (clock w1 + dt) w1 in
     _get url ttl false w2 = (Ok (p, true), w2) /\
     requested w2 = (requested w ++ [url])%list) /\
  (p = JNull \/ py_encodable (json_dumps p) = false ->
   forall t, _get url ttl false (set_clock t w1) = fetch url ttl false (set_clock t w1)).
Proof.
  intros Httl Hw Hget. split.
  - intros He Hp dt Hdt w2. subst w2. split.
    + apply (hit_after_fetch url ttl dt w w1 p); assumption.
    + cbn [requested set_clock]. rewrite (get_requested _ _ _ _ _ _ _ Hget). reflexivity.
  - intros Hp t. apply (miss_after_lost_fetch url ttl t w w1 p); assumption.
Qed.

(** A payload that is JSON but no object (a list, a string, a number) is
    returned by [_get] before any operation reads it: the command ends as an
    internal error ([AttributeError], exit code 1).  With caching on, a cache
    directory that can be written and a payload that can be encoded and is
    not [null], the payload has gone to the cache by then: the command run
    again within the TTL, the window (if any) resolving to the same start
    time, ends the same way from the cache, without a request. *)
Theorem non_object_payload_is_cached_before_it_is_read
    (args : command) (st : option string) (w w1 : world) (raw : json) :
  window args w = (Ok st, w) ->
  _get (opening_url args st) (opening_ttl args) (opening_no_cache args) w
  = (Ok (raw, false), w1) ->
  type_name raw <> "dict" ->
  let report :=
    (DocError "internal_error"
       ("AttributeError: '" ++ type_name raw ++ "' object has no attribute 'get'"), 1) in
  main args w = (report, w1) /\
  (opening_no_cache args = false -> cache_writable w = true ->
   py_encodable (json_dumps raw) = true -> raw <> JNull ->
   forall dt, dt <= opening_ttl args * 1000000 ->
     let w2 := set_clock (clock w1 + dt) w1 in
     fst (window args w2) = Ok st ->
     main args w2 = (report, w2)).
Proof.
  intros Hwin Hget Hraw report.
  split.
  - rewrite (main_raises _ w w1
               (Exn AttributeError ("'" ++ type_name raw ++ "' object has no attribute 'get'")));
      [reflexivity|].
    apply (opening_not_an_object args st w w1 raw false); assumption.
  - intros Hnc Hw He Hnull dt Hdt w2 Hst.
    assert (Hwin2 : window args w2 = (Ok st, w2)) by (rewrite window_eq, Hst; reflexivity).
    assert (Hget2 : _get (opening_url args st) (opening_ttl args) (opening_no_cache args) w2
                    = (Ok (raw, true), w2)).
    { rewrite Hnc in *.
      apply (hit_after_fetch (opening_url args st) (opening_ttl args) dt w w1 raw);
        try assumption.
      destruct args as [? ? ? ? ? ? ? []| |]; cbn; lia. }
    rewrite (main_raises _ w2 w2
               (Exn AttributeError ("'" ++ type_name raw ++ "' object has no attribute 'get'")));
      [reflexivity|].
    apply (opening_not_an_object args st w2 w2 raw true); assumption.
Qed.

End Closed.

(** ** Quick mode and the search it makes *)

Section Quick.

Context {R : PyRuntime}.

(** The URL of a search: the query, the page size, the fields and, when
    there is one, the start of the time window. *)
Lemma search_url_eq (q : string) (quick : bool) (st : option string) :
  search_url q quick st
  = API ++ "/tweets/search/recent?query=" ++ quote_plus q ++
    "&max_results=" ++ (if quick then "10" else "100") ++
    "&tweet.fields=created_at%2Cpublic_metrics%2Cauthor_id%2Cconversation_id" ++
    "&expansions=author_id&user.fields=username%2Cname%2Cverified" ++
    match st with
    | Some t => if String.eqb t "" then "" else "&start_time=" ++ quote_plus t
    | None => ""
    end.
Proof.
  unfold search_url.
  assert (Hbase : forall tail,
            urlencode ([("query", q); ("max_results", if quick then "10" else "100");
                        ("tweet.fields", tweet_fields); ("expansions", "author_id");
                        ("user.fields", "username,name,verified")] ++ tail)%list
            = "query=" ++ quote_plus q ++
              "&max_results=" ++ (if quick then "10" else "100") ++
              "&tweet.fields=created_at%2Cpublic_metrics%2Cauthor_id%2Cconversation_id" ++
              "&expansions=author_id&user.fields=username%2Cname%2Cverified" ++
              match tail with [] => "" | _ => "&" ++ urlencode tail end).
  { intros tail. cbn [app]. rewrite !urlencode_more.
    destruct tail as [|kv tail].
    - unfold urlencode, encode_pair. cbn [fst snd]. rewrite !append_assoc.
      destruct quick; reflexivity.
    - rewrite urlencode_more. unfold encode_pair at 1 2 3 4 5. cbn [fst snd].
      rewrite !append_assoc. destruct quick; reflexivity. }
  destruct st as [t|].
  - destruct (String.eqb t "").
    + rewrite <- (app_nil_r [_; _; _; _; _]), Hbase. reflexivity.
    + rewrite Hbase. unfold urlencode, encode_pair. cbn [fst snd]. reflexivity.
  - rewrite <- (app_nil_r [_; _; _; _; _]), Hbase. reflexivity.
Qed.

(** C10. In quick mode the query gets the retweet exclusion appended exactly
    when its lower-cased text does not contain [is:retweet], and the reply
    exclusion exactly when it does not contain [is:reply]; the time window
    becomes 24h exactly when [since] is unset (or empty).  Outside quick mode
    neither is touched.  The search works with the query and the window so
    completed: it resolves the start of that window and fetches the URL that
    names that query and that start, the one request it makes on a miss; its
    envelope reports both.  With no window given, the start is 24 hours
    before the current time.  A query with neither qualifier gets both
    exclusions, one that holds [is:reply], in any case, gets no reply
    exclusion. *)
Theorem quick_mode_defaults :
  (forall q,
     quick_query q true
     = q ++ (if contains "is:retweet" (lower q) then "" else " -is:retweet")
         ++ (if contains "is:reply" (lower q) then "" else " -is:reply")) /\
  (forall q, quick_query q false = q) /\
  (forall since,
     quick_since since true = (if opt_truthy since then since else Some "24h") /\
     quick_since since false = since) /\
  (forall q,
     contains "is:retweet" (lower q) = false -> contains "is:reply" (lower q) = false ->
     quick_query q true = q ++ " -is:retweet -is:reply") /\
  (forall q,
     contains "is:reply" (lower q) = true ->
     quick_query q true = q ++ (if contains "is:retweet" (lower q) then "" else " -is:retweet")) /\
  (forall query limit sort since ml mr mt quick w,
     exists r,
       start_time_of (quick_since since quick) w = (r, w) /\
       search_recent query limit sort since ml mr mt quick w
       = match r with
         | Ok st =>
             match _get (search_url (quick_query query quick) quick st)
                     (if quick then 3600 else 900) false w with
             | (Ok (raw, hit), w1) =>
                 (search_result (quick_query query quick) (quick_since since quick) sort quick
                    ml mr mt limit raw hit, w1)
             | (Raise e, w1) => (Raise e, w1)
             end
         | Raise e => (Raise e, w)
         end) /\
  (forall q quick st,
     search_url q quick st
     = API ++ "/tweets/search/recent?query=" ++ quote_plus q ++
       "&max_results=" ++ (if quick then "10" else "100") ++
       "&tweet.fields=created_at%2Cpublic_metrics%2Cauthor_id%2Cconversation_id" ++
       "&expansions=author_id&user.fields=username%2Cname%2Cverified" ++
       match st with
       | Some t => if String.eqb t "" then "" else "&start_time=" ++ quote_plus t
       | None => ""
       end) /\
  (forall query limit sort since ml mr mt quick w e w',
     search_recent query limit sort since ml mr mt quick w = (Ok e, w') ->
     se_query e = quick_query query quick /\ se_since e = quick_since since quick /\
     exists st,
       start_time_of (quick_since since quick) w = (Ok st, w) /\
       requested w'
       = (requested w ++
          (if requests (se_cost e) =? 0 then []
           else [search_url (quick_query query quick) quick st]))%list) /\
  (forall w delta t,
     _parse_since "24h" = Ok delta -> datetime_sub (clock w) delta = Ok t ->
     start_time_of (quick_since None true) w = (Ok (Some (_to_iso_utc t)), w)) /\
  quick_query "civic tech" true = "civic tech -is:retweet -is:reply" /\
  quick_query "civic tech is:reply" true = "civic tech is:reply -is:retweet" /\
  quick_query "Civic Tech IS:Reply -IS:RETWEET" true = "Civic Tech IS:Reply -IS:RETWEET" /\
  quick_since None true = Some "24h" /\
  quick_since (Some "3h") true = Some "3h".
Proof.
  split; [exact quick_query_eq|].
  split; [reflexivity|].
  split; [intros since; split; [|reflexivity];
          unfold quick_since; destruct (opt_truthy since); reflexivity|].
  split; [intros q Hrt Hrp; rewrite quick_query_eq, Hrt, Hrp; reflexivity|].
  split; [intros q Hrp; rewrite quick_query_eq, Hrp;
          destruct (contains "is:retweet" (lower q)); reflexivity|].
  split; [|split; [exact search_url_eq|split; [|split; [|repeat split]]]].
  - intros query limit sort since ml mr mt quick w.
    exists (fst (start_time_of (quick_since since quick) w)).
    split; [apply start_time_eq|].
    destruct (fst (start_time_of (quick_since since quick) w)) as [st|e] eqn:E.
    + apply search_recent_eq. rewrite start_time_eq, E. reflexivity.
    + unfold search_recent. unfold bind at 1. rewrite start_time_eq, E. reflexivity.
  - intros query limit sort since ml mr mt quick w e w' H.
    unfold search_recent in H.
    apply bind_ok in H as (st & w1 & Hst & H).
    pose proof (start_time_world _ _ _ _ Hst) as ->.
    apply bind_ok in H as ([raw hit] & w2 & Hget & H).
    step H. step H. step H.
    apply bind_ok in H as (n & w3 & Hn & H).
    assert (w3 = w2) as ->.
    { destruct hit; [apply ret_ok in Hn as [_ ->] | apply lift_ok in Hn as [_ ->]];
        reflexivity. }
    step H. step H. apply ret_ok in H as [<- <-].
    split; [reflexivity|]. split; [reflexivity|].
    exists st. split; [exact Hst|].
    cbn [se_cost requests]. rewrite (get_requested _ _ _ _ _ _ _ Hget).
    destruct hit; reflexivity.
  - intros w delta t Hdelta Ht.
    cbn [quick_since opt_truthy andb negb]. unfold start_time_of.
    cbn [String.eqb Ascii.eqb Bool.eqb]. unfold bind, lift, utcnow, ret.
    rewrite Hdelta, Ht. reflexivity.
Qed.

End Quick.


(** ** Freshness and the credential *)

Section Freshness.

Context {R : PyRuntime}.


End Freshness.

(** [_bearer] returns [X_BEARER_TOKEN] when it is set and not empty, else
    [TWITTER_BEARER_TOKEN] when that is set and not empty, and raises
    [XRadarError] when neither is: a variable set to the empty string counts
    as unset.  The token returned is never empty, and the world is only
    read. *)
Theorem bearer_prefers_x_bearer_token (w : world) :
  (forall t, environ w !! "X_BEARER_TOKEN" = Some t -> t <> "" -> _bearer w = (Ok t, w)) /\
  (forall t,
     environ w !! "X_BEARER_TOKEN" = None \/ environ w !! "X_BEARER_TOKEN" = Some "" ->
     environ w !! "TWITTER_BEARER_TOKEN" = Some t -> t <> "" -> _bearer w = (Ok t, w)) /\
  (environ w !! "X_BEARER_TOKEN" = None \/ environ w !! "X_BEARER_TOKEN" = Some "" ->
   environ w !! "TWITTER_BEARER_TOKEN" = None \/ environ w !! "TWITTER_BEARER_TOKEN" = Some "" ->
   _bearer w = (raise XRadarError "Missing X_BEARER_TOKEN env var", w)) /\
  (forall t w', _bearer w = (Ok t, w') -> t <> "" /\ w' = w).
Proof.
  unfold _bearer, bind, getenv, ret, throw, raise.
  split; [|split; [|split]].
  - intros t -> Ht. cbn [opt_or]. destruct (String.eqb_spec t ""); [contradiction|].
    destruct (String.eqb_spec t ""); [contradiction | reflexivity].
  - intros t H1 -> Ht.
    assert (Hor : opt_or (environ w !! "X_BEARER_TOKEN") (Some t) = Some t)
      by (destruct H1 as [-> | ->]; reflexivity).
    rewrite Hor. destruct (String.eqb_spec t ""); [contradiction | reflexivity].
  - intros [-> | ->] [-> | ->]; reflexivity.
  - intros t w'.
    destruct (opt_or _ _) as [s|]; [|discriminate].
    destruct (String.eqb_spec s ""); [discriminate|].
    intros [= <- <-]. split; [assumption | reflexivity].
Qed.

(** * Further properties of the operations *)

Section Envelopes.

Context {R : PyRuntime}.

Lemma main_report (args : command) (w : world) :
  main args w = (report (fst (run args w)), snd (run args w)).
Proof.
  unfold main, report. destruct (run args w) as [[out|e] w']; [reflexivity|].
  cbn [fst snd]. destruct (is_ValueError (exn_cls e)); [reflexivity|].
  destruct (is_XRadarError (exn_cls e)); reflexivity.
Qed.



Lemma filter_tweets_sublist (tweets kept : list json) (ml mr mt : Z) :
  _filter_tweets tweets ml mr mt = Ok kept -> kept `sublist_of` tweets.
Proof.
  revert kept. induction tweets as [|t rest IH]; intros kept H; cbn [_filter_tweets] in H.
  - injection H as <-. constructor.
  - destruct (_filter_tweets rest ml mr mt) as [out|] eqn:Hrest.
    + specialize (IH out eq_refl).
      destruct (let? likes := _metric t "like_count" in _) as [[]|]; cbn [res_bind] in H;
        [injection H as <-; constructor; assumption
        | injection H as <-; constructor; assumption
        | discriminate].
    + destruct (let? likes := _metric t "like_count" in _) as [[]|]; discriminate.
Qed.

Lemma filter_kept_pass (tweets kept : list json) (ml mr mt : Z) :
  _filter_tweets tweets ml mr mt = Ok kept ->
  Forall (fun t => keeps ml mr mt t = true) kept.
Proof.
  revert kept. induction tweets as [|t rest IH]; intros kept H.
  - injection H as <-. constructor.
  - pose proof (filter_kept_ok _ _ _ _ _ H) as Hok.
    cbn [_filter_tweets] in H.
    destruct (_filter_tweets rest ml mr mt) as [out|] eqn:Hrest.
    + specialize (IH out eq_refl).
      destruct (_metric t "like_count") as [a|] eqn:Ha; [|discriminate].
      cbn [res_bind] in H.
      destruct (a <? ml) eqn:Hl; cbn [res_bind] in H; [injection H as <-; exact IH|].
      destruct (_metric t "reply_count") as [b|] eqn:Hb; [|discriminate].
      cbn [res_bind] in H.
      destruct (b <? mr) eqn:Hr; cbn [res_bind] in H; [injection H as <-; exact IH|].
      destruct (_metric t "retweet_count") as [c|] eqn:Hc; [|discriminate].
      cbn [res_bind] in H.
      destruct (c <? mt) eqn:Ht; cbn [res_bind] in H; injection H as <-; [exact IH|].
      constructor; [|exact IH].
      apply Forall_cons_iff in Hok as [Hok _].
      rewrite metric_eq in Ha, Hb, Hc by auto.
      injection Ha as <-. injection Hb as <-. injection Hc as <-.
      apply keeps_iff. apply Z.ltb_ge in Hl, Hr, Ht. lia.
    + destruct (let? likes := _metric t "like_count" in _) as [[]|]; discriminate.
Qed.

(** What [rank] returns is drawn from its input. *)
Lemma rank_drawn (tweets out : list json) (ml mr mt : Z) (sort : string) (limit : Z) :
  rank tweets ml mr mt sort limit = Ok out ->
  out ⊆+ tweets /\
  Forall (fun t => keeps ml mr mt t = true) out /\
  Z.of_nat (length out) <= Z.max 1 limit.
Proof.
  unfold rank. intros H.
  destruct (_filter_tweets tweets ml mr mt) as [kept|] eqn:Hkept; [|discriminate].
  cbn [res_bind] in H.
  pose proof (filter_kept_ok _ _ _ _ _ Hkept) as Hok.
  rewrite (sort_tweets_eq kept sort Hok) in H. cbn [res_bind] in H. injection H as <-.
  assert (Hperm : Permutation (map snd (sort_desc (map (decorated sort) kept))) kept).
  { rewrite <- (map_snd_decorated sort kept) at 2. apply Permutation_map.
    symmetry. apply sort_desc_perm. }
  split; [|split].
  - transitivity (map snd (sort_desc (map (decorated sort) kept))).
    + apply sublist_submseteq, sublist_take.
    + transitivity kept; [apply Permutation_submseteq; exact Hperm|].
      apply sublist_submseteq. eapply filter_tweets_sublist; eassumption.
  - apply Forall_take. apply (Permutation_Forall (Permutation_sym Hperm)).
    eapply filter_kept_pass; eassumption.
  - pose proof (firstn_le_length (Z.to_nat (Z.max 1 limit))
                  (map snd (sort_desc (map (decorated sort) kept)))). lia.
Qed.

End Envelopes.

(** Inverting a pure step of a computation that returned. *)
Ltac lifted H x Hx :=
  let w := fresh "w" in
  apply bind_ok in H as (x & w & Hx & H); apply lift_ok in Hx as [Hx ->].

Section Drawn.

Context {R : PyRuntime}.

Lemma rank_of_strings (s : string) (rest : list json) (ml mr mt : Z) (sort : string) (limit : Z)
    (out : list json) :
  rank (JStr s :: rest) ml mr mt sort limit <> Ok out.
Proof. unfold rank. cbn. discriminate. Qed.

Lemma dict_get_field (raw : json) (key : string) (v : json) :
  dict_get raw key = Ok v -> v = entry raw key.
Proof. destruct raw; try discriminate. cbn. congruence. Qed.

(** The list a listing ranks is the list under [data]. *)
Lemma listing_drawn (raw data : json) (items out : list json) (ml mr mt : Z)
    (sort : string) (limit : Z) :
  dict_get raw "data" = Ok data ->
  py_list (py_or data (JArr [])) = Ok items ->
  rank items ml mr mt sort limit = Ok out ->
  out ⊆+ payload_items raw /\
  Forall (fun t => keeps ml mr mt t = true) out /\
  Z.of_nat (length out) <= Z.max 1 limit /\
  forall n, py_len (py_or data (JArr [])) = Ok n -> n = Z.of_nat (length (payload_items raw)).
Proof.
  intros Hdata Hitems Hrank. apply dict_get_field in Hdata.
  unfold payload_items. rewrite <- Hdata.
  pose proof (rank_drawn _ _ _ _ _ _ _ Hrank) as (Hsub & Hkeeps & Hlen).
  assert (Hempty : items = [] -> out ⊆+ [] /\ Forall (fun t => keeps ml mr mt t = true) out /\
                                 Z.of_nat (length out) <= Z.max 1 limit)
    by (intros ->; auto).
  unfold py_or in *.
  destruct data as [|b|n|f|s|l|fs]; cbn [truthy] in *.
  - injection Hitems as <-. split; [apply Hempty; reflexivity|]. split; [assumption|].
    split; [assumption|]. intros n [= <-]. reflexivity.
  - destruct b; [discriminate|]. injection Hitems as <-.
    split; [apply Hempty; reflexivity|]. split; [assumption|].
    split; [assumption|]. intros n [= <-]. reflexivity.
  - destruct (negb (n =? 0)); [discriminate|]. injection Hitems as <-.
    split; [apply Hempty; reflexivity|]. split; [assumption|].
    split; [assumption|]. intros k [= <-]. reflexivity.
  - destruct f; try discriminate. injection Hitems as <-.
    split; [apply Hempty; reflexivity|]. split; [assumption|].
    split; [assumption|]. intros k [= <-]. reflexivity.
  - destruct s as [|c s]; cbn [String.eqb negb] in *.
    + injection Hitems as <-. split; [apply Hempty; reflexivity|]. split; [assumption|].
      split; [assumption|]. intros k [= <-]. reflexivity.
    + injection Hitems as <-. cbn [chars] in Hrank. apply rank_of_strings in Hrank. contradiction.
  - destruct l as [|t l].
    + injection Hitems as <-. split; [assumption|]. split; [assumption|].
      split; [assumption|]. intros k [= <-]. reflexivity.
    + injection Hitems as <-. split; [assumption|]. split; [assumption|].
      split; [assumption|]. intros k [= <-]. reflexivity.
  - destruct fs as [|kv fs].
    + injection Hitems as <-. split; [apply Hempty; reflexivity|]. split; [assumption|].
      split; [assumption|]. intros k [= <-]. reflexivity.
    + injection Hitems as <-. cbn [map] in Hrank. apply rank_of_strings in Hrank. contradiction.
Qed.

(** The items a search or a per-author listing returns are items of the
    payload's [data] list, none more often than there; each meets the three
    thresholds; [returned] is their number, at most [max(1, limit)].  On a
    miss [post_reads] is the number of items of the payload, not of the
    items returned.  [includes] and [meta] (and [user] of the listing) are
    handed on as the payload holds them. *)
Theorem results_are_drawn_from_the_payload :
  (forall query limit sort since ml mr mt quick w e w',
     search_recent query limit sort since ml mr mt quick w = (Ok e, w') ->
     exists st raw hit,
       start_time_of (quick_since since quick) w = (Ok st, w) /\
       _get (search_url (quick_query query quick) quick st) (if quick then 3600 else 900) false w
       = (Ok (raw, hit), w') /\
       se_data e ⊆+ payload_items raw /\
       Forall (fun t => keeps ml mr mt t = true) (se_data e) /\
       se_returned e = Z.of_nat (length (se_data e)) /\
       se_returned e <= Z.max 1 limit /\
       post_reads (se_cost e) = (if hit then 0 else Z.of_nat (length (payload_items raw))) /\
       se_includes e = entry raw "includes" /\
       se_meta e = entry raw "meta") /\
  (forall username limit sort ml mr mt w e w',
     user_tweets username limit sort ml mr mt w = (Ok (UserTweets e), w') ->
     exists user_raw raw w1,
       user_by_username username 900 false w = (Ok (user_raw, ue_user_lookup_hit e), w1) /\
       _get (user_tweets_url (entry (entry user_raw "data") "id")) 900 false w1
       = (Ok (raw, ue_tweets_hit e), w') /\
       ue_data e ⊆+ payload_items raw /\
       Forall (fun t => keeps ml mr mt t = true) (ue_data e) /\
       ue_returned e = Z.of_nat (length (ue_data e)) /\
       ue_returned e <= Z.max 1 limit /\
       post_reads (ue_cost e)
       = (if ue_tweets_hit e then 0 else Z.of_nat (length (payload_items raw))) /\
       ue_user e = entry user_raw "data" /\
       ue_meta e = entry raw "meta").
Proof.
  split.
  - intros query limit sort since ml mr mt quick w e w' H.
    unfold search_recent in H.
    apply bind_ok in H as (st & w1 & Hst & H).
    pose proof (start_time_world _ _ _ _ Hst) as ->.
    apply bind_ok in H as ([raw hit] & w2 & Hget & H).
    lifted H data Hdata. lifted H items Hitems. lifted H out Hrank.
    apply bind_ok in H as (n & w3 & Hn & H).
    lifted H includes Hincludes. lifted H meta Hmeta. apply ret_ok in H as [<- <-].
    destruct (listing_drawn _ _ _ _ _ _ _ _ _ Hdata Hitems Hrank)
      as (Hsub & Hkeeps & Hlen & Hcount).
    exists st, raw, hit. cbn [se_data se_returned se_cost se_includes se_meta post_reads].
    split; [assumption|].
    assert (Hw : w' = w2 /\ n = (if hit then 0 else Z.of_nat (length (payload_items raw)))).
    { destruct hit.
      - apply ret_ok in Hn as [<- ->]. split; reflexivity.
      - apply lift_ok in Hn as [Hn ->]. split; [reflexivity | apply Hcount; assumption]. }
    destruct Hw as [-> ->].
    split; [assumption|]. split; [assumption|]. split; [assumption|].
    split; [reflexivity|]. split; [assumption|]. split; [reflexivity|].
    split; apply dict_get_field; assumption.
  - intros username limit sort ml mr mt w e w' H. unfold user_tweets in H.
    apply bind_ok in H as ([user_raw hit1] & w1 & Hget1 & H).
    lifted H user_data Huser. lifted H user_id Hid.
    destruct (negb (truthy user_id)); [apply ret_ok in H as [[=] _]|].
    apply bind_ok in H as ([raw hit2] & w2 & Hget2 & H).
    lifted H data Hdata. lifted H items Hitems. lifted H out Hrank.
    apply bind_ok in H as (n & w3 & Hn & H).
    lifted H user Huser'. lifted H meta Hmeta. apply ret_ok in H as [[= <-] <-].
    destruct (listing_drawn _ _ _ _ _ _ _ _ _ Hdata Hitems Hrank)
      as (Hsub & Hkeeps & Hlen & Hcount).
    exists user_raw, raw, w1.
    cbn [ue_data ue_returned ue_cost ue_user ue_meta post_reads ue_user_lookup_hit ue_tweets_hit].
    assert (Hw : w' = w2 /\ n = (if hit2 then 0 else Z.of_nat (length (payload_items raw)))).
    { destruct hit2.
      - apply ret_ok in Hn as [<- ->]. split; reflexivity.
      - apply lift_ok in Hn as [Hn ->]. split; [reflexivity | apply Hcount; assumption]. }
    destruct Hw as [-> ->].
    assert (Hid' : user_id = entry (entry user_raw "data") "id").
    { apply dict_get_field in Hid. rewrite Hid.
      destruct user_raw as [| | | | | |fields]; try discriminate.
      cbn [dict_get_default] in Huser. injection Huser as <-. cbn [entry].
      destruct (assoc "data" fields) as [v|] eqn:E; reflexivity. }
    rewrite <- Hid'.
    split; [assumption|]. split; [assumption|]. split; [assumption|]. split; [assumption|].
    split; [reflexivity|]. split; [assumption|]. split; [reflexivity|].
    split; apply dict_get_field; assumption.
Qed.

End Drawn.

(** ** Running without the cache, and with it *)

Section Bypass.

Context {R : PyRuntime}.

Lemma run_tweet_fst (id : string) (no_cache : bool) (w : world) :
  fst (run (CmdTweet id no_cache) w)
  = (let? (raw, hit) := fst (_get (tweet_url id) 900 no_cache w) in
     let? e := tweet_result id raw hit in Ok (DocTweet e)).
Proof.
  rewrite run_tweet_eq. destruct (_get _ _ _ w) as [[[raw hit]|e] w1]; reflexivity.
Qed.

Lemma run_tweet_snd (id : string) (no_cache : bool) (w : world) :
  snd (run (CmdTweet id no_cache) w) = snd (_get (tweet_url id) 900 no_cache w).
Proof.
  rewrite run_tweet_eq. destruct (_get _ _ _ w) as [[[raw hit]|e] w1]; reflexivity.
Qed.

(** With [no_cache] set, or a TTL that is not positive, a [_get] is the
    fetch itself: its result does not depend on the cache files, it leaves
    them as they are (nothing is read, nothing is written), and it reports
    a miss.  So does the single-item command run with [--no-cache]. *)
Theorem no_cache_bypasses_the_cache :
  (forall url ttl no_cache w,
     no_cache = true \/ ttl <= 0 ->
     _get url ttl no_cache w = fetch url ttl no_cache w /\
     (forall fs,
        fst (_get url ttl no_cache (set_cache_files fs w)) = fst (_get url ttl no_cache w)) /\
     cache_files (snd (_get url ttl no_cache w)) = cache_files w /\
     (forall p hit w',
        _get url ttl no_cache w = (Ok (p, hit), w') ->
        hit = false /\ requested w' = (requested w ++ [url])%list)) /\
  (forall id w,
     (forall fs,
        fst (main (CmdTweet id true) (set_cache_files fs w)) = fst (main (CmdTweet id true) w)) /\
     cache_files (snd (main (CmdTweet id true) w)) = cache_files w).
Proof.
  assert (Hget : forall url ttl no_cache w,
     no_cache = true \/ ttl <= 0 ->
     _get url ttl no_cache w = fetch url ttl no_cache w /\
     (forall fs,
        fst (_get url ttl no_cache (set_cache_files fs w)) = fst (_get url ttl no_cache w)) /\
     cache_files (snd (_get url ttl no_cache w)) = cache_files w /\
     (forall p hit w',
        _get url ttl no_cache w = (Ok (p, hit), w') ->
        hit = false /\ requested w' = (requested w ++ [url])%list)).
  { intros url ttl no_cache w Hoff.
    assert (Hon : negb no_cache && (0 <? ttl) = false).
    { destruct Hoff as [->|H]; [reflexivity|].
      apply andb_false_intro2. apply Z.ltb_ge. assumption. }
    assert (Hout : forall w0, _get url ttl no_cache w0 = fetch_outcome url ttl no_cache w0).
    { intros w0. rewrite get_miss, fetch_eq; [reflexivity|]. unfold cached.
      rewrite Hon. reflexivity. }
    split; [rewrite Hout, fetch_eq; reflexivity|].
    split; [|split].
    - intros fs. rewrite !Hout. unfold fetch_outcome. rewrite Hon.
      destruct (has_scheme url); [|reflexivity]. unfold credential. cbn [environ set_cache_files].
      destruct (opt_or _ _) as [t|]; [|reflexivity].
      destruct (String.eqb t ""); [reflexivity|]. cbv zeta. cbn [provider set_cache_files].
      destruct (response_result (provider w url)); reflexivity.
    - rewrite Hout. unfold fetch_outcome. rewrite Hon.
      destruct (has_scheme url); [|reflexivity].
      destruct (credential w); [|reflexivity]. cbv zeta.
      destruct (response_result (provider w url)); reflexivity.
    - intros p hit w' H. rewrite Hout in H. apply fetch_outcome_ok in H. tauto. }
  split; [exact Hget|].
  intros id w. destruct (Hget (tweet_url id) 900 true w (or_introl eq_refl))
    as (_ & Hfst & Hfiles & _).
  split.
  - intros fs. rewrite !main_report. cbn [fst]. rewrite !run_tweet_fst, Hfst. reflexivity.
  - rewrite main_world, run_tweet_snd. exact Hfiles.
Qed.

End Bypass.

Section Repeats.

Context {R : PyRuntime}.

Lemma search_result_again (q : string) (since : option string) (sort : string) (quick : bool)
    (ml mr mt limit : Z) (raw : json) (e : search_envelope) :
  search_result q since sort quick ml mr mt limit raw false = Ok e ->
  search_result q since sort quick ml mr mt limit raw true
  = Ok (SearchEnvelope (se_query e) (se_since e) (se_sort e) (se_quick e) (se_filters e)
          (se_returned e) (Cost 0 0 0) (se_data e) (se_includes e) (se_meta e)).
Proof.
  unfold search_result.
  destruct (dict_get raw "data") as [data|]; [|discriminate]. cbn [res_bind].
  destruct (py_list _) as [items|]; [|discriminate]. cbn [res_bind].
  destruct (rank _ _ _ _ _ _) as [out|]; [|discriminate]. cbn [res_bind].
  destruct (py_len _) as [n|]; [|discriminate]. cbn [res_bind].
  destruct (dict_get raw "includes") as [includes|]; [|discriminate]. cbn [res_bind].
  destruct (dict_get raw "meta") as [meta|]; [|discriminate]. cbn [res_bind].
  intros [= <-]. reflexivity.
Qed.

Lemma tweet_result_again (id : string) (raw : json) (e : tweet_envelope) :
  tweet_result id raw false = Ok e ->
  tweet_result id raw true
  = Ok (TweetEnvelope (te_id e) true (Cost 0 0 0) (te_data e) (te_includes e) (te_errors e)).
Proof.
  unfold tweet_result.
  destruct (dict_get raw "data") as [data|]; [|discriminate]. cbn [res_bind].
  destruct (dict_get raw "includes") as [includes|]; [|discriminate]. cbn [res_bind].
  destruct (dict_get raw "errors") as [errors|]; [|discriminate]. cbn [res_bind].
  intros [= <-]. reflexivity.
Qed.

Lemma object_not_null (raw : json) (key : string) (v : json) :
  dict_get raw key = Ok v -> raw <> JNull.
Proof. destruct raw; discriminate. Qed.

(** The payload of a miss is the body the API answered with. *)
Lemma miss_payload (url : string) (ttl : Z) (no_cache : bool) (w w1 : world) (p : json) :
  _get url ttl no_cache w = (Ok (p, false), w1) ->
  provider w url = RespBody (JsonText p).
Proof.
  rewrite get_eq, fetch_eq. intros H.
  assert (Hf : fetch_outcome url ttl no_cache w = (Ok (p, false), w1))
    by (destruct (cached url ttl no_cache w); try assumption; discriminate).
  apply fetch_outcome_ok in Hf as (_ & _ & Hp & _).
  destruct (provider w url) as [[obj|s]| | | | |e]; try discriminate.
  injection Hp as ->. reflexivity.
Qed.

(** A search without a time window, or a single-item fetch, that went to
    the network is answered from the cache when repeated within 900 seconds:
    the same items, no request, and a cost of zero.  The cache directory is
    one that can be written, and the payloads of the API ones that can be
    encoded. *)
Theorem repeat_within_the_ttl_is_served_from_the_cache (w : world) (dt : Z) :
  cache_writable w = true -> dt <= 900 * 1000000 ->
  (forall url raw,
     provider w url = RespBody (JsonText raw) -> py_encodable (json_dumps raw) = true) ->
  (forall query limit sort ml mr mt e w1,
     search_recent query limit sort None ml mr mt false w = (Ok e, w1) ->
     requests (se_cost e) = 1 ->
     let w2 := set_clock (clock w1 + dt) w1 in
     search_recent query limit sort None ml mr mt false w2
     = (Ok (SearchEnvelope (se_query e) (se_since e) (se_sort e) (se_quick e) (se_filters e)
              (se_returned e) (Cost 0 0 0) (se_data e) (se_includes e) (se_meta e)),
        w2) /\
     requested w2 = (requested w ++ [search_url query false None])%list) /\
  (forall id e w1,
     run (CmdTweet id false) w = (Ok (DocTweet e), w1) ->
     te_cache_hit e = false ->
     let w2 := set_clock (clock w1 + dt) w1 in
     run (CmdTweet id false) w2
     = (Ok (DocTweet (TweetEnvelope (te_id e) true (Cost 0 0 0) (te_data e) (te_includes e)
                        (te_errors e))),
        w2) /\
     requested w2 = (requested w ++ [tweet_url id])%list).
Proof.
  intros Hw Hdt Henc. split.
  - intros query limit sort ml mr mt e w1 Hrun Hreq w2. subst w2.
    rewrite (search_recent_eq _ _ _ _ _ _ _ _ _ None) in Hrun by reflexivity.
    rewrite (search_recent_eq _ _ _ _ _ _ _ _ _ None) by reflexivity.
    cbn [quick_query quick_since andb] in *.
    destruct (_get (search_url query false None) 900 false w) as [[[raw hit]|err] w'] eqn:Hget;
      [|discriminate].
    injection Hrun as Hres <-.
    assert (hit = false) as ->.
    { destruct hit; [|reflexivity]. unfold search_result in Hres.
      destruct (dict_get raw "data"); [|discriminate]. cbn [res_bind] in Hres.
      destruct (py_list _); [|discriminate]. cbn [res_bind] in Hres.
      destruct (rank _ _ _ _ _ _); [|discriminate]. cbn [res_bind] in Hres.
      destruct (dict_get raw "includes"); [|discriminate]. cbn [res_bind] in Hres.
      destruct (dict_get raw "meta"); [|discriminate]. cbn [res_bind] in Hres.
      injection Hres as <-. discriminate Hreq. }
    assert (Hnull : raw <> JNull).
    { unfold search_result in Hres.
      destruct (dict_get raw "data") eqn:E; [|discriminate].
      eapply object_not_null; eassumption. }
    pose proof (Henc _ _ (miss_payload _ _ _ _ _ _ Hget)) as He.
    rewrite (hit_after_fetch _ 900 dt w w' raw); try assumption; [|lia].
    rewrite (search_result_again _ _ _ _ _ _ _ _ _ _ Hres).
    split; [reflexivity|]. cbn [requested set_clock].
    rewrite (get_requested _ _ _ _ _ _ _ Hget). reflexivity.
  - intros id e w1 Hrun Hmiss w2. subst w2.
    rewrite run_tweet_eq in Hrun. rewrite run_tweet_eq.
    destruct (_get (tweet_url id) 900 false w) as [[[raw hit]|err] w'] eqn:Hget; [|discriminate].
    destruct (tweet_result id raw hit) as [e0|] eqn:Hres; [|discriminate].
    cbn [res_bind] in Hrun. injection Hrun as -> <-.
    assert (hit = false) as ->.
    { unfold tweet_result in Hres.
      destruct (dict_get raw "data"); [|discriminate]. cbn [res_bind] in Hres.
      destruct (dict_get raw "includes"); [|discriminate]. cbn [res_bind] in Hres.
      destruct (dict_get raw "errors"); [|discriminate]. cbn [res_bind] in Hres.
      injection Hres as <-. exact Hmiss. }
    assert (Hnull : raw <> JNull).
    { unfold tweet_result in Hres.
      destruct (dict_get raw "data") eqn:E; [|discriminate].
      eapply object_not_null; eassumption. }
    pose proof (Henc _ _ (miss_payload _ _ _ _ _ _ Hget)) as He.
    rewrite (hit_after_fetch _ 900 dt w w' raw); try assumption; [|lia].
    rewrite (tweet_result_again _ _ _ Hres).
    split; [reflexivity|]. cbn [requested set_clock].
    rewrite (get_requested _ _ _ _ _ _ _ Hget). reflexivity.
Qed.

End Repeats.

(** * Further properties of the ranker *)

Lemma in_firstn {A : Type} (n : nat) (l : list A) (x : A) : In x (firstn n l) -> In x l.
Proof.
  revert n. induction l as [|a l IH]; intros [|n] H; try contradiction.
  cbn [firstn] in H. destruct H as [->|H]; [left; reflexivity | right; eauto].
Qed.

Lemma in_skipn {A : Type} (n : nat) (l : list A) (x : A) : In x (skipn n l) -> In x l.
Proof.
  revert n. induction l as [|a l IH]; intros [|n] H; try contradiction; [exact H|].
  right. cbn [skipn] in H. eauto.
Qed.

Lemma sorted_head_above_tail {A : Type} (above : A -> A -> Prop) (n : nat) (l : list A) :
  StronglySorted above l ->
  forall x y, In x (firstn n l) -> In y (skipn n l) -> above x y.
Proof.
  intros Hsorted. revert n. induction Hsorted as [|a l Hs IH Ha]; intros n x y Hx Hy.
  - rewrite firstn_nil in Hx. contradiction.
  - destruct n as [|n]; [contradiction|].
    cbn [firstn skipn] in Hx, Hy. destruct Hx as [<-|Hx].
    + rewrite List.Forall_forall in Ha. apply Ha. eapply in_skipn. exact Hy.
    + eapply IH; eassumption.
Qed.

Lemma sorted_firstn {A : Type} (above : A -> A -> Prop) (n : nat) (l : list A) :
  StronglySorted above l -> StronglySorted above (firstn n l).
Proof.
  intros Hsorted. revert n. induction Hsorted as [|a l Hs IH Ha]; intros n.
  - rewrite firstn_nil. constructor.
  - destruct n as [|n]; [constructor|]. cbn [firstn]. constructor; [apply IH|].
    rewrite List.Forall_forall in *. intros x Hx. apply Ha. eapply in_firstn. exact Hx.
Qed.

(** Sorting a list that is in order leaves it as it is. *)
Lemma sort_desc_of_sorted (l : list (sort_key * json)) :
  StronglySorted ranks_above l -> sort_desc l = l.
Proof.
  induction 1 as [|x l Hs IH Hx]; [reflexivity|].
  cbn [sort_desc fold_right]. fold (sort_desc l). rewrite IH.
  destruct l as [|y l]; [reflexivity|]. cbn [insert_desc].
  apply Forall_cons_iff in Hx as [Hxy _]. unfold ranks_above in Hxy. rewrite Hxy. reflexivity.
Qed.

Lemma filter_all {A : Type} (p : A -> bool) (l : list A) :
  Forall (fun x => p x = true) l -> List.filter p l = l.
Proof.
  induction 1 as [|x l Hx _ IH]; [reflexivity|].
  cbn [List.filter]. rewrite Hx, IH. reflexivity.
Qed.

Lemma lower_ascii_idem (c : ascii) : lower_ascii (lower_ascii c) = lower_ascii c.
Proof. destruct c as [[] [] [] [] [] [] [] []]; reflexivity. Qed.

Lemma ascii_lower_idem (s : string) : ascii_lower (ascii_lower s) = ascii_lower s.
Proof.
  induction s as [|c s IH]; [reflexivity|].
  cbn [ascii_lower]. rewrite lower_ascii_idem, IH. reflexivity.
Qed.

Lemma is_ascii_lower (s : string) : is_ascii (ascii_lower s) = is_ascii s.
Proof.
  induction s as [|c s IH]; [reflexivity|].
  cbn [ascii_lower is_ascii]. rewrite IH. f_equal.
  destruct c as [[] [] [] [] [] [] [] []]; reflexivity.
Qed.

Section Order.

Context {R : PyRuntime}.

Lemma map_decorated_keyed (sort : string) (l : list (sort_key * json)) :
  Forall (keyed sort) l -> map (decorated sort) (map snd l) = l.
Proof.
  induction 1 as [|x l Hx _ IH]; [reflexivity|].
  cbn [map]. rewrite IH. unfold decorated. rewrite <- Hx. destruct x; reflexivity.
Qed.

Lemma sort_desc_keyed (sort : string) (tweets : list json) :
  Forall (keyed sort) (sort_desc (map (decorated sort) tweets)).
Proof.
  apply (Permutation_Forall (sort_desc_perm _)). apply Forall_map.
  apply Forall_forall. intros t _. reflexivity.
Qed.

(** What [rank] computes on a list the filter accepts. *)
Lemma rank_eq (tweets kept : list json) (ml mr mt : Z) (sort : string) (limit : Z) :
  _filter_tweets tweets ml mr mt = Ok kept ->
  rank tweets ml mr mt sort limit
  = Ok (map snd (firstn (Z.to_nat (Z.max 1 limit)) (sort_desc (map (decorated sort) kept)))).
Proof.
  intros Hkept. unfold rank. rewrite Hkept. cbn [res_bind].
  rewrite (sort_tweets_eq kept sort (filter_kept_ok _ _ _ _ _ Hkept)). cbn [res_bind].
  rewrite firstn_map. reflexivity.
Qed.

(** Truncation drops only from the tail of the order: what [rank] returns
    together with what it drops is what the filter kept, every returned item
    ranks at least as high as every dropped one, and something is dropped
    only when [max(1, limit)] items are returned. *)
Theorem limit_keeps_the_best_ranked
    (tweets out : list json) (ml mr mt : Z) (sort : string) (limit : Z) :
  rank tweets ml mr mt sort limit = Ok out ->
  exists kept dropped,
    _filter_tweets tweets ml mr mt = Ok kept /\
    Permutation (out ++ dropped) kept /\
    (forall x y, In x out -> In y dropped -> key_ge (key_of sort x) (key_of sort y)) /\
    (dropped <> [] -> length out = Z.to_nat (Z.max 1 limit)).
Proof.
  intros H.
  destruct (_filter_tweets tweets ml mr mt) as [kept|] eqn:Hkept;
    [|unfold rank in H; rewrite Hkept in H; discriminate].
  rewrite (rank_eq _ _ _ _ _ _ _ Hkept) in H. injection H as <-.
  set (n := Z.to_nat (Z.max 1 limit)).
  set (S := sort_desc (map (decorated sort) kept)).
  exists kept, (map snd (skipn n S)).
  split; [reflexivity|].
  split; [|split].
  - rewrite <- map_app, firstn_skipn.
    transitivity (map snd (map (decorated sort) kept));
      [|rewrite map_snd_decorated; reflexivity].
    apply Permutation_map. symmetry. apply sort_desc_perm.
  - intros x y Hx Hy.
    assert (Hsorted : StronglySorted (fun a b => key_ge (key_of sort a) (key_of sort b))
                        (map snd S)).
    { apply sorted_undecorated; [apply sort_desc_keyed | apply sort_desc_sorted]. }
    rewrite <- firstn_map in Hx. rewrite <- skipn_map in Hy.
    exact (sorted_head_above_tail _ n _ Hsorted x y Hx Hy).
  - intros Hdropped. rewrite length_map. apply firstn_length_le.
    destruct (Nat.le_gt_cases n (length S)) as [Hle|Hgt]; [exact Hle|].
    contradiction Hdropped. rewrite skipn_all2 by lia. reflexivity.
Qed.

(** Ranking a ranked list again, with the same thresholds, sort mode and
    limit, returns it as it is. *)
Theorem rank_is_idempotent
    (tweets out : list json) (ml mr mt : Z) (sort : string) (limit : Z) :
  rank tweets ml mr mt sort limit = Ok out ->
  rank out ml mr mt sort limit = Ok out.
Proof.
  intros H.
  pose proof (rank_drawn _ _ _ _ _ _ _ H) as (_ & Hkeeps & Hlen).
  destruct (_filter_tweets tweets ml mr mt) as [kept|] eqn:Hkept;
    [|unfold rank in H; rewrite Hkept in H; discriminate].
  pose proof (filter_kept_ok _ _ _ _ _ Hkept) as Hok.
  rewrite (rank_eq _ _ _ _ _ _ _ Hkept) in H.
  set (n := Z.to_nat (Z.max 1 limit)) in *.
  set (S := sort_desc (map (decorated sort) kept)) in *.
  assert (Hkeyed : Forall (keyed sort) (firstn n S)).
  { apply Forall_take. apply sort_desc_keyed. }
  assert (Hok' : Forall (fun t => item_ok t = true) out).
  { injection H as <-. apply Forall_map.
    assert (HS : Forall (fun x => item_ok (snd x) = true) S).
    { apply (Permutation_Forall (sort_desc_perm _)). apply Forall_map.
      eapply List.Forall_impl; [|exact Hok]. intros t Ht. exact Ht. }
    apply Forall_take. exact HS. }
  assert (Hfilter : _filter_tweets out ml mr mt = Ok out).
  { rewrite filter_tweets_eq by assumption. rewrite filter_all by assumption. reflexivity. }
  rewrite (rank_eq _ _ _ _ _ _ _ Hfilter). fold n.
  injection H as <-. rewrite map_decorated_keyed by assumption.
  rewrite sort_desc_of_sorted by (apply sorted_firstn, sort_desc_sorted).
  rewrite firstn_firstn, Nat.min_id. reflexivity.
Qed.

Lemma decorate_ext (sort sort' : string) (tweets : list json) :
  (forall t, _sort_key t sort = _sort_key t sort') ->
  decorate tweets sort = decorate tweets sort'.
Proof.
  intros Hkey. induction tweets as [|t rest IH]; [reflexivity|].
  cbn [decorate]. rewrite Hkey, IH. reflexivity.
Qed.

Lemma rank_ext (sort sort' : string) (tweets : list json) (ml mr mt limit : Z) :
  (forall t, _sort_key t sort = _sort_key t sort') ->
  rank tweets ml mr mt sort limit = rank tweets ml mr mt sort' limit.
Proof.
  intros Hkey. unfold rank, sort_tweets.
  destruct (_filter_tweets tweets ml mr mt) as [kept|]; [|reflexivity].
  cbn [res_bind]. rewrite (decorate_ext sort sort' kept Hkey). reflexivity.
Qed.

Lemma lower_of_ascii (s : string) : is_ascii s = true -> lower s = ascii_lower s.
Proof. intros H. unfold lower. rewrite H. reflexivity. Qed.

Lemma lower_idem_ascii (s : string) : is_ascii s = true -> lower (lower s) = lower s.
Proof.
  intros H. rewrite (lower_of_ascii s H), lower_of_ascii by (rewrite is_ascii_lower; exact H).
  apply ascii_lower_idem.
Qed.

(** The sort mode is read through [str.lower()]: two modes that are lowered
    to the same text rank alike, and an ASCII mode ranks as its lower-case
    spelling does.  Every mode whose lowered text is none of [likes],
    [replies] and [retweets] sorts by [created_at] alone, as [recent]
    does. *)
Theorem sort_mode_falls_back_to_recent :
  (forall sort sort',
     lower sort = lower sort' ->
     (forall t, _sort_key t sort = _sort_key t sort') /\
     (forall tweets ml mr mt limit,
        rank tweets ml mr mt sort limit = rank tweets ml mr mt sort' limit)) /\
  (forall sort,
     is_ascii sort = true ->
     (forall t, _sort_key t sort = _sort_key t (ascii_lower sort)) /\
     (forall tweets ml mr mt limit,
        rank tweets ml mr mt sort limit = rank tweets ml mr mt (ascii_lower sort) limit)) /\
  (forall sort,
     lower sort <> "likes" -> lower sort <> "replies" -> lower sort <> "retweets" ->
     (forall t, _sort_key t sort = (let? c := _created_at t in Ok (Key1 c))) /\
     (forall tweets ml mr mt limit,
        rank tweets ml mr mt sort limit = rank tweets ml mr mt "recent" limit)).
Proof.
  assert (Hsame : forall sort sort', lower sort = lower sort' ->
                    forall t, _sort_key t sort = _sort_key t sort').
  { intros sort sort' H t. unfold _sort_key. rewrite H. reflexivity. }
  assert (Hother : forall sort,
             lower sort <> "likes" -> lower sort <> "replies" -> lower sort <> "retweets" ->
             forall t, _sort_key t sort = (let? c := _created_at t in Ok (Key1 c))).
  { intros sort H1 H2 H3 t. unfold _sort_key.
    destruct (String.eqb_spec (lower sort) "likes"); [contradiction|].
    destruct (String.eqb_spec (lower sort) "replies"); [contradiction|].
    destruct (String.eqb_spec (lower sort) "retweets"); [contradiction|]. reflexivity. }
  split; [|split].
  - intros sort sort' H. split; [apply Hsame; exact H|].
    intros tweets ml mr mt limit. apply rank_ext. apply Hsame. exact H.
  - intros sort Hascii.
    assert (H : lower sort = lower (ascii_lower sort)).
    { rewrite <- (lower_of_ascii sort Hascii). symmetry. apply lower_idem_ascii. exact Hascii. }
    split; [apply Hsame; exact H|].
    intros tweets ml mr mt limit. apply rank_ext. apply Hsame. exact H.
  - intros sort H1 H2 H3. split; [apply Hother; assumption|].
    intros tweets ml mr mt limit. apply rank_ext. intros t.
    rewrite (Hother sort H1 H2 H3). reflexivity.
Qed.

End Order.

(** * URLs *)

Lemma all_chars_app (p : ascii -> bool) (a b : string) :
  all_chars p (a ++ b) = all_chars p a && all_chars p b.
Proof.
  induction a as [|c a IH]; [reflexivity|].
  rewrite append_cons. cbn [all_chars]. rewrite IH, andb_assoc. reflexivity.
Qed.

Lemma quote_path_chars (s : string) : all_chars path_char (quote s) = true.
Proof.
  induction s as [|c s IH]; [reflexivity|].
  cbn [quote]. rewrite all_chars_app, IH, andb_true_r.
  destruct c as [[] [] [] [] [] [] [] []]; reflexivity.
Qed.

Lemma all_chars_has_char (p : ascii -> bool) (c : ascii) (s : string) :
  all_chars p s = true -> p c = false -> has_char c s = false.
Proof.
  intros Hall Hc. induction s as [|d s IH]; [reflexivity|].
  cbn [all_chars] in Hall. apply andb_prop in Hall as [Hd Hs].
  cbn [has_char]. rewrite (IH Hs), orb_false_r.
  destruct (Ascii.eqb_spec c d) as [->|]; [congruence | reflexivity].
Qed.

Lemma unquote_quote_char (c : ascii) (rest : string) :
  unquote_plus ((if is_unreserved c || Ascii.eqb c "/" then String c EmptyString else percent c)
                ++ rest)
  = String c (unquote_plus rest).
Proof. destruct c as [[] [] [] [] [] [] [] []]; reflexivity. Qed.

Lemma unquote_quote (s : string) : unquote_plus (quote s) = s.
Proof.
  induction s as [|c s IH]; [reflexivity|].
  cbn [quote]. rewrite unquote_quote_char, IH. reflexivity.
Qed.

Lemma quote_inj (a b : string) : quote a = quote b -> a = b.
Proof.
  intros H. rewrite <- (unquote_quote a), <- (unquote_quote b), H. reflexivity.
Qed.

Lemma quote_unreserved (s : string) : all_chars is_unreserved s = true -> quote s = s.
Proof.
  induction s as [|c s IH]; [reflexivity|]. cbn [all_chars quote].
  intros H. apply andb_prop in H as [Hc Hs]. rewrite Hc, (IH Hs). reflexivity.
Qed.

Lemma quote_plus_unreserved (s : string) : all_chars is_unreserved s = true -> quote_plus s = s.
Proof.
  induction s as [|c s IH]; [reflexivity|]. cbn [all_chars quote_plus].
  intros H. apply andb_prop in H as [Hc Hs]. unfold plus_char. rewrite Hc, (IH Hs). reflexivity.
Qed.

(** Two strings that agree up to a character the first parts do not hold
    agree part by part. *)
Lemma split_at_char (sep : ascii) (a1 a2 r1 r2 : string) :
  has_char sep a1 = false -> has_char sep a2 = false ->
  a1 ++ String sep r1 = a2 ++ String sep r2 -> a1 = a2.
Proof. intros H1 H2 H. exact (proj1 (split_at_separator sep a1 a2 r1 r2 H1 H2 H)). Qed.

Section Lookup.

Context {R : PyRuntime}.

(** The username lookup drops every leading [@] and percent-encodes the
    rest into the path of the URL.  What it puts there holds only letters,
    digits, [_], [.], [-], [~], slashes and percent escapes, so no [?], [#]
    or [&]; and two usernames get the same URL, hence the same cache entry,
    exactly when they are equal up to leading [@]s. *)
Theorem lookup_url_identifies_the_username :
  (forall username ttl no_cache,
     user_by_username username ttl no_cache = _get (lookup_url username) ttl no_cache) /\
  (forall username, lookup_url (String "@" username) = lookup_url username) /\
  (forall u1 u2, lookup_url u1 = lookup_url u2 <-> lstrip_at u1 = lstrip_at u2) /\
  (forall username,
     all_chars path_char (quote (lstrip_at username)) = true /\
     has_char "?" (quote (lstrip_at username)) = false /\
     has_char "#" (quote (lstrip_at username)) = false /\
     has_char "&" (quote (lstrip_at username)) = false).
Proof.
  split; [reflexivity|]. split; [reflexivity|]. split.
  - intros u1 u2. split; [|unfold lookup_url; intros ->; reflexivity].
    unfold lookup_url. intros H. apply append_cancel_l in H.
    change ("/users/by/username/" ++ quote (lstrip_at u1) ++ ?x)
      with ("/users/by/username/" ++ (quote (lstrip_at u1) ++ x)) in H.
    apply append_cancel_l in H.
    apply quote_inj. eapply (split_at_char "?"); [| |exact H];
      (eapply all_chars_has_char; [apply quote_path_chars | reflexivity]).
  - intros username. split; [apply quote_path_chars|].
    repeat split; (eapply all_chars_has_char; [apply quote_path_chars | reflexivity]).
Qed.

End Lookup.

(** The URL of the single-item fetch holds the id encoded twice, by
    [quote] and then by [urlencode]; an id of unreserved characters, such as
    a number, appears as it is; different ids get different URLs. *)
Theorem tweet_url_identifies_the_id :
  (forall id,
     tweet_url id
     = API ++ "/tweets?ids=" ++ quote_plus (quote id) ++
       "&tweet.fields=created_at%2Cpublic_metrics%2Cauthor_id%2Cconversation_id" ++
       "&expansions=author_id&user.fields=username%2Cname%2Cverified") /\
  (forall id,
     all_chars is_unreserved id = true ->
     tweet_url id
     = API ++ "/tweets?ids=" ++ id ++
       "&tweet.fields=created_at%2Cpublic_metrics%2Cauthor_id%2Cconversation_id" ++
       "&expansions=author_id&user.fields=username%2Cname%2Cverified") /\
  (forall a b, tweet_url a = tweet_url b <-> a = b).
Proof.
  assert (Hform : forall id,
     tweet_url id
     = API ++ "/tweets?ids=" ++ quote_plus (quote id) ++
       "&tweet.fields=created_at%2Cpublic_metrics%2Cauthor_id%2Cconversation_id" ++
       "&expansions=author_id&user.fields=username%2Cname%2Cverified").
  { intros id. unfold tweet_url. rewrite !urlencode_more. unfold urlencode, encode_pair.
    cbn [fst snd]. rewrite !append_assoc. reflexivity. }
  split; [exact Hform|]. split.
  - intros id Hid. rewrite Hform, (quote_unreserved id Hid), (quote_plus_unreserved id Hid).
    reflexivity.
  - intros a b. split; [|intros ->; reflexivity].
    unfold tweet_url. intros H. apply append_cancel_l in H.
    apply (append_cancel_l "/tweets?") in H. apply urlencode_inj in H.
    injection H as H. apply quote_inj. exact H.
Qed.

(** * The start of the time window *)

Lemma year_of_era (doe : Z) :
  0 <= doe < 146097 ->
  let yoe := (doe - doe / 1460 + doe / 36524 - doe / 146096) / 365 in
  let doy := doe - (365 * yoe + yoe / 4 - yoe / 100) in
  0 <= yoe <= 399 /\ 0 <= doy <= 365.
Proof. intros H yoe doy. subst doy yoe. Z.div_mod_to_equations. lia. Qed.

Lemma day_of_year (doy : Z) :
  0 <= doy <= 365 ->
  let mp := (5 * doy + 2) / 153 in
  let d := doy - (153 * mp + 2) / 5 + 1 in
  0 <= mp <= 11 /\ 1 <= d <= 31.
Proof. intros H mp d. subst d mp. Z.div_mod_to_equations. lia. Qed.

(** [civil_from_days] gives a month and a day in range, and
    [days_from_civil] reads the date back. *)
Lemma civil_from_days_inv (z : Z) :
  let '(y, m, d) := civil_from_days z in
  1 <= m <= 12 /\ 1 <= d <= 31 /\ days_from_civil y m d = z /\
  (-719162 <= z <= 2932896 -> 0 <= y <= 9999).
Proof.
  unfold civil_from_days. cbv zeta.
  set (era := (z + 719468) / 146097).
  set (doe := z + 719468 - era * 146097).
  assert (Hdoe : 0 <= doe < 146097) by (subst doe era; Z.div_mod_to_equations; lia).
  set (yoe := (doe - doe / 1460 + doe / 36524 - doe / 146096) / 365).
  set (doy := doe - (365 * yoe + yoe / 4 - yoe / 100)).
  destruct (year_of_era doe Hdoe) as [Hyoe Hdoy]. fold yoe in Hyoe, Hdoy. fold doy in Hdoy.
  set (mp := (5 * doy + 2) / 153).
  set (d := doy - (153 * mp + 2) / 5 + 1).
  destruct (day_of_year doy Hdoy) as [Hmp Hd]. fold mp in Hmp, Hd. fold d in Hd.
  assert (Hm : forall m, m = (if mp <? 10 then mp + 3 else mp - 9) ->
               1 <= m <= 12 /\ (if 2 <? m then m - 3 else m + 9) = mp /\
               ((m <=? 2) = true <-> 10 <= mp)).
  { intros m ->. destruct (Z.ltb_spec mp 10).
    - destruct (Z.ltb_spec 2 (mp + 3)); [|lia]. rewrite Z.leb_le. lia.
    - destruct (Z.ltb_spec 2 (mp - 9)); [lia|]. rewrite Z.leb_le. lia. }
  destruct (Hm _ eq_refl) as (Hm1 & Hm2 & Hm3).
  set (m := if mp <? 10 then mp + 3 else mp - 9) in *.
  split; [exact Hm1|]. split; [exact Hd|].
  split.
  - unfold days_from_civil. cbv zeta. rewrite Hm2.
    assert (Hy : (if m <=? 2 then yoe + era * 400 + (if m <=? 2 then 1 else 0) - 1
                  else yoe + era * 400 + (if m <=? 2 then 1 else 0)) = yoe + era * 400)
      by (destruct (m <=? 2); lia).
    rewrite Hy.
    assert (Hera : (yoe + era * 400) / 400 = era)
      by (rewrite Z.div_add by lia; rewrite Z.div_small by lia; lia).
    rewrite Hera.
    replace (yoe + era * 400 - era * 400) with yoe by lia.
    subst d doy doe. lia.
  - intros Hz.
    assert (Hera : 0 <= era <= 24) by (subst era; Z.div_mod_to_equations; lia).
    destruct (Z.leb_spec m 2) as [Hle|Hgt]; [|lia].
    assert (Hmp10 : 10 <= mp) by (apply Hm3; reflexivity).
    assert (Hlate : era = 24 -> yoe <= 398).
    { intros E. assert (Hd36 : doe <= 146036) by (subst doe; lia).
      subst mp doy yoe. Z.div_mod_to_equations. lia. }
    lia.
Qed.

Lemma digit_inj (a b : Z) : digit a = digit b -> a mod 10 = b mod 10.
Proof.
  unfold digit. intros H. apply (f_equal nat_of_ascii) in H.
  pose proof (Z.mod_pos_bound a 10 ltac:(lia)). pose proof (Z.mod_pos_bound b 10 ltac:(lia)).
  rewrite !nat_ascii_embedding in H by lia. lia.
Qed.

Lemma dec2_inj (a b : Z) : 0 <= a < 100 -> 0 <= b < 100 -> dec2 a = dec2 b -> a = b.
Proof.
  intros Ha Hb. unfold dec2. intros [= H1 H2].
  apply digit_inj in H1, H2. Z.div_mod_to_equations. lia.
Qed.

Lemma dec4_inj (a b : Z) : 0 <= a < 10000 -> 0 <= b < 10000 -> dec4 a = dec4 b -> a = b.
Proof.
  intros Ha Hb. unfold dec4, dec2. rewrite !append_cons, !append_nil. intros [= H1 H2 H3 H4].
  apply digit_inj in H1, H2, H3, H4. Z.div_mod_to_equations. lia.
Qed.

(** The timestamp names the second: within the range of [datetime], two
    instants are written alike exactly when they fall in the same second. *)
Lemma to_iso_utc_inj (a b : Z) :
  datetime_min <= a <= datetime_max -> datetime_min <= b <= datetime_max ->
  (_to_iso_utc a = _to_iso_utc b <-> second_of a = second_of b).
Proof.
  unfold datetime_min, datetime_max, second_of. intros Ha Hb.
  split; [|unfold _to_iso_utc; intros ->; reflexivity].
  unfold _to_iso_utc. cbv zeta.
  set (sa := a / 1000000). set (sb := b / 1000000).
  assert (Hsa : -62135596800 <= sa <= 253402300799) by (subst sa; Z.div_mod_to_equations; lia).
  assert (Hsb : -62135596800 <= sb <= 253402300799) by (subst sb; Z.div_mod_to_equations; lia).
  pose proof (civil_from_days_inv (sa / 86400)) as Ia.
  pose proof (civil_from_days_inv (sb / 86400)) as Ib.
  destruct (civil_from_days (sa / 86400)) as [[ya ma] da].
  destruct (civil_from_days (sb / 86400)) as [[yb mb] db].
  destruct Ia as (Hma & Hda & Hinva & Hya). destruct Ib as (Hmb & Hdb & Hinvb & Hyb).
  assert (Hra : 0 <= sa mod 86400 < 86400) by (apply Z.mod_pos_bound; lia).
  assert (Hrb : 0 <= sb mod 86400 < 86400) by (apply Z.mod_pos_bound; lia).
  specialize (Hya ltac:(Z.div_mod_to_equations; lia)).
  specialize (Hyb ltac:(Z.div_mod_to_equations; lia)).
  unfold dec4 at 1 2. unfold dec2. rewrite !append_cons, !append_nil.
  intros [= Y1 Y2 Y3 Y4 M1 M2 D1 D2 H1 H2 N1 N2 S1 S2].
  assert (Ey : ya = yb).
  { apply dec4_inj; [lia | lia |]. unfold dec4, dec2. rewrite !append_cons, !append_nil.
    congruence. }
  assert (Em : ma = mb) by (apply dec2_inj; [lia | lia | unfold dec2; congruence]).
  assert (Ed : da = db) by (apply dec2_inj; [lia | lia | unfold dec2; congruence]).
  assert (Eh : sa mod 86400 / 3600 = sb mod 86400 / 3600).
  { apply dec2_inj; [Z.div_mod_to_equations; lia | Z.div_mod_to_equations; lia
                    | unfold dec2; congruence]. }
  assert (En : sa mod 86400 mod 3600 / 60 = sb mod 86400 mod 3600 / 60).
  { apply dec2_inj; [Z.div_mod_to_equations; lia | Z.div_mod_to_equations; lia
                    | unfold dec2; congruence]. }
  assert (Es : sa mod 86400 mod 60 = sb mod 86400 mod 60).
  { apply dec2_inj; [Z.div_mod_to_equations; lia | Z.div_mod_to_equations; lia
                    | unfold dec2; congruence]. }
  assert (Edays : sa / 86400 = sb / 86400) by congruence.
  assert (Er : sa mod 86400 = sb mod 86400).
  { clear - Eh En Es Hra Hrb. Z.div_mod_to_equations. lia. }
  rewrite (Z.div_mod sa 86400), (Z.div_mod sb 86400) by lia. congruence.
Qed.

Lemma to_iso_utc_not_empty (us : Z) : String.eqb (_to_iso_utc us) "" = false.
Proof.
  unfold _to_iso_utc. cbv zeta. destruct (civil_from_days _) as [[y m] d].
  unfold dec4 at 1. unfold dec2 at 1. rewrite !append_cons. reflexivity.
Qed.

Lemma search_url_start_time (q : string) (quick : bool) (s1 s2 : string) :
  String.eqb s1 "" = false -> String.eqb s2 "" = false ->
  (search_url q quick (Some s1) = search_url q quick (Some s2) <-> s1 = s2).
Proof.
  intros H1 H2. split; [|intros ->; reflexivity].
  unfold search_url. rewrite H1, H2. intros H.
  apply append_cancel_l in H. apply (append_cancel_l "/tweets/search/recent?") in H.
  apply urlencode_inj in H. apply app_inv_head in H. congruence.
Qed.

Section Window.

Context {R : PyRuntime}.

(** A search with a time window resolves [start_time] as the current time
    minus the window, written to the second, and puts it into the URL: two
    such searches get the same URL, hence the same cache entry, exactly when
    their start times fall in the same second. *)
Theorem windowed_search_url_names_the_second
    (q : string) (quick : bool) (since : string) (delta t1 t2 : Z) (w : world) :
  since <> "" -> _parse_since since = Ok delta ->
  datetime_min <= t1 - delta <= datetime_max ->
  datetime_min <= t2 - delta <= datetime_max ->
  start_time_of (quick_since (Some since) quick) (set_clock t1 w)
  = (Ok (Some (_to_iso_utc (t1 - delta))), set_clock t1 w) /\
  start_time_of (quick_since (Some since) quick) (set_clock t2 w)
  = (Ok (Some (_to_iso_utc (t2 - delta))), set_clock t2 w) /\
  (search_url q quick (Some (_to_iso_utc (t1 - delta)))
   = search_url q quick (Some (_to_iso_utc (t2 - delta)))
   <-> second_of (t1 - delta) = second_of (t2 - delta)).
Proof.
  intros Hne Hparse H1 H2.
  assert (Hsince : quick_since (Some since) quick = Some since).
  { unfold quick_since, opt_truthy. destruct (String.eqb_spec since ""); [contradiction|].
    rewrite andb_false_r. reflexivity. }
  assert (Hstart : forall t, datetime_min <= t - delta <= datetime_max ->
             start_time_of (Some since) (set_clock t w)
             = (Ok (Some (_to_iso_utc (t - delta))), set_clock t w)).
  { intros t Ht. unfold start_time_of.
    destruct (String.eqb_spec since ""); [contradiction|].
    unfold bind, lift, utcnow, ret. rewrite Hparse. cbn [clock set_clock].
    unfold datetime_sub.
    replace ((t - delta <? datetime_min) || (datetime_max <? t - delta)) with false;
      [reflexivity|].
    symmetry. apply orb_false_intro; apply Z.ltb_ge; lia. }
  rewrite Hsince. split; [apply Hstart; assumption|]. split; [apply Hstart; assumption|].
  rewrite search_url_start_time by apply to_iso_utc_not_empty.
  apply to_iso_utc_inj; assumption.
Qed.

End Window.

(** * The text of the time window *)

Lemma is_space_lower (c : ascii) : is_space (lower_ascii c) = is_space c.
Proof. destruct c as [[] [] [] [] [] [] [] []]; reflexivity. Qed.

Lemma ascii_lstrip_lower (s : string) :
  ascii_lstrip (ascii_lower s) = ascii_lower (ascii_lstrip s).
Proof.
  induction s as [|c s IH]; [reflexivity|].
  cbn [ascii_lower ascii_lstrip]. rewrite is_space_lower.
  destruct (is_space c); [exact IH | reflexivity].
Qed.

Lemma ascii_rstrip_cons (c : ascii) (s : string) :
  ascii_rstrip (String c s)
  = match ascii_rstrip s with
    | EmptyString => if is_space c then EmptyString else String c EmptyString
    | r => String c r
    end.
Proof. reflexivity. Qed.

Lemma ascii_rstrip_lower (s : string) :
  ascii_rstrip (ascii_lower s) = ascii_lower (ascii_rstrip s).
Proof.
  induction s as [|c s IH]; [reflexivity|].
  cbn [ascii_lower]. rewrite !ascii_rstrip_cons, IH, is_space_lower.
  destruct (ascii_rstrip s) as [|d r]; cbn [ascii_lower]; [destruct (is_space c)|]; reflexivity.
Qed.

Lemma ascii_strip_lower (s : string) : ascii_strip (ascii_lower s) = ascii_lower (ascii_strip s).
Proof. unfold ascii_strip. rewrite ascii_lstrip_lower, ascii_rstrip_lower. reflexivity. Qed.

(** Whitespace before and after is dropped. *)
Lemma ascii_lstrip_lead (lead s : string) :
  all_chars is_space lead = true -> ascii_lstrip (lead ++ s) = ascii_lstrip s.
Proof.
  induction lead as [|c lead IH]; [reflexivity|].
  cbn [all_chars]. intros H. apply andb_true_iff in H as [Hc H].
  rewrite append_cons. cbn [ascii_lstrip]. rewrite Hc. apply IH. exact H.
Qed.

Lemma ascii_rstrip_spaces (trail : string) :
  all_chars is_space trail = true -> ascii_rstrip trail = "".
Proof.
  induction trail as [|c trail IH]; [reflexivity|].
  cbn [all_chars]. intros H. apply andb_true_iff in H as [Hc H].
  rewrite ascii_rstrip_cons, (IH H), Hc. reflexivity.
Qed.

Lemma ascii_rstrip_trail (s trail : string) :
  all_chars is_space trail = true -> ascii_rstrip (s ++ trail) = ascii_rstrip s.
Proof.
  intros H. induction s as [|c s IH]; [apply ascii_rstrip_spaces; exact H|].
  rewrite append_cons, !ascii_rstrip_cons, IH. reflexivity.
Qed.

Lemma ascii_lstrip_spaces (trail : string) :
  all_chars is_space trail = true -> ascii_lstrip trail = "".
Proof.
  induction trail as [|c trail IH]; [reflexivity|].
  cbn [all_chars ascii_lstrip]. intros H. apply andb_true_iff in H as [Hc H].
  rewrite Hc. apply IH. exact H.
Qed.

Lemma ascii_lstrip_trail (s trail : string) :
  all_chars is_space trail = true ->
  ascii_rstrip (ascii_lstrip (s ++ trail)) = ascii_rstrip (ascii_lstrip s).
Proof.
  intros H. induction s as [|c s IH].
  - rewrite append_nil, (ascii_lstrip_spaces trail H). reflexivity.
  - rewrite append_cons. cbn [ascii_lstrip]. destruct (is_space c); [exact IH|].
    rewrite <- append_cons. apply ascii_rstrip_trail. exact H.
Qed.

Lemma ascii_strip_around (lead s trail : string) :
  all_chars is_space lead = true -> all_chars is_space trail = true ->
  ascii_strip (lead ++ s ++ trail) = ascii_strip s.
Proof.
  intros Hl Ht. unfold ascii_strip. rewrite ascii_lstrip_lead by exact Hl.
  apply ascii_lstrip_trail. exact Ht.
Qed.

(** Strings of ASCII characters. *)
Lemma is_ascii_app (a b : string) : is_ascii (a ++ b) = is_ascii a && is_ascii b.
Proof.
  induction a as [|c a IH]; [reflexivity|].
  rewrite append_cons. cbn [is_ascii]. rewrite IH, andb_assoc. reflexivity.
Qed.

Lemma is_space_ascii (c : ascii) : is_space c = true -> (nat_of_ascii c <? 128)%nat = true.
Proof. destruct c as [[] [] [] [] [] [] [] []]; cbv; congruence. Qed.

Lemma spaces_ascii (s : string) : all_chars is_space s = true -> is_ascii s = true.
Proof.
  induction s as [|c s IH]; [reflexivity|].
  cbn [all_chars is_ascii]. intros H. apply andb_true_iff in H as [Hc H].
  rewrite (is_space_ascii c Hc), (IH H). reflexivity.
Qed.

Lemma ascii_lstrip_ascii (s : string) : is_ascii s = true -> is_ascii (ascii_lstrip s) = true.
Proof.
  induction s as [|c s IH]; [reflexivity|].
  intros H. cbn [ascii_lstrip]. destruct (is_space c); [|exact H].
  apply IH. cbn [is_ascii] in H. apply andb_true_iff in H. tauto.
Qed.

Lemma ascii_rstrip_ascii (s : string) : is_ascii s = true -> is_ascii (ascii_rstrip s) = true.
Proof.
  induction s as [|c s IH]; [reflexivity|].
  cbn [is_ascii]. intros H. apply andb_true_iff in H as [Hc H].
  rewrite ascii_rstrip_cons. specialize (IH H).
  destruct (ascii_rstrip s) as [|d r].
  - destruct (is_space c); [reflexivity|]. cbn [is_ascii]. rewrite Hc. reflexivity.
  - cbn [is_ascii] in *. rewrite Hc. exact IH.
Qed.

(** The characters of a string of ASCII characters are its bytes. *)
Lemma characters_head (c : ascii) (rest : string) :
  exists tail chs, characters (String c rest) = String c tail :: chs.
Proof.
  cbn [characters]. destruct (characters rest) as [|[|d ch] chs]; eauto.
  destruct (is_continuation d); eauto.
Qed.

Lemma ascii_not_continuation (c : ascii) :
  (nat_of_ascii c <? 128)%nat = true -> is_continuation c = false.
Proof. destruct c as [[] [] [] [] [] [] [] []]; cbv; congruence. Qed.

Lemma characters_cons_ascii (c : ascii) (rest : string) :
  is_ascii rest = true ->
  characters (String c rest) = String c EmptyString :: characters rest.
Proof.
  intros H. destruct rest as [|d rest']; [reflexivity|].
  destruct (characters_head d rest') as (tail & chs & E).
  change (characters (String c (String d rest')))
    with (match characters (String d rest') with
          | (String d _ as ch) :: chs =>
              if is_continuation d then String c ch :: chs
              else String c EmptyString :: ch :: chs
          | chs => String c EmptyString :: chs
          end).
  rewrite E. cbn [is_ascii] in H. apply andb_true_iff in H as [Hd _].
  rewrite (ascii_not_continuation d Hd). reflexivity.
Qed.

Lemma lstrip_characters (s : string) :
  is_ascii s = true -> lstrip (characters s) = characters (ascii_lstrip s).
Proof.
  induction s as [|c s IH]; [reflexivity|].
  intros H. pose proof H as H'. cbn [is_ascii] in H'. apply andb_true_iff in H' as [_ Hs].
  rewrite (characters_cons_ascii c s Hs). cbn [lstrip is_whitespace ascii_lstrip].
  destruct (is_space c); [apply IH; exact Hs|].
  rewrite (characters_cons_ascii c s Hs). reflexivity.
Qed.

Lemma lstrip_app_single (chs : list string) (ch : string) :
  lstrip (chs ++ [ch])%list
  = match lstrip chs with
    | [] => if is_whitespace ch then [] else [ch]
    | r => (r ++ [ch])%list
    end.
Proof.
  induction chs as [|x chs IH]; [reflexivity|].
  cbn [app lstrip]. destruct (is_whitespace x); [exact IH | reflexivity].
Qed.

Lemma rstrip_cons (ch : string) (chs : list string) :
  rstrip (ch :: chs)
  = match rstrip chs with
    | [] => if is_whitespace ch then [] else [ch]
    | r => ch :: r
    end.
Proof.
  unfold rstrip. cbn [rev]. rewrite lstrip_app_single.
  destruct (lstrip (rev chs)) as [|x r]; [destruct (is_whitespace ch); reflexivity|].
  rewrite rev_app_distr. cbn [rev app].
  destruct (rev r ++ [x])%list eqn:E; [|reflexivity].
  apply app_eq_nil in E as [_ E]. discriminate.
Qed.

Lemma rstrip_characters (s : string) :
  is_ascii s = true -> rstrip (characters s) = characters (ascii_rstrip s).
Proof.
  induction s as [|c s IH]; [reflexivity|].
  cbn [is_ascii]. intros H. apply andb_true_iff in H as [_ Hs].
  rewrite (characters_cons_ascii c s Hs), rstrip_cons, ascii_rstrip_cons, (IH Hs).
  pose proof (ascii_rstrip_ascii s Hs) as Hr.
  destruct (ascii_rstrip s) as [|d r].
  - cbn [characters is_whitespace]. destruct (is_space c); reflexivity.
  - rewrite (characters_cons_ascii c (String d r) Hr).
    destruct (characters_head d r) as (tail & chs & ->). reflexivity.
Qed.

Lemma text_of_characters (s : string) : text_of (characters s) = s.
Proof.
  induction s as [|c s IH]; [reflexivity|].
  cbn [characters]. destruct (characters s) as [|[|d ch] chs].
  - cbn [text_of] in *. rewrite <- IH. reflexivity.
  - cbn [text_of] in *. rewrite append_cons, append_nil. rewrite append_nil in IH.
    rewrite IH. reflexivity.
  - destruct (is_continuation d); cbn [text_of] in *.
    + rewrite append_cons, IH. reflexivity.
    + rewrite append_cons, append_nil, IH. reflexivity.
Qed.

(** On a string of ASCII characters [strip] works byte by byte. *)
Lemma strip_ascii (s : string) : is_ascii s = true -> strip s = ascii_strip s.
Proof.
  intros H. unfold strip, ascii_strip.
  rewrite (lstrip_characters s H), rstrip_characters by (apply ascii_lstrip_ascii; exact H).
  apply text_of_characters.
Qed.

Lemma ascii_strip_ascii (s : string) : is_ascii s = true -> is_ascii (ascii_strip s) = true.
Proof. intros H. apply ascii_rstrip_ascii, ascii_lstrip_ascii, H. Qed.

Lemma last_char_app (raw : string) (c : ascii) :
  last_char (raw ++ String c EmptyString) = Some c.
Proof.
  induction raw as [|x raw IH]; [reflexivity|].
  rewrite append_cons. cbn [last_char]. rewrite IH.
  destruct raw; reflexivity.
Qed.

Lemma drop_last_app (raw : string) (c : ascii) :
  drop_last (raw ++ String c EmptyString) = raw.
Proof.
  induction raw as [|x raw IH]; [reflexivity|].
  rewrite append_cons. cbn [drop_last]. rewrite IH.
  destruct raw; reflexivity.
Qed.

Section Normal.

Context {R : PyRuntime}.

(** The text [_parse_since] reads, for a window of ASCII characters. *)
Lemma since_text_ascii (value : string) :
  is_ascii value = true -> lower (strip value) = ascii_lower (ascii_strip value).
Proof.
  intros H. rewrite (strip_ascii value H).
  apply lower_of_ascii. apply ascii_strip_ascii. exact H.
Qed.

(** [_parse_since] reads its argument stripped of surrounding whitespace
    and lower-cased.  What is left is a number and a unit: the text before a
    final [h] (or [d]) is handed to [float()] and the result to [timedelta]
    as hours (or days); when [float()] rejects the text, its [ValueError] is
    the outcome.  For a window of ASCII characters, neither the case of its
    letters nor ASCII whitespace around it changes the outcome. *)
Theorem since_is_a_number_and_a_unit (value : string) :
  (forall number,
     lower (strip value) = number ++ "h" ->
     _parse_since value = (let? x := float number in py_timedelta Hours x)) /\
  (forall number,
     lower (strip value) = number ++ "d" ->
     _parse_since value = (let? x := float number in py_timedelta Days x)) /\
  (forall number,
     lower (strip value) = number ++ "h" \/ lower (strip value) = number ++ "d" ->
     py_float_of_str number = None ->
     _parse_since value
     = raise ValueError ("could not convert string to float: " ++ py_repr (JStr number))) /\
  (is_ascii value = true ->
   _parse_since (ascii_lower value) = _parse_since value /\
   (forall lead trail,
      all_chars is_space lead = true -> all_chars is_space trail = true ->
      _parse_since (lead ++ value ++ trail) = _parse_since value)).
Proof.
  assert (Hh : forall number, lower (strip value) = number ++ "h" ->
                 _parse_since value = (let? x := float number in py_timedelta Hours x)).
  { intros number E. unfold _parse_since. rewrite E, last_char_app, drop_last_app. reflexivity. }
  assert (Hd : forall number, lower (strip value) = number ++ "d" ->
                 _parse_since value = (let? x := float number in py_timedelta Days x)).
  { intros number E. unfold _parse_since. rewrite E, last_char_app, drop_last_app. reflexivity. }
  split; [exact Hh|]. split; [exact Hd|]. split.
  - intros number [E|E] Hnone; [rewrite (Hh _ E) | rewrite (Hd _ E)];
      unfold float; rewrite Hnone; reflexivity.
  - intros Hascii. split.
    + unfold _parse_since.
      rewrite since_text_ascii by (rewrite is_ascii_lower; exact Hascii).
      rewrite (since_text_ascii value Hascii), ascii_strip_lower, ascii_lower_idem.
      reflexivity.
    + intros lead trail Hl Ht. unfold _parse_since.
      rewrite since_text_ascii
        by (rewrite !is_ascii_app, Hascii, (spaces_ascii lead Hl), (spaces_ascii trail Ht);
            reflexivity).
      rewrite (since_text_ascii value Hascii), ascii_strip_around by assumption.
      reflexivity.
Qed.

End Normal.

(** * HTTP error details and argument validators *)

Lemma take_chars_length (n : nat) (s : string) : (char_length (take_chars n s) <= n)%nat.
Proof.
  revert n. induction s as [|c s IH]; intros n; cbn [take_chars char_length]; [lia|].
  destruct (is_continuation c) eqn:Hc; cbn [char_length].
  - rewrite Hc. apply IH.
  - destruct n as [|k]; cbn [char_length]; [lia|]. rewrite Hc. specialize (IH k). lia.
Qed.

Lemma take_chars_short (n : nat) (s : string) :
  (char_length s <= n)%nat -> take_chars n s = s.
Proof.
  revert n. induction s as [|c s IH]; intros n; cbn [take_chars char_length]; [reflexivity|].
  destruct (is_continuation c); intros H.
  - rewrite IH by assumption. reflexivity.
  - destruct n as [|k]; [lia|]. rewrite IH by lia. reflexivity.
Qed.

Lemma take_chars_not_empty (n : nat) (s : string) :
  String.eqb s "" = false -> String.eqb (take_chars (S n) s) "" = false.
Proof.
  destruct s as [|c s]; [discriminate|]. intros _. cbn [take_chars].
  destruct (is_continuation c); reflexivity.
Qed.

Lemma py_or_no_value (d : list (string * json)) (key : string) (x : json) :
  no_value d key ->
  py_or (match assoc key d with Some v => v | None => JNull end) x = x.
Proof.
  unfold no_value, py_or. destruct (assoc key d) as [v|]; [intros ->|]; reflexivity.
Qed.

Section DetailProperties.

Context {R : PyRuntime}.

(** The detail [_get] extracts from the body of an HTTP error.  It is
    [no additional details] when the body cannot be read, is empty or blank,
    is JSON but no object, or is an object without a usable field.  Of a
    body that is not JSON it is the text with every run of whitespace
    collapsed to one space, cut to 160 characters: never empty, never
    longer.  Of a JSON object whose [errors] is a list that starts with an
    object, only that first error is read ([message], then [detail], then
    [title]); otherwise the object's own [detail], [title] and [error] are.
    The detail ends the message of the [XRadarError] raised. *)
Theorem http_error_detail_is_short_and_never_empty :
  (forall e, http_error_detail (Raise e) = "no additional details") /\
  (forall s,
     http_error_detail (Ok (OtherText s)) <> "" /\
     (char_length (http_error_detail (Ok (OtherText s))) <= 160)%nat /\
     (str_split s = [] -> http_error_detail (Ok (OtherText s)) = "no additional details") /\
     (s <> "" -> space_join (str_split s) <> "" ->
      (char_length (space_join (str_split s)) <= 160)%nat ->
      http_error_detail (Ok (OtherText s)) = space_join (str_split s))) /\
  (forall j, type_name j <> "dict" ->
     http_error_detail (Ok (JsonText j)) = "no additional details") /\
  (forall fields first rest,
     assoc "errors" fields = Some (JArr (JObj first :: rest)) ->
     http_error_detail (Ok (JsonText (JObj fields)))
     = http_error_detail (Ok (JsonText (JObj [("errors", JArr [JObj first])]))) /\
     (forall m, assoc "message" first = Some (JStr m) -> m <> "" ->
        http_error_detail (Ok (JsonText (JObj fields))) = m) /\
     (forall m, no_value first "message" -> assoc "detail" first = Some (JStr m) -> m <> "" ->
        http_error_detail (Ok (JsonText (JObj fields))) = m) /\
     (no_value first "message" -> no_value first "detail" -> no_value first "title" ->
        http_error_detail (Ok (JsonText (JObj fields))) = "no additional details")) /\
  (forall fields,
     no_value fields "errors" ->
     (forall m, assoc "detail" fields = Some (JStr m) -> m <> "" ->
        http_error_detail (Ok (JsonText (JObj fields))) = m) /\
     (no_value fields "detail" -> no_value fields "title" -> no_value fields "error" ->
        http_error_detail (Ok (JsonText (JObj fields))) = "no additional details")) /\
  (forall url ttl no_cache w t code reason body,
     has_scheme url = true -> cached url ttl no_cache w = JNull -> credential w = Some t ->
     provider w url = RespHTTPError code reason (http_error_detail body) ->
     _get url ttl no_cache w
     = (raise XRadarError (http_error_message code reason body), after_request url w)).
Proof.
  split; [reflexivity|]. split; [|split; [|split; [|split]]].
  - intros s. cbn [http_error_detail].
    destruct (String.eqb_spec s "") as [->|Hs].
    + split; [discriminate|]. split; [apply Nat.leb_le; vm_compute; reflexivity|].
      split; [reflexivity|]. contradiction.
    + cbv zeta. destruct (String.eqb_spec (space_join (str_split s)) "") as [Hc|Hc].
      * split; [discriminate|]. split; [apply Nat.leb_le; vm_compute; reflexivity|].
      split; [reflexivity|]. contradiction.
      * split.
        { intros E. pose proof (take_chars_not_empty 159 (space_join (str_split s))) as H.
          rewrite E in H.
          destruct (String.eqb_spec (space_join (str_split s)) ""); [contradiction|].
          specialize (H eq_refl). discriminate H. }
        split; [apply take_chars_length|].
        split; [intros E; rewrite E in Hc; contradiction Hc; reflexivity|].
        intros _ _ Hshort. apply take_chars_short. exact Hshort.
  - intros j Hj. destruct j; try reflexivity. contradiction Hj. reflexivity.
  - intros fields first rest Herrors. cbn [http_error_detail]. rewrite Herrors.
    split; [reflexivity|]. split; [|split].
    + intros m Hm Hne. rewrite Hm. unfold py_or at 1. cbn [truthy].
      destruct (String.eqb_spec m ""); [contradiction | reflexivity].
    + intros m Hno Hm Hne. rewrite (py_or_no_value first "message") by assumption.
      rewrite Hm. unfold py_or at 1. cbn [truthy].
      destruct (String.eqb_spec m ""); [contradiction | reflexivity].
    + intros H1 H2 H3. rewrite !py_or_no_value by assumption. reflexivity.
  - intros fields Herrors.
    assert (Hdetail :
      http_error_detail (Ok (JsonText (JObj fields)))
      = py_str (py_or (match assoc "detail" fields with Some v => v | None => JNull end)
                  (py_or (match assoc "title" fields with Some v => v | None => JNull end)
                     (py_or (match assoc "error" fields with Some v => v | None => JNull end)
                        (JStr no_details))))).
    { cbn [http_error_detail]. unfold no_value in Herrors.
      destruct (assoc "errors" fields) as [v|]; [|reflexivity].
      destruct v as [| | | | |items|]; try reflexivity.
      destruct items as [|x items]; [reflexivity | discriminate Herrors]. }
    rewrite Hdetail. split.
    + intros m Hm Hne. rewrite Hm. unfold py_or at 1. cbn [truthy].
      destruct (String.eqb_spec m ""); [contradiction | reflexivity].
    + intros H1 H2 H3. rewrite !py_or_no_value by assumption. reflexivity.
  - intros url ttl no_cache w t code reason body Hs Hc Ht Hp.
    rewrite (get_miss_outcome _ _ _ _ t) by assumption. rewrite Hp. reflexivity.
Qed.

(** [_positive_int] accepts exactly the strings [int()] reads as an
    integer of at least 1, [_non_negative_int] those of at least 0; any
    other string is rejected with [ArgumentTypeError], [must be an integer]
    when [int()] rejects it and the bound otherwise.  A limit
    [_positive_int] accepted is applied as it is: at most [limit] items are
    returned. *)
Theorem limits_are_validated :
  (forall value n, _positive_int value = Ok n <-> py_int_of_str value = Some n /\ 1 <= n) /\
  (forall value n, _non_negative_int value = Ok n <-> py_int_of_str value = Some n /\ 0 <= n) /\
  (forall value,
     py_int_of_str value = None ->
     _positive_int value = raise ArgumentTypeError "must be an integer" /\
     _non_negative_int value = raise ArgumentTypeError "must be an integer") /\
  (forall value n,
     py_int_of_str value = Some n ->
     (n < 1 -> _positive_int value = raise ArgumentTypeError "must be >= 1") /\
     (n < 0 -> _non_negative_int value = raise ArgumentTypeError "must be >= 0")) /\
  (forall value limit tweets ml mr mt sort out,
     _positive_int value = Ok limit ->
     rank tweets ml mr mt sort limit = Ok out ->
     Z.of_nat (length out) <= limit).
Proof.
  unfold _positive_int, _non_negative_int. cbn [py_int].
  split; [|split; [|split; [|split]]].
  - intros value n. destruct (py_int_of_str value) as [k|]; cbn [is_ValueError exn_cls raise].
    + destruct (Z.ltb_spec k 1); split; try discriminate.
      * intros [[= ->] H1]. lia.
      * intros [= ->]. split; [reflexivity | assumption].
      * intros [[= ->] _]. reflexivity.
    + split; [discriminate | intros [[=] _]].
  - intros value n. destruct (py_int_of_str value) as [k|]; cbn [is_ValueError exn_cls raise].
    + destruct (Z.ltb_spec k 0); split; try discriminate.
      * intros [[= ->] H1]. lia.
      * intros [= ->]. split; [reflexivity | assumption].
      * intros [[= ->] _]. reflexivity.
    + split; [discriminate | intros [[=] _]].
  - intros value ->. split; reflexivity.
  - intros value n ->. split; intros Hn.
    + destruct (Z.ltb_spec n 1); [reflexivity | lia].
    + destruct (Z.ltb_spec n 0); [reflexivity | lia].
  - intros value limit tweets ml mr mt sort out Hv Hrank.
    destruct (py_int_of_str value) as [k|]; [|discriminate].
    destruct (Z.ltb_spec k 1); [discriminate|]. injection Hv as ->.
    pose proof (rank_drawn _ _ _ _ _ _ _ Hrank) as (_ & _ & Hlen). lia.
Qed.

End DetailProperties.

(** * The properties on sample data *)

Lemma empty_cache_misses (url : string) (ttl : Z) (no_cache : bool) (w : world) :
  cache_files w = ∅ -> cached url ttl no_cache w = JNull.
Proof.
  intros H. unfold cached, cache_lookup. rewrite H, lookup_empty.
  destruct (negb no_cache && (0 <? ttl)); reflexivity.
Qed.

Lemma no_cache_bypasses_the_cache_witness :
  fst (_get (R := Reference.runtime) (tweet_url "1") 900 true bypass_world)
  = Ok (other_payload, false) /\
  cache_files (snd (_get (R := Reference.runtime) (tweet_url "1") 900 true bypass_world))
  = cache_files bypass_world.
Proof.
  destruct (proj1 (no_cache_bypasses_the_cache (R := Reference.runtime))
              (tweet_url "1") 900 true bypass_world) as (Hget & _ & Hfiles & _);
    [left; reflexivity|].
  split; [rewrite Hget, fetch_eq; reflexivity | exact Hfiles].
Defined.


Lemma undecodable_body_is_reported_as_invalid_arguments_witness :
  exists msg,
    main (R := Reference.runtime) (CmdTweet "1" false) undecodable_world
    = ((DocError "invalid_arguments" msg, 2), after_request (tweet_url "1") undecodable_world).
Proof.
  destruct (undecodable_body_is_reported_as_invalid_arguments (R := Reference.runtime)
              (CmdTweet "1" false) None undecodable_world "token")
    as (msg & _ & Hmain);
    [reflexivity | apply empty_cache_misses; reflexivity | reflexivity | reflexivity |].
  exists msg. exact Hmain.
Defined.

Lemma list_payload_fetched :
  _get (R := Reference.runtime) (tweet_url "1") 900 false list_payload_world
  = (Ok (list_payload, false),
     cache_store (R := Reference.runtime) (tweet_url "1") list_payload
       (after_request (tweet_url "1") list_payload_world)).
Proof.
  rewrite (get_miss_outcome _ _ _ _ "token");
    [reflexivity | reflexivity | apply empty_cache_misses; reflexivity | reflexivity].
Qed.

Lemma non_object_payload_is_cached_before_it_is_read_witness :
  let w1 := cache_store (R := Reference.runtime) (tweet_url "1") list_payload
              (after_request (tweet_url "1") list_payload_world) in
  let w2 := set_clock (clock w1 + 900000000) w1 in
  let report := (DocError "internal_error"
                   "AttributeError: 'list' object has no attribute 'get'", 1) in
  main (R := Reference.runtime) (CmdTweet "1" false) list_payload_world = (report, w1) /\
  main (R := Reference.runtime) (CmdTweet "1" false) w2 = (report, w2).
Proof.
  intros w1 w2 report.
  destruct (non_object_payload_is_cached_before_it_is_read (R := Reference.runtime)
              (CmdTweet "1" false) None list_payload_world w1 list_payload)
    as [Hfirst Hagain];
    [reflexivity | exact list_payload_fetched | discriminate |].
  split; [exact Hfirst|].
  apply (Hagain eq_refl eq_refl eq_refl); [discriminate | cbn; lia | reflexivity].
Defined.



Lemma results_are_drawn_from_the_payload_witness :
  ue_returned alice_envelope = Z.of_nat (length (ue_data alice_envelope)) /\
  ue_returned alice_envelope <= Z.max 1 10.
Proof.
  destruct (proj2 (results_are_drawn_from_the_payload (R := Reference.runtime))
              _ _ _ _ _ _ _ _ _ partly_cached_run)
    as (user_raw & raw & w1 & _ & _ & _ & _ & Hreturned & Hlimit & _).
  split; assumption.
Defined.

Lemma sample_search_returns :
  exists e w1,
    search_recent (R := Reference.runtime) "x" 10 "likes" None 0 0 0 false sample_world
    = (Ok e, w1) /\ requests (se_cost e) = 1.
Proof. vm_compute. eexists. eexists. split; reflexivity. Qed.

Lemma repeat_within_the_ttl_is_served_from_the_cache_witness :
  exists e w1,
    search_recent (R := Reference.runtime) "x" 10 "likes" None 0 0 0 false sample_world
    = (Ok e, w1) /\
    search_recent (R := Reference.runtime) "x" 10 "likes" None 0 0 0 false
      (set_clock (clock w1 + 900000000) w1)
    = (Ok (SearchEnvelope (se_query e) (se_since e) (se_sort e) (se_quick e) (se_filters e)
             (se_returned e) (Cost 0 0 0) (se_data e) (se_includes e) (se_meta e)),
       set_clock (clock w1 + 900000000) w1) /\
    requested (set_clock (clock w1 + 900000000) w1) = [search_url "x" false None].
Proof.
  destruct sample_search_returns as (e & w1 & Hrun & Hreq).
  exists e, w1. split; [exact Hrun|].
  destruct (repeat_within_the_ttl_is_served_from_the_cache (R := Reference.runtime)
              sample_world 900000000) as [Hsearch _];
    [reflexivity | lia | intros url raw [= <-]; reflexivity |].
  exact (Hsearch _ _ _ _ _ _ _ _ Hrun Hreq).
Defined.

Lemma timeline_ranked :
  rank (R := Reference.runtime) timeline 0 0 0 "likes" 2
  = Ok [ tweet "2026-01-02T00:00:00Z" (JInt 5) (JInt 2);
         tweet "2026-01-01T00:00:00Z" (JInt 1) (JInt 0) ].
Proof. vm_compute. reflexivity. Qed.

Lemma limit_keeps_the_best_ranked_witness :
  exists kept dropped,
    _filter_tweets (R := Reference.runtime) timeline 0 0 0 = Ok kept /\
    Permutation ([ tweet "2026-01-02T00:00:00Z" (JInt 5) (JInt 2);
                   tweet "2026-01-01T00:00:00Z" (JInt 1) (JInt 0) ] ++ dropped) kept /\
    (forall y, In y dropped ->
       key_ge (key_of (R := Reference.runtime) "likes"
                 (tweet "2026-01-01T00:00:00Z" (JInt 1) (JInt 0)))
              (key_of (R := Reference.runtime) "likes" y)).
Proof.
  destruct (limit_keeps_the_best_ranked (R := Reference.runtime) _ _ _ _ _ _ _ timeline_ranked)
    as (kept & dropped & Hkept & Hperm & Habove & _).
  exists kept, dropped. split; [exact Hkept|]. split; [exact Hperm|].
  intros y Hy. apply Habove; [right; left; reflexivity | exact Hy].
Defined.

Lemma rank_is_idempotent_witness :
  rank (R := Reference.runtime)
    [ tweet "2026-01-02T00:00:00Z" (JInt 5) (JInt 2);
      tweet "2026-01-01T00:00:00Z" (JInt 1) (JInt 0) ] 0 0 0 "likes" 2
  = Ok [ tweet "2026-01-02T00:00:00Z" (JInt 5) (JInt 2);
         tweet "2026-01-01T00:00:00Z" (JInt 1) (JInt 0) ].
Proof. exact (rank_is_idempotent (R := Reference.runtime) _ _ _ _ _ _ _ timeline_ranked). Defined.

Lemma day_window : _parse_since (R := Reference.runtime) "24h" = Ok 86400000000.
Proof. vm_compute. reflexivity. Qed.

Lemma windowed_search_url_names_the_second_witness :
  start_time_of (R := Reference.runtime) (quick_since (Some "24h") true)
    (set_clock 1770988245123456 no_token_world)
  = (Ok (Some (_to_iso_utc (1770988245123456 - 86400000000))),
     set_clock 1770988245123456 no_token_world) /\
  (search_url "x" true (Some (_to_iso_utc (1770988245123456 - 86400000000)))
   = search_url "x" true (Some (_to_iso_utc (1770988246000000 - 86400000000)))
   <-> second_of (1770988245123456 - 86400000000) = second_of (1770988246000000 - 86400000000)).
Proof.
  destruct (windowed_search_url_names_the_second (R := Reference.runtime)
              "x" true "24h" 86400000000 1770988245123456 1770988246000000 no_token_world)
    as (Hstart & _ & Hurl);
    [discriminate | exact day_window | unfold datetime_min, datetime_max; lia
    | unfold datetime_min, datetime_max; lia |].
  split; [exact Hstart | exact Hurl].
Defined.

Lemma http_error_detail_is_short_and_never_empty_witness :
  http_error_detail (R := Reference.runtime)
    (Ok (JsonText (JObj [("title", JStr "Too Many Requests");
                         ("errors", JArr [JObj [("message", JStr "Rate limit exceeded")]])])))
  = "Rate limit exceeded".
Proof.
  destruct (http_error_detail_is_short_and_never_empty (R := Reference.runtime))
    as (_ & _ & _ & Herrors & _).
  destruct (Herrors [("title", JStr "Too Many Requests");
                     ("errors", JArr [JObj [("message", JStr "Rate limit exceeded")]])]
              [("message", JStr "Rate limit exceeded")] [] eq_refl) as (_ & Hmessage & _).
  apply Hmessage; [reflexivity | discriminate].
Defined.

Lemma limits_are_validated_witness :
  _positive_int (R := Reference.runtime) "15" = Ok 15 /\
  _non_negative_int (R := Reference.runtime) "0" = Ok 0 /\
  _positive_int (R := Reference.runtime) "0" = raise ArgumentTypeError "must be >= 1".
Proof.
  destruct (limits_are_validated (R := Reference.runtime)) as (Hpos & Hnn & _ & Hlow & _).
  split; [apply Hpos; split; [reflexivity | lia]|].
  split; [apply Hnn; split; [reflexivity | lia]|].
  apply (proj1 (Hlow "0" 0 eq_refl)). lia.
Defined.

Lemma since_is_a_number_and_a_unit_witness :
  _parse_since (R := Reference.runtime) "12H" = Ok 43200000000 /\
  _parse_since (R := Reference.runtime) "12h" = _parse_since (R := Reference.runtime) "12H" /\
  _parse_since (R := Reference.runtime) (" " ++ "12H" ++ "  ")
  = _parse_since (R := Reference.runtime) "12H".
Proof.
  destruct (since_is_a_number_and_a_unit (R := Reference.runtime) "12H")
    as (Hhours & _ & _ & Hascii).
  destruct (Hascii eq_refl) as [Hcase Hspace].
  split; [rewrite (Hhours "12" eq_refl); reflexivity|].
  split; [exact Hcase | apply Hspace; reflexivity].
Defined.

Lemma bearer_prefers_x_bearer_token_witness :
  _bearer sample_world = (Ok "token", sample_world).
Proof.
  apply (proj1 (bearer_prefers_x_bearer_token sample_world)); [reflexivity | discriminate].
Defined.

Lemma sort_mode_falls_back_to_recent_witness :
  rank (R := Reference.runtime) timeline 0 0 0 "newest" 2
  = rank (R := Reference.runtime) timeline 0 0 0 "recent" 2.
Proof.
  destruct (sort_mode_falls_back_to_recent (R := Reference.runtime)) as (_ & _ & Hother).
  apply (Hother "newest"); discriminate.
Defined.

Lemma lookup_url_identifies_the_username_witness :
  lookup_url "@alice" = lookup_url "alice".
Proof.
  apply (proj1 (proj2 (proj2 (lookup_url_identifies_the_username (R := Reference.runtime))))).
  reflexivity.
Defined.

Lemma tweet_url_identifies_the_id_witness :
  tweet_url "2021125408075415667"
  = API ++ "/tweets?ids=" ++ "2021125408075415667" ++
    "&tweet.fields=created_at%2Cpublic_metrics%2Cauthor_id%2Cconversation_id" ++
    "&expansions=author_id&user.fields=username%2Cname%2Cverified".
Proof. apply (proj1 (proj2 tweet_url_identifies_the_id)). reflexivity. Defined.



Lemma fetch_populates_the_cache_witness :
  let u := tweet_url "1" in
  let w1 := snd (_get (R := Reference.runtime) u 900 false sample_world) in
  let w2 := set_clock (clock w1 + 900000000) w1 in
  _get (R := Reference.runtime) u 900 false w2 = (Ok (sample_payload, true), w2) /\
  requested w2 = [u].
Proof.
  intros u w1 w2.
  destruct (fetch_populates_the_cache (R := Reference.runtime) u 900 sample_world w1
              sample_payload) as [Hstored _];
    [lia | reflexivity | vm_compute; reflexivity |].
  apply Hstored; [reflexivity | discriminate | lia].
Defined.


Lemma quick_search_returns :
  exists e w',
    search_recent (R := Reference.runtime) "civic tech" 10 "likes" None 0 0 0 true quick_world
    = (Ok e, w') /\ requests (se_cost e) = 1.
Proof. vm_compute. eexists. eexists. split; reflexivity. Qed.

Lemma quick_mode_defaults_witness :
  exists e w',
    search_recent (R := Reference.runtime) "civic tech" 10 "likes" None 0 0 0 true quick_world
    = (Ok e, w') /\
    se_query e = "civic tech -is:retweet -is:reply" /\ se_since e = Some "24h" /\
    requested w'
    = [ "https://api.x.com/2/tweets/search/recent?query=civic+tech+-is%3Aretweet+-is%3Areply" ++
        "&max_results=10" ++
        "&tweet.fields=created_at%2Cpublic_metrics%2Cauthor_id%2Cconversation_id" ++
        "&expansions=author_id&user.fields=username%2Cname%2Cverified" ++
        "&start_time=2026-02-12T13%3A10%3A45Z" ].
Proof.
  destruct quick_search_returns as (e & w' & Hrun & Hreq).
  exists e, w'. split; [exact Hrun|].
  destruct (quick_mode_defaults (R := Reference.runtime))
    as (_ & _ & _ & _ & _ & _ & _ & Hsearch & _).
  destruct (Hsearch _ _ _ _ _ _ _ _ _ _ _ Hrun) as (Hquery & Hsince & st & Hst & Hrequested).
  split; [exact Hquery|]. split; [exact Hsince|].
  rewrite Hrequested, Hreq. vm_compute in Hst. injection Hst as <-.
  vm_compute. reflexivity.
Defined.
